(* ===== verification/_CoqProject ===== *)
-Q . S2P
Prelude.v
GoMonad.v
Float64.v
Strconv.v
StrconvRef.v
Prometheus.v
Http.v
Json.v
JsonRef.v
Stats.v
Runtime.v
Collector.v
Registry.v
Process.v
Main.v
Spec.v
