(* ===== verification/Prelude.v ===== *)
(** * ttnPrometheusExporter: a verification development

    The program ([src/main.go], [src/exporter/ttn_exporter.go]) is a
    Prometheus exporter.  [main] calls [serverMetrics], which puts the
    handler of the registry at the metrics path, reads the token and the
    gateway from the environment, calls [Register] to register a
    [ttnCollector] and serves.  On every scrape the registry calls
    [ttnCollector.Collect], which sends one HTTP GET to the connection
    statistics endpoint of The Things Network for one gateway, decodes
    the JSON answer into a [GatewayConnectionStats] and sends ten gauge
    metrics on the channel it was given.  [ttnCollector.Describe] sends
    the descriptors the collector advertises.

    ** Files, in dependency order

    - [Prelude] (this file): the libraries every file loads, the tactics
      and hint databases of the development, lemmas on strings,
      characters and lists that several components share.
    - [GoMonad]: the effects of a Go function body as a monad
      [Go S A := S -> result A * S]: a result is [Returned a] or
      [Panicked msg]; [defer_] runs a deferred call on both exits;
      [deref] is the nil check of a pointer dereference.  Weakest
      preconditions [wp] with a normal and a panic postcondition, step
      equations for running a sequence, an equivalence of computations
      with its [Proper] instances, and [appends], the frame property of
      operations that only extend a log.
    - [Float64]: Go's [float64] as [spec_float] (binary64, precision 53,
      [emax] 1024), the conversion [float64(x)] of an int as
      [float64_of_int], Go's [int] as [Z] with the 64-bit range as a
      predicate.
    - [Strconv]: the class [Strconv], the laws of [strconv.ParseFloat]
      the theorems use.  [StrconvRef]: a reference instance, a scanner
      after the library's [readFloat] with exact rounding.
    - [Prometheus]: the part of client_golang the collector calls:
      [BuildFQName], [NewDesc], [MustNewConstMetric].
    - [Http]: requests, responses, the three outcomes of [Client.Do], the
      class [NetUrl] for the URL check of [http.NewRequest] and a
      reference instance.
    - [Json]: JSON values and the decoding steps of [encoding/json] for
      strings, ints, floats, times, structs and slices (the first type
      error is saved and decoding goes on, an error of [UnmarshalJSON]
      stops it); the classes [JsonSyntax] and [TimeFormat]; the
      properties every decoder keeps ([preserves]).  [JsonRef]: a
      reference parser and an RFC 3339 check as instances.
    - [Stats]: the struct [GatewayConnectionStats] of [ttn_exporter.go]
      lines 188-231 with a record for each nested struct, the zero
      values, and the decoder its field types and json tags determine;
      the invariant that every int stays in range; what decoding does
      with unknown members, bad time stamps and fractional counters.
    - [Runtime]: the world a scrape runs in, [World]: the answers of the
      transport and the trace of events (round trips, reads and closes of
      bodies, log lines, descriptors and metrics sent); the operations on
      it; well-formed worlds and open bodies.
    - [Collector]: [namespace], [ttnCollector], [newTtnCollector],
      [Describe] and [Collect] (lines 16-178), statement by statement,
      and the theorems about them.  [Collect] is split where the source
      has its [defer]: [Collect] up to line 113, [read_and_send] for
      lines 115-127, [send_stats] for the ten sends of lines 128-177.
    - [Registry]: the registry of client_golang as data: collectors by
      identity, descriptor identities, help by name; the checks of
      [Register], [Unregister], and what is gathered.  The registry of
      a list of entries ([registry_of]) and the lemmas on registering a
      collector with new names, one that is registered, and on
      unregistering one.
    - [Process]: the state of the running program, a record [Process]
      of the world, the registry, the serve mux, the flag set, the
      command line, the environment, whether the port can be bound and
      the requests to come; the library operations [main.go] and
      [Register] call on it ([MustRegister], [Gather],
      [promhttp.Handler], [http.Handle], [http.ListenAndServe],
      [flag.String], [os.Getenv], [log.Fatal]); the class
      [ClientGolang] of the collectors of the library.
    - [Main]: [Register] (lines 181-186) and [main.go]: the package
      variables [vars], [main], [serverMetrics], and [program], the
      process from its start; the run of the program up to the server,
      one scrape, a list of requests, and the theorems on the program.
    - [Spec]: the contract of the specification ([fetch], [collect],
      [describe]) and the answers of the transport on which [Collect]
      meets it.

    ** Correspondence with the source

    Each definition that models code keeps the name of the Go symbol.  A
    Go pointer that may be nil is an [option]; a dereference is [deref],
    which panics on [None] as the Go runtime does.  A [(value, error)]
    pair is a pair with an [option error].  The channel a method sends on
    is the trace of the world: [ch <- x] appends an event; a send that
    blocks is not modelled, the registry drains the channel.
    [log.Println] appends the line without the time stamp.  A response is
    held as a [ResponseRef]: reading a body a second time gives nothing,
    reading a closed body gives an error.

    ** Library behaviour

    Code that is not under [src/] (the Go standard library and
    client_golang) is not translated.  Where the collector depends on it,
    a class states the documented behaviour the theorems use, and a
    reference instance shows the laws are satisfiable and lets concrete
    inputs evaluate.  General theorems are proved for every instance;
    theorems on concrete documents use the reference instances.

    ** What the theorems show

    - [Collector], outcomes: the exact trace of [Collect] for each answer
      of the transport: ten metrics after a body read to its end; [up = 0]
      and two log lines after a failed read; a panic with no metric after
      a transport error; a panic before the request when the URL does not
      parse.
    - [Collector], every scrape: the shape of what is sent; the body is
      closed; exactly one request, with the URL, the header and no
      timeout; the world stays well formed; the trace only grows; the
      next scrape is independent of this one.
    - [Collector], errors the code does not see: the status code, the
      error of [json.Unmarshal], the error of [strconv.ParseFloat], a
      time stamp that stops the decoding.
    - [Collector], descriptors: the ten names, soundness of the
      collector [newTtnCollector] builds, what [Describe] sends and the
      seven descriptors it omits.
    - [Stats]: decoding of a complete document; ints stay in range;
      unknown members are ignored; a bad time stamp stops the decoding.
    - [Float64]: [float64(n)] is exact and injective below [2^53].
    - [Spec]: [Collect] sends what the contract asks for exactly on the
      clean answers, and something else on every other answer.
    - [Main], registration: what [Register] leaves in a registry that
      holds the Go collector and has not seen its names, and that a
      second call panics.
    - [Main], the program: it ends well exactly when no scrape is
      answered by a transport error, and dies at the first one that is;
      it sends one request for each scrape, built from the environment
      as it is; the metrics of the exporter over a run are, scrape by
      scrape, those the answers decide; it never reads the command
      line; a port that cannot be bound ends it with status 1.

    ** Bounds and fuel

    The reference JSON parser recurses on fuel: [parse_document] gives
    it one more than the number of bytes of the document, and nesting is
    limited to 10000 as in the library.  The documents of the examples
    are parsed by evaluation; that the fuel is enough for every document
    is not proved, and no general theorem depends on it: they hold for
    every instance of [JsonSyntax].  Ints are unbounded integers with
    the invariant that they are in the range of a 64-bit [int]; floats
    are binary64 with round to nearest even.  The server of [Process]
    serves a finite list of requests and then returns, where the real
    one serves until the process ends: a theorem on the program speaks
    of the requests of that list, of any length.

    ** Not modelled

    The internals of the libraries (they are stated, not translated);
    the concurrency of the registry: [Gather] runs the collectors one
    after the other, the library runs each in a goroutine of its own,
    which is why a panic of [Collect] is recovered by nothing and ends
    the process; the encoding of the metrics in the response of a
    scrape; the time stamps of log lines; and time itself: the client
    has no timeout and the model has no clock, so a round trip that
    never answers is not a behaviour of the model.  *)

From Stdlib Require Export ZArith Lia Ascii.
From stdpp Require Export base tactics option list sets strings.

#[global] Open Scope string_scope.
#[global] Open Scope list_scope.

(** ** Hint databases *)

(** [go]: facts [auto] may use to close side conditions.
    [go_rw]: equations that simplify runs of monadic code. *)
Create HintDb go discriminated.
Create Rewrite HintDb go_rw.

(** ** Tactics *)

(** Invert a hypothesis and clean up. *)
Ltac invert H := inversion H; subst; clear H.

(** Case analysis on the scrutinee of the first [match] of the goal. *)
Ltac case_scrut :=
  match goal with
  | |- context [match ?x with _ => _ end] => destruct x eqn:?
  end.

(** ** Errors *)

(** A Go [error] as the program observes it: the text [Error()] returns,
    which is what [log.Println] prints.  The exporter never inspects an
    error in another way. *)
Definition error : Type := string.

(** ** Strings *)

(** The line feed and the double quote, which a string literal cannot
    hold directly. *)
Definition nl : string := String (ascii_of_N 10) "".
Definition dquote : string := String (ascii_of_N 34) "".

(** A text with every apostrophe replaced by a double quote: JSON
    documents are written with apostrophes in this development. *)
Fixpoint dq (s : string) : string :=
  match s with
  | "" => ""
  | String c s' =>
      String (if Ascii.eqb c (ascii_of_N 39) then ascii_of_N 34 else c) (dq s')
  end.

Section Strings.
Implicit Types s t u : string.

(** stdpp marks [String.append] as never unfolded by [simpl]: these two
    equations are its computation rules. *)
Lemma string_app_nil_l s : "" +:+ s = s.
Proof. reflexivity. Qed.

Lemma string_app_cons c s t : String c s +:+ t = String c (s +:+ t).
Proof. reflexivity. Qed.

Lemma string_app_nil_r s : s +:+ "" = s.
Proof. induction s as [|c s IH]; [done | by rewrite string_app_cons, IH]. Qed.

Lemma string_app_assoc s t u : (s +:+ t) +:+ u = s +:+ (t +:+ u).
Proof.
  induction s as [|c s IH]; [done | by rewrite !string_app_cons, IH].
Qed.

Lemma string_app_length s t :
  String.length (s +:+ t) = String.length s + String.length t.
Proof.
  induction s as [|c s IH]; [done | rewrite string_app_cons; simpl; by rewrite IH].
Qed.

(** The bytes of a string, in order. *)
Fixpoint chars (s : string) : list ascii :=
  match s with
  | "" => []
  | String c s' => c :: chars s'
  end.

Lemma chars_app s t : chars (s +:+ t) = chars s ++ chars t.
Proof.
  induction s as [|c s IH]; [done | rewrite string_app_cons; simpl; by rewrite IH].
Qed.

(** The string of a list of characters. *)
Definition string_of_chars (l : list ascii) : string := fold_right String "" l.

Lemma string_of_chars_chars s : string_of_chars (chars s) = s.
Proof. induction s as [|c s IH]; [done|]. simpl. by rewrite IH. Qed.

Lemma chars_string_of_chars l : chars (string_of_chars l) = l.
Proof. induction l as [|c l IH]; [done|]. simpl. by rewrite IH. Qed.

End Strings.

#[export] Hint Rewrite string_app_nil_l string_app_cons string_app_nil_r
  string_app_assoc : go_rw.

(** ** Characters *)

(** The byte value of a character. *)
Definition code (c : ascii) : Z := Z.of_N (N_of_ascii c).

Definition is_digit (c : ascii) : bool := (48 <=? code c)%Z && (code c <=? 57)%Z.

Definition digit_value (c : ascii) : Z := (code c - 48)%Z.

(** [c | 0x20]: maps an upper-case letter to the lower-case one and
    leaves lower-case letters and digits as they are. *)
Definition lower (c : ascii) : ascii := ascii_of_N (N.lor (N_of_ascii c) 32).

Definition is_letter (c : ascii) : bool :=
  (97 <=? code (lower c))%Z && (code (lower c) <=? 122)%Z.

(** All 256 characters: a property of characters that a boolean decides
    is proved by evaluating it on each of them. *)
Definition all_ascii : list ascii := map (fun n => ascii_of_nat n) (seq 0 256).

Lemma all_ascii_complete c : c ∈ all_ascii.
Proof.
  unfold all_ascii. apply list_elem_of_fmap. exists (nat_of_ascii c).
  split; [by rewrite ascii_nat_embedding|].
  apply elem_of_seq. pose proof (nat_ascii_bounded c). lia.
Qed.

Lemma ascii_forall (P : ascii -> bool) :
  forallb P all_ascii = true -> forall c, P c = true.
Proof.
  intros HP c. rewrite forallb_forall in HP. apply HP.
  apply list_elem_of_In, all_ascii_complete.
Qed.

(** Close a goal [forall c, P c = true] for a computable [P]. *)
Ltac by_ascii := apply ascii_forall; vm_compute; reflexivity.

(** ** Lists *)

Section Lists.
Context {A B : Type}.
Implicit Types l k : list A.

(** [l] extends [k]: what a computation appended is a suffix. *)
Definition extends l k : Prop := exists d, l = k ++ d.

#[export] Instance extends_refl : Reflexive extends.
Proof. intros l. exists []. by rewrite app_nil_r. Qed.

#[export] Instance extends_trans : Transitive extends.
Proof.
  intros l k m [d1 ->] [d2 ->]. exists (d2 ++ d1). by rewrite app_assoc.
Qed.

Lemma extends_app l d : extends (l ++ d) l.
Proof. by exists d. Qed.

Lemma extends_snoc l x : extends (l ++ [x]) l.
Proof. apply extends_app. Qed.

Lemma omap_snoc (f : A -> option B) l x :
  omap f (l ++ [x]) = omap f l ++ match f x with Some y => [y] | None => [] end.
Proof. rewrite omap_app. simpl. by destruct (f x). Qed.

(** Filtering by two predicates that agree on the list. *)
Lemma filter_agree (P Q : A -> Prop) `{!forall x, Decision (P x)}
  `{!forall x, Decision (Q x)} l :
  (forall x, x ∈ l -> P x <-> Q x) -> filter P l = filter Q l.
Proof.
  induction l as [|x l IH]; intros Hl; [done|].
  rewrite !filter_cons, IH by (intros y Hy; apply Hl; by right).
  destruct (decide (P x)) as [HP|HP], (decide (Q x)) as [HQ|HQ]; try done;
    exfalso; apply (Hl x) in HP || apply (Hl x) in HQ; try done; by left.
Qed.

Lemma filter_none (P : A -> Prop) `{!forall x, Decision (P x)} l :
  (forall x, x ∈ l -> ~ P x) -> filter P l = [].
Proof.
  induction l as [|x l IH]; intros Hl; [done|].
  rewrite filter_cons, decide_False by (apply Hl; by left).
  apply IH. intros y Hy. apply Hl. by right.
Qed.

Lemma filter_all (P : A -> Prop) `{!forall x, Decision (P x)} l :
  (forall x, x ∈ l -> P x) -> filter P l = l.
Proof.
  induction l as [|x l IH]; intros Hl; [done|].
  rewrite filter_cons, decide_True by (apply Hl; by left).
  f_equal. apply IH. intros y Hy. apply Hl. by right.
Qed.

(** What is left of a duplicate-free list when its prefix is filtered
    out. *)
Lemma filter_not_in_prefix `{!EqDecision A} l1 l2 :
  NoDup (l1 ++ l2) -> filter (fun x => x ∉ l1) (l1 ++ l2) = l2.
Proof.
  intros (_ & Hdisj & _)%NoDup_app. rewrite filter_app.
  rewrite filter_none by (intros x Hx Hn; by apply Hn).
  apply filter_all. intros x Hx Hin. by apply (Hdisj x).
Qed.

End Lists.

#[export] Hint Resolve extends_app extends_snoc : go.
