(* ===== verification/GoMonad.v ===== *)
(** * GoMonad: the effects of a Go function body

    A Go function of the exporter reads and writes the world around it
    (channels, the log, the network) and either returns or panics.  Its
    body is a computation [Go S A]: from a state [S] to a [result A] and
    the state it leaves.  A panic keeps the state reached so far, because
    what was sent or logged before the panic stays sent and logged.

    [defer_] models a [defer] statement whose call has been registered:
    the deferred call runs when the rest of the body returns and when it
    panics.  [deref] models the nil check the runtime performs when a
    pointer is dereferenced.

    Reasoning is by weakest preconditions, [wp m Q R s]: running [m] from
    [s] ends in a state satisfying [Q] with the value returned, or in a
    state satisfying [R] with the panic message. *)

From S2P Require Import Prelude.

Declare Scope go_scope.
Delimit Scope go_scope with go.

(** ** Results and computations *)

Inductive result (A : Type) : Type :=
| Returned (a : A)
| Panicked (msg : string).

Arguments Returned {A} a.
Arguments Panicked {A} msg.

Definition Go (S A : Type) : Type := S -> result A * S.

Section Operations.
Context {S : Type}.

Definition ret {A} (a : A) : Go S A := fun s => (Returned a, s).

Definition bind {A B} (m : Go S A) (f : A -> Go S B) : Go S B :=
  fun s =>
    match m s with
    | (Returned a, s') => f a s'
    | (Panicked msg, s') => (Panicked msg, s')
    end.

Definition panic {A} (msg : string) : Go S A := fun s => (Panicked msg, s).

Definition get : Go S S := fun s => (Returned s, s).

Definition gets {A} (f : S -> A) : Go S A := fun s => (Returned (f s), s).

Definition modify (f : S -> S) : Go S unit := fun s => (Returned tt, f s).

(** [if b { m }] with no else branch. *)
Definition when (b : bool) (m : Go S unit) : Go S unit :=
  if b then m else ret tt.

(** The message of the runtime error raised by a nil dereference. *)
Definition nil_dereference : string :=
  "runtime error: invalid memory address or nil pointer dereference".

(** [p.f] for a pointer [p]: the pointee, or the runtime panic. *)
Definition deref {A} (p : option A) : Go S A :=
  match p with
  | Some a => ret a
  | None => panic nil_dereference
  end.

(** [defer cleanup(); body]: [cleanup] runs after [body] on both exits.
    A panic of the deferred call replaces the result of the body. *)
Definition defer_ {A} (cleanup : Go S unit) (body : Go S A) : Go S A :=
  fun s =>
    let (r, s') := body s in
    match cleanup s' with
    | (Returned _, s'') => (r, s'')
    | (Panicked msg, s'') => (Panicked msg, s'')
    end.

End Operations.

Notation "x <- c1 ;; c2" := (bind c1 (fun x => c2))
  (at level 100, c1 at next level, right associativity) : go_scope.
Notation "'let*' pat := c1 'in' c2" := (bind c1 (fun pat => c2))
  (at level 100, pat pattern, c1 at next level, right associativity) : go_scope.
Notation "c1 ;; c2" := (bind c1 (fun _ => c2))
  (at level 100, right associativity) : go_scope.

#[global] Open Scope go_scope.

(** ** Observations of a run *)

Section Runs.
Context {S A : Type}.
Implicit Types (m : Go S A) (s : S).

(** The state a run ends in, returned or panicked. *)
Definition final m s : S := snd (m s).

Definition outcome m s : result A := fst (m s).

Definition returns m s : Prop := exists a, outcome m s = Returned a.

Definition panics m s : Prop := exists msg, outcome m s = Panicked msg.

Definition is_panic (r : result A) : bool :=
  match r with Panicked _ => true | Returned _ => false end.

Lemma returns_or_panics m s : returns m s \/ panics m s.
Proof.
  unfold returns, panics. destruct (outcome m s) as [a|msg]; eauto.
Qed.

Lemma returns_not_panics m s : returns m s -> ~ panics m s.
Proof. intros [a Ha] [msg Hm]. congruence. Qed.

End Runs.

(** ** Weakest preconditions *)

Section Wp.
Context {S : Type}.

Definition wp {A} (m : Go S A) (Q : A -> S -> Prop) (R : string -> S -> Prop)
  (s : S) : Prop :=
  match m s with
  | (Returned a, s') => Q a s'
  | (Panicked msg, s') => R msg s'
  end.

Lemma wp_ret {A} (a : A) Q R s : wp (ret a) Q R s <-> Q a s.
Proof. reflexivity. Qed.

Lemma wp_panic {A} msg (Q : A -> S -> Prop) R s : wp (panic msg) Q R s <-> R msg s.
Proof. reflexivity. Qed.

Lemma wp_bind {A B} (m : Go S A) (f : A -> Go S B) Q R s :
  wp (bind m f) Q R s <-> wp m (fun a s' => wp (f a) Q R s') R s.
Proof. unfold wp, bind. by destruct (m s) as [[a|msg] s']. Qed.

Lemma wp_get Q R s : wp get Q R s <-> Q s s.
Proof. reflexivity. Qed.

Lemma wp_gets {A} (f : S -> A) Q R s : wp (gets f) Q R s <-> Q (f s) s.
Proof. reflexivity. Qed.

Lemma wp_modify f Q R s : wp (modify f) Q R s <-> Q tt (f s).
Proof. reflexivity. Qed.

Lemma wp_when b (m : Go S unit) Q R s :
  wp (when b m) Q R s <-> if b then wp m Q R s else Q tt s.
Proof. by destruct b. Qed.

Lemma wp_deref {A} (p : option A) Q R s :
  wp (deref p) Q R s <->
  match p with Some a => Q a s | None => R nil_dereference s end.
Proof. by destruct p. Qed.

(** Consequence: stronger postconditions may be weakened. *)
Lemma wp_mono {A} (m : Go S A) (Q Q' : A -> S -> Prop) (R R' : string -> S -> Prop) s :
  (forall a s', Q a s' -> Q' a s') ->
  (forall msg s', R msg s' -> R' msg s') ->
  wp m Q R s -> wp m Q' R' s.
Proof. unfold wp. destruct (m s) as [[a|msg] s']; auto. Qed.

(** The deferred call runs from the state the body ends in, whichever way
    the body ends. *)
Lemma wp_defer {A} (cleanup : Go S unit) (body : Go S A) Q R s :
  wp (defer_ cleanup body) Q R s <->
  wp body (fun a s' => wp cleanup (fun _ s'' => Q a s'') R s')
          (fun msg s' => wp cleanup (fun _ s'' => R msg s'') R s') s.
Proof.
  unfold wp, defer_. destruct (body s) as [[a|msg] s'];
    by destruct (cleanup s') as [[[]|msg'] s''].
Qed.

(** [wp] characterises the run. *)
Lemma wp_run {A} (m : Go S A) s :
  wp m (fun a s' => m s = (Returned a, s')) (fun msg s' => m s = (Panicked msg, s')) s.
Proof. unfold wp. by destruct (m s) as [[a|msg] s']. Qed.

Lemma wp_of_run {A} (m : Go S A) Q R s r s' :
  m s = (r, s') ->
  wp m Q R s <-> match r with Returned a => Q a s' | Panicked msg => R msg s' end.
Proof. unfold wp. by intros ->. Qed.

End Wp.

(** ** Running a sequence step by step *)

Section Run.
Context {S : Type}.

Lemma bind_returned {A B} (m : Go S A) (f : A -> Go S B) s a s' :
  m s = (Returned a, s') -> bind m f s = f a s'.
Proof. unfold bind. by intros ->. Qed.

Lemma bind_panicked {A B} (m : Go S A) (f : A -> Go S B) s msg s' :
  m s = (Panicked msg, s') -> bind m f s = (Panicked msg, s').
Proof. unfold bind. by intros ->. Qed.

Lemma defer_returned {A} (cleanup : Go S unit) (body : Go S A) s r s' s'' :
  body s = (r, s') -> cleanup s' = (Returned tt, s'') ->
  defer_ cleanup body s = (r, s'').
Proof. unfold defer_. by intros -> ->. Qed.

Lemma bind_ret_run {A B} (a : A) (f : A -> Go S B) s : bind (ret a) f s = f a s.
Proof. reflexivity. Qed.

Lemma bind_gets_run {A B} (g : S -> A) (f : A -> Go S B) s :
  bind (gets g) f s = f (g s) s.
Proof. reflexivity. Qed.

Lemma bind_modify_run {B} (g : S -> S) (f : unit -> Go S B) s :
  bind (modify g) f s = f tt (g s).
Proof. reflexivity. Qed.

Lemma bind_when_false {B} (m : Go S unit) (f : unit -> Go S B) s :
  bind (when false m) f s = f tt s.
Proof. reflexivity. Qed.

(** A body that ends with an empty return. *)
Lemma bind_ret_tt (m : Go S unit) s : bind m (fun _ => ret tt) s = m s.
Proof. unfold bind, ret. by destruct (m s) as [[[]|msg] s']. Qed.

(** Two continuations that agree give the same run. *)
Lemma bind_ext_run {A B} (m : Go S A) (f g : A -> Go S B) s :
  (forall a s', f a s' = g a s') -> bind m f s = bind m g s.
Proof. intros Hfg. unfold bind. by destruct (m s) as [[a|msg] s']. Qed.

Lemma when_true (m : Go S unit) : when true m = m.
Proof. reflexivity. Qed.

Lemma when_false (m : Go S unit) s : when false m s = (Returned tt, s).
Proof. reflexivity. Qed.

End Run.

#[export] Hint Rewrite @wp_ret @wp_panic @wp_bind @wp_get @wp_gets @wp_modify
  @wp_when @wp_deref @wp_defer : go_rw.

(** ** Equivalence of computations *)

(** Two computations are equivalent when they agree on every state.  The
    monad laws hold up to this equivalence. *)
Section Equiv.
Context {S : Type}.

#[export] Instance go_equiv {A} : Equiv (Go S A) := fun m1 m2 => forall s, m1 s = m2 s.

#[export] Instance go_equivalence {A} : Equivalence (≡@{Go S A}).
Proof.
  split.
  - by intros m s.
  - by intros m1 m2 H s.
  - intros m1 m2 m3 H1 H2 s. by rewrite H1.
Qed.

#[export] Instance bind_proper {A B} :
  Proper ((≡) ==> pointwise_relation A (≡) ==> (≡)) (@bind S A B).
Proof.
  intros m1 m2 Hm f1 f2 Hf s. unfold bind. rewrite Hm.
  destruct (m2 s) as [[a|msg] s']; [apply Hf | done].
Qed.

#[export] Instance defer_proper {A} :
  Proper ((≡) ==> (≡) ==> (≡)) (@defer_ S A).
Proof.
  intros c1 c2 Hc b1 b2 Hb s. unfold defer_. rewrite Hb.
  destruct (b2 s) as [r s']. by rewrite Hc.
Qed.

#[export] Instance wp_proper {A} :
  Proper ((≡) ==> eq ==> eq ==> eq ==> iff) (@wp S A).
Proof. intros m1 m2 Hm Q ? <- R ? <- s ? <-. unfold wp. by rewrite Hm. Qed.

Lemma bind_ret_l {A B} (a : A) (f : A -> Go S B) : bind (ret a) f ≡ f a.
Proof. by intros s. Qed.

Lemma bind_ret_r {A} (m : Go S A) : bind m ret ≡ m.
Proof. intros s. unfold bind, ret. by destruct (m s) as [[a|msg] s']. Qed.

Lemma bind_assoc {A B C} (m : Go S A) (f : A -> Go S B) (g : B -> Go S C) :
  bind (bind m f) g ≡ bind m (fun a => bind (f a) g).
Proof. intros s. unfold bind. by destruct (m s) as [[a|msg] s']. Qed.

(** A panic discards the rest of the body. *)
Lemma bind_panic {A B} msg (f : A -> Go S B) : bind (panic msg) f ≡ panic msg.
Proof. by intros s. Qed.

(** A deferred call that does nothing can be dropped. *)
Lemma defer_ret {A} (body : Go S A) : defer_ (ret tt) body ≡ body.
Proof. intros s. unfold defer_, ret. by destruct (body s). Qed.

End Equiv.

(** ** Computations on a part of the state *)

(** [focus proj update m] runs [m] on the part [proj] of a larger state
    and puts the part back with [update]. *)
Definition focus {S T A} (proj : T -> S) (update : S -> T -> T) (m : Go S A)
  : Go T A :=
  fun t => let (r, s') := m (proj t) in (r, update s' t).

Section Focus.
Context {S T : Type} (proj : T -> S) (update : S -> T -> T).
Hypothesis proj_update : forall s t, proj (update s t) = s.
Hypothesis update_update : forall s s' t, update s' (update s t) = update s' t.

Lemma focus_run {A} (m : Go S A) t r s' :
  m (proj t) = (r, s') -> focus proj update m t = (r, update s' t).
Proof. unfold focus. by intros ->. Qed.

Lemma focus_ret {A} (a : A) t : focus proj update (ret a) t = (Returned a, update (proj t) t).
Proof. reflexivity. Qed.

Lemma focus_bind {A B} (m : Go S A) (f : A -> Go S B) :
  focus proj update (bind m f)
  ≡ bind (focus proj update m) (fun a => focus proj update (f a)).
Proof.
  intros t. unfold focus, bind. destruct (m (proj t)) as [[a|msg] s']; [|done].
  rewrite proj_update. destruct (f a s') as [r s'']. by rewrite update_update.
Qed.

End Focus.

(** ** Computations that only extend part of the state *)

(** Many operations append to a log kept in the state and touch nothing
    else.  [appends proj m]: after any run of [m], returned or panicked,
    the projection [proj] of the state extends what it was. *)
Section Appends.
Context {S E : Type} (proj : S -> list E).

Definition appends {A} (m : Go S A) : Prop :=
  forall s, extends (proj (final m s)) (proj s).

Lemma appends_wp {A} (m : Go S A) :
  appends m <->
  forall s, wp m (fun _ s' => extends (proj s') (proj s))
                 (fun _ s' => extends (proj s') (proj s)) s.
Proof.
  unfold appends, final, wp.
  split; intros H s; specialize (H s); by destruct (m s) as [[a|msg] s'].
Qed.

Lemma appends_ret {A} (a : A) : appends (ret a).
Proof. intros s. reflexivity. Qed.

Lemma appends_panic {A} msg : appends (@panic S A msg).
Proof. intros s. reflexivity. Qed.

Lemma appends_bind {A B} (m : Go S A) (f : A -> Go S B) :
  appends m -> (forall a, appends (f a)) -> appends (bind m f).
Proof.
  intros Hm Hf s. specialize (Hm s). unfold final, bind in *.
  destruct (m s) as [[a|msg] s']; simpl in *; [|done].
  etrans; [apply (Hf a s') | done].
Qed.

Lemma appends_when b (m : Go S unit) : appends m -> appends (when b m).
Proof. destruct b; [done | intros _; apply appends_ret]. Qed.

Lemma appends_deref {A} (p : option A) : appends (deref p).
Proof. destruct p; [apply appends_ret | apply appends_panic]. Qed.

Lemma appends_defer {A} (cleanup : Go S unit) (body : Go S A) :
  appends cleanup -> appends body -> appends (defer_ cleanup body).
Proof.
  intros Hc Hb s. specialize (Hb s). unfold final, defer_ in *.
  destruct (body s) as [r s']; simpl in *.
  specialize (Hc s'). unfold final in Hc.
  destruct (cleanup s') as [[[]|msg] s'']; simpl in *; by etrans.
Qed.

Lemma appends_gets {A} (f : S -> A) : appends (gets f).
Proof. intros s. reflexivity. Qed.

End Appends.

#[export] Hint Resolve appends_ret appends_panic appends_bind appends_when
  appends_deref appends_defer appends_gets : go.
