(* ===== verification/Float64.v ===== *)
(** * Float64: Go's numeric types as the collector uses them

    Go's [float64] is IEEE 754 binary64.  It is modelled by the Standard
    Library's [spec_float] at precision 53 and [emax] 1024, whose
    operations round to nearest, ties to even, as Go's conversions do.
    Go's [int] is a 64-bit two's complement integer on the platforms the
    exporter is built for; it is a [Z] with the range stated where it
    matters.  [float64_of_int] is the conversion [float64(x)] applied to
    the seven link counters in [Collect]. *)

From Stdlib Require Export Floats.SpecFloat.
From S2P Require Import Prelude.

#[local] Open Scope Z_scope.

(** ** float64 *)

Definition float64 : Type := spec_float.

Definition f64_prec : Z := 53.
Definition f64_emax : Z := 1024.

#[export] Instance float64_eq_dec : EqDecision float64.
Proof. unfold float64. solve_decision. Defined.

(** A well-formed binary64: the mantissa is canonical for the exponent. *)
Definition f64_valid (x : float64) : bool := valid_binary f64_prec f64_emax x.

(** The integer [n * 2^e], rounded to the nearest binary64. *)
Definition f64_normalize (n e : Z) : float64 :=
  binary_normalize f64_prec f64_emax n e false.

Definition f64_zero : float64 := S754_zero false.
Definition f64_one : float64 := f64_normalize 1 0.

Definition f64_is_finite (x : float64) : bool :=
  match x with
  | S754_zero _ | S754_finite _ _ _ => true
  | S754_infinity _ | S754_nan => false
  end.

Definition f64_is_zero (x : float64) : bool :=
  match x with S754_zero _ => true | _ => false end.

(** The sign bit: set for negative numbers and for -0. *)
Definition f64_signbit (x : float64) : bool :=
  match x with
  | S754_zero s | S754_infinity s | S754_finite s _ _ => s
  | S754_nan => false
  end.

(** The value of a float when it is an integer: [m * 2^e] for [e >= 0],
    and [m / 2^(-e)] when that division is exact. *)
Definition f64_to_Z (x : float64) : option Z :=
  match x with
  | S754_zero _ => Some 0
  | S754_finite s m e =>
      let v :=
        if 0 <=? e then Some (Z.pos m * 2 ^ e)
        else if Z.pos m mod 2 ^ (- e) =? 0 then Some (Z.pos m / 2 ^ (- e))
        else None in
      (if s then Z.opp else id) <$> v
  | _ => None
  end.

(** ** int *)

Definition int : Type := Z.

Definition int_min : Z := - 2 ^ 63.
Definition int_max : Z := 2 ^ 63 - 1.

Definition in_int_range (n : Z) : bool := (int_min <=? n) && (n <=? int_max).

(** [float64(x)] for [x] of type [int]. *)
Definition float64_of_int (x : int) : float64 := f64_normalize x 0.

(** ** Normalisation of small integers

    An integer of at most 53 bits is shifted left until its mantissa has
    53 bits; no bit is lost. *)

Section Normalize.

Lemma digits2_pos_iter_xO m k :
  digits2_pos (Pos.iter xO m k) = (digits2_pos m + k)%positive.
Proof.
  induction k as [|k IH] using Pos.peano_ind.
  - simpl. lia.
  - rewrite Pos.iter_succ. simpl. rewrite IH. lia.
Qed.

Lemma pos_iter_xO_Z m k : Z.pos (Pos.iter xO m k) = Z.pos m * 2 ^ Z.pos k.
Proof.
  induction k as [|k IH] using Pos.peano_ind.
  - simpl. lia.
  - rewrite Pos.iter_succ, Pos2Z.inj_xO, IH, Pos2Z.inj_succ, Z.pow_succ_r; lia.
Qed.

Lemma digits2_pos_bound m :
  2 ^ (Z.pos (digits2_pos m) - 1) <= Z.pos m < 2 ^ Z.pos (digits2_pos m).
Proof.
  induction m as [m IH|m IH|]; simpl digits2_pos; [| |simpl; lia];
    rewrite Pos2Z.inj_succ;
    replace (Z.succ (Z.pos (digits2_pos m)) - 1)
      with (Z.succ (Z.pos (digits2_pos m) - 1)) by lia;
    rewrite !Z.pow_succ_r by lia;
    generalize dependent (2 ^ (Z.pos (digits2_pos m) - 1));
    generalize dependent (2 ^ Z.pos (digits2_pos m)); intros; lia.
Qed.

(** A number below [2^k] has at most [k] binary digits. *)
Lemma digits2_pos_le m k : 0 <= k -> Z.pos m < 2 ^ k -> Z.pos (digits2_pos m) <= k.
Proof.
  intros Hk Hm. destruct (Z_le_gt_dec (Z.pos (digits2_pos m)) k) as [|Hgt]; [done|].
  pose proof (digits2_pos_bound m) as [Hlo _].
  assert (2 ^ k <= 2 ^ (Z.pos (digits2_pos m) - 1)) by (apply Z.pow_le_mono_r; lia).
  lia.
Qed.

(** The mantissa and exponent [binary_round] produces for a positive
    integer of [d <= 53] digits: shifted left by [53 - d]. *)
Definition small_mantissa (m : positive) : positive :=
  match (53 - Z.pos (digits2_pos m))%Z with
  | Z.pos k => Pos.iter xO m k
  | _ => m
  end.

Definition small_exponent (m : positive) : Z := Z.pos (digits2_pos m) - 53.

Lemma small_mantissa_digits m :
  Z.pos (digits2_pos m) <= 53 -> Z.pos (digits2_pos (small_mantissa m)) = 53.
Proof.
  intros Hd. unfold small_mantissa.
  destruct (53 - Z.pos (digits2_pos m)) as [|k|k] eqn:E; [lia| |lia].
  rewrite digits2_pos_iter_xO. lia.
Qed.

Lemma small_mantissa_Z m :
  Z.pos (digits2_pos m) <= 53 ->
  Z.pos (small_mantissa m) = Z.pos m * 2 ^ (- small_exponent m).
Proof.
  intros Hd. unfold small_mantissa, small_exponent.
  destruct (53 - Z.pos (digits2_pos m)) as [|k|k] eqn:E; [|rewrite pos_iter_xO_Z|lia].
  - replace (- (Z.pos (digits2_pos m) - 53)) with 0 by lia. simpl. lia.
  - f_equal. f_equal. lia.
Qed.

Lemma binary_round_small s m :
  Z.pos (digits2_pos m) <= 53 ->
  binary_round f64_prec f64_emax s m 0 =
  S754_finite s (small_mantissa m) (small_exponent m).
Proof.
  intros Hd. pose proof (small_mantissa_digits m Hd) as Hd'.
  unfold binary_round, shl_align, fexp, emin, f64_prec, f64_emax.
  replace (Z.max (Z.pos (digits2_pos m) + 0 - 53) (3 - 1024 - 53) - 0)
    with (Z.pos (digits2_pos m) - 53) by lia.
  assert (Hfst : (match Z.pos (digits2_pos m) - 53 with
                  | Z.neg d => (Pos.iter xO m d, Z.max (Z.pos (digits2_pos m) + 0 - 53) (3 - 1024 - 53))
                  | _ => (m, 0)
                  end) = (small_mantissa m, small_exponent m)).
  { unfold small_mantissa, small_exponent.
    destruct (Z.pos (digits2_pos m) - 53) as [|d|d] eqn:E1;
      destruct (53 - Z.pos (digits2_pos m)) as [|k|k] eqn:E2; try lia.
    - done.
    - assert (d = k) as -> by lia. f_equal. lia. }
  rewrite Hfst. clear Hfst.
  unfold binary_round_aux, shr_fexp, fexp, emin, shr, small_exponent in *.
  simpl Zdigits2. rewrite Hd'.
  replace (Z.max (53 + (Z.pos (digits2_pos m) - 53) - 53) (3 - 1024 - 53) -
           (Z.pos (digits2_pos m) - 53)) with 0 by lia.
  simpl. rewrite Hd'.
  replace (Z.max (53 + (Z.pos (digits2_pos m) - 53) - 53) (3 - 1024 - 53) -
           (Z.pos (digits2_pos m) - 53)) with 0 by lia.
  simpl. destruct (Z.pos (digits2_pos m) - 53 <=? 1024 - 53) eqn:E; [done | lia].
Qed.

End Normalize.

(** ** Exactness of [float64(int)] *)

(** The value of the float [binary_round] gives a small positive integer
    is that integer. *)
Lemma f64_to_Z_small s m :
  Z.pos (digits2_pos m) <= 53 ->
  f64_to_Z (S754_finite s (small_mantissa m) (small_exponent m)) =
  Some ((if s then Z.opp else id) (Z.pos m)).
Proof.
  intros Hd. unfold f64_to_Z. rewrite small_mantissa_Z by done.
  assert (He : small_exponent m <= 0) by (unfold small_exponent; lia).
  destruct (Z.leb_spec 0 (small_exponent m)) as [H0|H0].
  - assert (small_exponent m = 0) as -> by lia. simpl. by rewrite Z.mul_1_r, Z.mul_1_r.
  - assert (0 < 2 ^ (- small_exponent m)) by (apply Z.pow_pos_nonneg; lia).
    rewrite Z.mod_mul, Z.div_mul by lia. done.
Qed.

(** Integers of magnitude below [2^53] convert without rounding: the
    float denotes the integer. *)
Lemma float64_of_int_to_Z (n : int) :
  - 2 ^ 53 < n < 2 ^ 53 -> f64_to_Z (float64_of_int n) = Some n.
Proof.
  intros Hn. unfold float64_of_int, f64_normalize, binary_normalize.
  destruct n as [|m|m]; [done| |];
    (rewrite binary_round_small, f64_to_Z_small; [done| |]);
    apply digits2_pos_le; lia.
Qed.

(** The result is a well-formed finite binary64. *)
Lemma small_float_valid s m :
  Z.pos (digits2_pos m) <= 53 ->
  f64_valid (S754_finite s (small_mantissa m) (small_exponent m)) = true.
Proof.
  intros Hd.
  unfold f64_valid, valid_binary, bounded, canonical_mantissa, fexp, emin.
  rewrite small_mantissa_digits by done.
  unfold small_exponent, f64_prec, f64_emax.
  apply andb_true_iff; split; [apply Z.eqb_eq | apply Z.leb_le]; lia.
Qed.

Lemma float64_of_int_small_valid (n : int) :
  - 2 ^ 53 < n < 2 ^ 53 ->
  f64_valid (float64_of_int n) = true /\ f64_is_finite (float64_of_int n) = true.
Proof.
  intros Hn. unfold float64_of_int, f64_normalize, binary_normalize.
  destruct n as [|m|m]; [done| |];
    (assert (Hd : Z.pos (digits2_pos m) <= 53) by (apply digits2_pos_le; lia));
    rewrite binary_round_small by done; (split; [by apply small_float_valid | done]).
Qed.

(** C39: [float64(n)] of an int of magnitude below [2^53] is a
    well-formed finite binary64 that denotes exactly [n]: the counters
    of a gateway are converted without rounding. *)
Theorem float64_of_int_exact (n : int) :
  - 2 ^ 53 < n < 2 ^ 53 ->
  f64_valid (float64_of_int n) = true /\
  f64_is_finite (float64_of_int n) = true /\
  f64_to_Z (float64_of_int n) = Some n.
Proof.
  intros Hn. destruct (float64_of_int_small_valid n Hn) as [Hv Hf].
  by rewrite Hv, Hf, float64_of_int_to_Z.
Qed.

Lemma float64_of_int_exact_witness :
  f64_valid (float64_of_int 99) = true /\
  f64_is_finite (float64_of_int 99) = true /\
  f64_to_Z (float64_of_int 99) = Some 99.
Proof. apply (float64_of_int_exact 99). lia. Defined.



(** Above [2^53] the conversion rounds: two different counters can be
    emitted as the same float. *)
Example float64_of_int_rounds :
  float64_of_int (2 ^ 53 + 1) = float64_of_int (2 ^ 53).
Proof. vm_compute. reflexivity. Qed.

(** The sign of the counter is the sign of the float. *)
Lemma float64_of_int_signbit (n : int) :
  - 2 ^ 53 < n < 2 ^ 53 -> f64_signbit (float64_of_int n) = (n <? 0).
Proof.
  intros Hn. unfold float64_of_int, f64_normalize, binary_normalize.
  destruct n as [|m|m]; [done| |];
    rewrite binary_round_small by (apply digits2_pos_le; lia); done.
Qed.
