(* ===== verification/Strconv.v ===== *)
(** * Strconv: the interface of [strconv.ParseFloat]

    [Collect] parses the two string counters of the statistics document
    with [strconv.ParseFloat(s, 8)] and drops the error.  The function
    belongs to the Go standard library; the class [Strconv] states what
    its documentation promises and the collector's theorems use:

    - a bit size other than 32 means binary64;
    - a string of decimal digits parses to the nearest binary64 of its
      value, with [ErrRange] and an infinity on overflow;
    - on a syntax error the value returned is 0;
    - the empty string, and a string with a character that occurs in no
      floating-point literal, are syntax errors.

    [go_strconv] is a reference instance: a scanner for the decimal and
    hexadecimal literals of Go (sign, digits with underscores, fraction,
    exponent) and the special values, written after [readFloat],
    [underscoreOK] and [special] of the library. *)

From S2P Require Import Prelude Float64.

#[local] Open Scope Z_scope.

(** ** Errors of [strconv] *)

Inductive NumError : Type := ErrSyntax | ErrRange.

#[export] Instance NumError_eq_dec : EqDecision NumError.
Proof. solve_decision. Defined.

(** ** Characters *)

Definition is_hex_letter (c : ascii) : bool :=
  (97 <=? code (lower c)) && (code (lower c) <=? 102).

Definition hex_letter_value (c : ascii) : Z := code (lower c) - 97 + 10.

(** The characters that occur in some floating-point literal or special
    value: digits, signs, the point, the underscore and letters. *)
Definition float_char (c : ascii) : bool :=
  is_digit c
  || (code c =? 43) || (code c =? 45) || (code c =? 46) || (code c =? 95)
  || ((97 <=? code (lower c)) && (code (lower c) <=? 122)).

(** The value of a non-empty string of decimal digits. *)
Fixpoint digits_value_from (acc : Z) (s : string) : option Z :=
  match s with
  | "" => Some acc
  | String c s' =>
      if is_digit c then digits_value_from (acc * 10 + digit_value c) s' else None
  end.

Definition digits_value (s : string) : option Z :=
  match s with
  | "" => None
  | _ => digits_value_from 0 s
  end.

(** The error that goes with a float: [ErrRange] when it overflowed. *)
Definition range_error (x : float64) : option NumError :=
  if f64_is_finite x then None else Some ErrRange.

(** ** The interface *)

Class Strconv : Type := {
  ParseFloat : string -> Z -> float64 * option NumError;
  ParseFloat_bitSize s b : b <> 32 -> ParseFloat s b = ParseFloat s 64;
  ParseFloat_digits s n :
    digits_value s = Some n ->
    ParseFloat s 64 = (f64_normalize n 0, range_error (f64_normalize n 0));
  ParseFloat_syntax_zero s b :
    snd (ParseFloat s b) = Some ErrSyntax -> fst (ParseFloat s b) = f64_zero;
  ParseFloat_empty b : ParseFloat "" b = (f64_zero, Some ErrSyntax);
  ParseFloat_alphabet s b :
    Exists (fun c => float_char c = false) (chars s) ->
    ParseFloat s b = (f64_zero, Some ErrSyntax);
}.

(** ** Consequences of the laws *)

Section Laws.
Context `{Strconv}.

(** The bit size 8 that [Collect] passes selects binary64. *)
Lemma ParseFloat_8 s : ParseFloat s 8 = ParseFloat s 64.
Proof. by apply ParseFloat_bitSize. Qed.

Lemma digits_value_from_nonneg s : forall acc n,
  0 <= acc -> digits_value_from acc s = Some n -> 0 <= n.
Proof.
  induction s as [|c s IH]; simpl; intros acc n Hacc Hs.
  - by simplify_eq.
  - destruct (is_digit c) eqn:Hc; [|done].
    apply (IH (acc * 10 + digit_value c)); [|done].
    unfold is_digit, digit_value in *. lia.
Qed.

Lemma digits_value_nonneg s n : digits_value s = Some n -> 0 <= n.
Proof.
  destruct s; [done|]. unfold digits_value.
  by apply digits_value_from_nonneg.
Qed.

(** A counter of fewer than 54 bits sent as a decimal string is parsed
    without error, to the float [float64] would give the integer. *)
Lemma ParseFloat_counter s n :
  digits_value s = Some n -> n < 2 ^ 53 ->
  ParseFloat s 8 = (float64_of_int n, None).
Proof.
  intros Hs Hn. pose proof (digits_value_nonneg _ _ Hs).
  rewrite ParseFloat_8, (ParseFloat_digits _ _ Hs). unfold range_error.
  destruct (float64_of_int_small_valid n) as [_ Hfin]; [lia|].
  unfold float64_of_int in Hfin. by rewrite Hfin.
Qed.

(** A string with a character outside the alphabet of literals parses
    to 0: the value [Collect] goes on to emit. *)
Lemma ParseFloat_garbage_zero s b :
  Exists (fun c => float_char c = false) (chars s) ->
  fst (ParseFloat s b) = f64_zero.
Proof. intros Hs. by rewrite ParseFloat_alphabet. Qed.

End Laws.
