(* ===== verification/StrconvRef.v ===== *)
(** * StrconvRef: a reference instance of [Strconv]

    A scanner for the floating-point literals [strconv.ParseFloat]
    accepts, after the library's [special], [readFloat] and
    [underscoreOK], and the proof that it satisfies the laws of the
    interface.  The scanner works on the list of bytes of the string and
    keeps the exact mantissa as a [Z]; the library keeps 19 digits and a
    truncation flag and falls back to a slower exact algorithm, which
    gives the same correctly rounded result. *)

From S2P Require Import Prelude Float64 Strconv.

#[local] Open Scope Z_scope.

(** ** Special values *)

(** Case-insensitive equality with a lower-case word. *)
Fixpoint fold_eq (l : list ascii) (word : list ascii) : bool :=
  match l, word with
  | [], [] => true
  | c :: l', w :: word' => Ascii.eqb (lower c) w && fold_eq l' word'
  | _, _ => false
  end.

Definition is_inf_word (l : list ascii) : bool :=
  fold_eq l (chars "inf") || fold_eq l (chars "infinity").

(** [special]: ["inf"] and ["infinity"] with an optional sign, ["nan"]
    without one, in any case. *)
Definition special (l : list ascii) : option float64 :=
  match l with
  | [] => None
  | c :: l' =>
      if code c =? 43 then
        if is_inf_word l' then Some (S754_infinity false) else None
      else if code c =? 45 then
        if is_inf_word l' then Some (S754_infinity true) else None
      else if is_inf_word l then Some (S754_infinity false)
      else if fold_eq l (chars "nan") then Some S754_nan
      else None
  end.

(** ** The mantissa *)

Record mantissa : Type := Mantissa {
  m_val : Z;            (* the digits read, as a number in the base *)
  m_frac : Z;           (* how many of them follow the point *)
  m_sawdot : bool;
  m_sawdigits : bool;
  m_underscores : bool;
}.

Definition mantissa0 : mantissa := Mantissa 0 0 false false false.

Definition push_digit (base d : Z) (st : mantissa) : mantissa :=
  Mantissa (m_val st * base + d)
           (if m_sawdot st then m_frac st + 1 else m_frac st)
           (m_sawdot st) true (m_underscores st).

(** The digit loop of [readFloat]: underscores are skipped and noted, one
    point is accepted, the loop stops at the first other character. *)
Fixpoint scan_mantissa (hex : bool) (st : mantissa) (l : list ascii)
  : mantissa * list ascii :=
  match l with
  | [] => (st, [])
  | c :: l' =>
      if code c =? 95 then
        scan_mantissa hex
          (Mantissa (m_val st) (m_frac st) (m_sawdot st) (m_sawdigits st) true) l'
      else if code c =? 46 then
        if m_sawdot st then (st, l)
        else scan_mantissa hex
               (Mantissa (m_val st) (m_frac st) true (m_sawdigits st)
                         (m_underscores st)) l'
      else if is_digit c then
        scan_mantissa hex (push_digit (if hex then 16 else 10) (digit_value c) st) l'
      else if hex && is_hex_letter c then
        scan_mantissa hex (push_digit 16 (hex_letter_value c) st) l'
      else (st, l)
  end.

(** ** The exponent *)

(** Digits and underscores of the exponent. *)
Fixpoint scan_exp_digits (acc : Z) (us : bool) (l : list ascii)
  : Z * bool * list ascii :=
  match l with
  | [] => (acc, us, [])
  | c :: l' =>
      if code c =? 95 then scan_exp_digits acc true l'
      else if is_digit c then scan_exp_digits (acc * 10 + digit_value c) us l'
      else (acc, us, l)
  end.

(** The optional exponent part: [None] when it is malformed, else the
    exponent, whether an underscore was seen, and the rest. *)
Definition scan_exponent (hex : bool) (l : list ascii)
  : option (Z * bool * list ascii) :=
  match l with
  | c :: l' =>
      if Ascii.eqb (lower c) (if hex then "p" else "e")%char then
        let '(neg, l'') :=
          match l' with
          | d :: r => if code d =? 43 then (false, r)
                      else if code d =? 45 then (true, r) else (false, l')
          | [] => (false, l')
          end in
        match l'' with
        | d :: _ =>
            if is_digit d then
              let '(e, us, rest) := scan_exp_digits 0 false l'' in
              Some (if neg then - e else e, us, rest)
            else None
        | [] => None
        end
      else if hex then None else Some (0, false, l)
  | [] => if hex then None else Some (0, false, [])
  end.

(** ** Underscores *)

(** [underscoreOK]: every underscore separates two digits, or a base
    prefix and a digit.  [saw] is the class of the last character:
    [48] a digit, [95] an underscore, [33] anything else, [94] none. *)
Fixpoint underscore_loop (hex : bool) (saw : Z) (l : list ascii) : bool :=
  match l with
  | [] => negb (saw =? 95)
  | c :: l' =>
      if is_digit c || (hex && is_hex_letter c) then underscore_loop hex 48 l'
      else if code c =? 95 then
        if saw =? 48 then underscore_loop hex 95 l' else false
      else if saw =? 95 then false
      else underscore_loop hex 33 l'
  end.

Definition strip_sign (l : list ascii) : bool * list ascii :=
  match l with
  | c :: l' => if code c =? 43 then (false, l')
               else if code c =? 45 then (true, l') else (false, l)
  | [] => (false, [])
  end.

(** A base prefix: [0x], [0b] or [0o] in either case. *)
Definition base_prefix (l : list ascii) : option (bool * list ascii) :=
  match l with
  | z :: x :: l' =>
      if (code z =? 48) &&
         (Ascii.eqb (lower x) "x" || Ascii.eqb (lower x) "b" || Ascii.eqb (lower x) "o")%char
      then Some (Ascii.eqb (lower x) "x"%char, l') else None
  | _ => None
  end.

Definition underscoreOK (l : list ascii) : bool :=
  let l1 := snd (strip_sign l) in
  match base_prefix l1 with
  | Some (hex, l2) => underscore_loop hex 48 l2
  | None => underscore_loop false 94 l1
  end.

(** ** [readFloat] *)

Record literal : Type := Literal {
  l_neg : bool;
  l_hex : bool;
  l_mant : Z;
  l_exp : Z;       (* power of ten, or of two for a hexadecimal literal *)
}.

(** The hexadecimal prefix needs a character after it, as in the
    library ([i+2 < len(s)]). *)
Definition hex_prefix (l : list ascii) : option (list ascii) :=
  match l with
  | z :: x :: (c :: _) as l' =>
      if (code z =? 48) && Ascii.eqb (lower x) "x"%char then Some l' else None
  | _ => None
  end.

(** The literal a whole string denotes, or [None] on a syntax error. *)
Definition readFloat (l : list ascii) : option literal :=
  let '(neg, l1) := strip_sign l in
  let '(hex, l2) :=
    match hex_prefix l1 with Some l2 => (true, l2) | None => (false, l1) end in
  let '(st, l3) := scan_mantissa hex mantissa0 l2 in
  if negb (m_sawdigits st) then None else
  match scan_exponent hex l3 with
  | None => None
  | Some (e, us, rest) =>
      match rest with
      | _ :: _ => None
      | [] =>
          if (m_underscores st || us) && negb (underscoreOK l) then None
          else Some (Literal neg hex (m_val st)
                       (if hex then e - 4 * m_frac st else e - m_frac st))
      end
  end.

(** ** Rounding *)

Section Round.
Variables prec emax : Z.

(** [m * 2^e] rounded; exponents far outside the range are decided
    without iterating over them. *)
Definition round_binary (neg : bool) (m e : Z) : float64 :=
  if m =? 0 then S754_zero neg
  else if 2 * emax <? e then S754_infinity neg
  else if e + Z.log2 m + 1 <? - 2 * emax then S754_zero neg
  else binary_normalize prec emax (if neg then - m else m) e neg.

(** [m * 10^e] rounded.  A negative exponent is a division, rounded once
    from the exact quotient and remainder. *)
Definition round_decimal (neg : bool) (m e : Z) : float64 :=
  if m =? 0 then S754_zero neg
  else if emax <? e then S754_infinity neg
  else if e + Z.log2 m + 1 <? - 2 * emax then S754_zero neg
  else if 0 <=? e then
    binary_normalize prec emax (if neg then - (m * 10 ^ e) else m * 10 ^ e) 0 neg
  else
    let '(q, e', loc) := SFdiv_core_binary prec emax m 0 (10 ^ (- e)) 0 in
    binary_round_aux prec emax neg q e' loc.

Definition round_literal (x : literal) : float64 :=
  if l_hex x then round_binary (l_neg x) (l_mant x) (l_exp x)
  else round_decimal (l_neg x) (l_mant x) (l_exp x).

End Round.

(** A binary32 value as the binary64 that equals it. *)
Definition widen (x : float64) : float64 :=
  match x with
  | S754_finite s m e =>
      binary_normalize f64_prec f64_emax (if s then Z.neg m else Z.pos m) e s
  | _ => x
  end.

(** ** [ParseFloat] *)

Definition parse_float (s : string) (bitSize : Z) : float64 * option NumError :=
  let l := chars s in
  match special l with
  | Some x => (x, None)
  | None =>
      match readFloat l with
      | None => (f64_zero, Some ErrSyntax)
      | Some x =>
          let v := if bitSize =? 32 then widen (round_literal 24 128 x)
                   else round_literal f64_prec f64_emax x in
          (v, range_error v)
      end
  end.

(** ** Digits are scanned to their value *)

Section DigitStrings.

Lemma is_digit_code c : is_digit c = true -> 48 <= code c <= 57.
Proof. unfold is_digit. lia. Qed.

(** A digit is its own lower case, so it is no letter. *)
Lemma lower_digit c : is_digit c = true -> lower c = c.
Proof.
  intros Hc. apply is_digit_code in Hc. unfold lower, code in *.
  rewrite <- (ascii_N_embedding c) at 2. f_equal.
  pose proof (N_ascii_bounded c).
  destruct (N_of_ascii c) as [|p] eqn:E; [lia|].
  do 6 (destruct p as [p|p|]; try lia); reflexivity.
Qed.

Lemma digit_not_letter c w :
  is_digit c = true -> 97 <= code w -> Ascii.eqb (lower c) w = false.
Proof.
  intros Hc Hw. rewrite lower_digit by done. apply Ascii.eqb_neq.
  intros ->. apply is_digit_code in Hc. lia.
Qed.

Lemma scan_mantissa_digits s : forall st n,
  m_sawdot st = false ->
  digits_value_from (m_val st) s = Some n ->
  scan_mantissa false st (chars s) =
  (Mantissa n (m_frac st) false (m_sawdigits st || negb (String.eqb s ""))
            (m_underscores st), []).
Proof.
  induction s as [|c s IH]; simpl; intros st n Hdot Hs.
  - simplify_eq. destruct st; simpl in *. by rewrite Hdot, orb_false_r.
  - destruct (is_digit c) eqn:Hc; [|done].
    pose proof (is_digit_code c Hc).
    destruct (Z.eqb_spec (code c) 95); [lia|].
    destruct (Z.eqb_spec (code c) 46); [lia|].
    rewrite (IH (push_digit 10 (digit_value c) st) n);
      unfold push_digit; simpl; rewrite ?Hdot; try done.
    by rewrite orb_true_r.
Qed.

Lemma special_digit c l : is_digit c = true -> special (c :: l) = None.
Proof.
  intros Hc. pose proof (is_digit_code c Hc). unfold special, is_inf_word.
  destruct (Z.eqb_spec (code c) 43); [lia|].
  destruct (Z.eqb_spec (code c) 45); [lia|].
  simpl. rewrite !digit_not_letter by (done || (vm_compute; discriminate)).
  done.
Qed.

Lemma hex_prefix_digits c s n :
  digits_value_from n (String c s) = None \/ hex_prefix (chars (String c s)) = None.
Proof.
  simpl. destruct (is_digit c) eqn:Hc; [|by left].
  destruct s as [|x s]; [by right|]. simpl.
  destruct (is_digit x) eqn:Hx; [|by left]. right.
  destruct (chars s); [done|].
  rewrite (digit_not_letter x) by (done || (vm_compute; discriminate)).
  by rewrite andb_false_r.
Qed.

Lemma readFloat_digits s n :
  digits_value s = Some n -> readFloat (chars s) = Some (Literal false false n 0).
Proof.
  destruct s as [|c s]; [done|]. unfold digits_value. intros Hs.
  destruct (hex_prefix_digits c s 0) as [Hn|Hhex]; [congruence|].
  assert (Hc : is_digit c = true) by (simpl in Hs; by destruct (is_digit c)).
  pose proof (is_digit_code c Hc).
  unfold readFloat.
  assert (strip_sign (chars (String c s)) = (false, chars (String c s))) as ->.
  { simpl. destruct (Z.eqb_spec (code c) 43); [lia|].
    by destruct (Z.eqb_spec (code c) 45); [lia|]. }
  rewrite Hhex, (scan_mantissa_digits (String c s) mantissa0 n) by done.
  reflexivity.
Qed.

Lemma round_decimal_integer prec emax n :
  0 < emax -> 0 <= n ->
  round_decimal prec emax false n 0 = binary_normalize prec emax n 0 false.
Proof.
  intros Hemax Hn. unfold round_decimal.
  destruct (Z.eqb_spec n 0) as [->|Hn0]; [done|].
  destruct (Z.ltb_spec emax 0); [lia|].
  pose proof (Z.log2_nonneg n).
  destruct (Z.ltb_spec (0 + Z.log2 n + 1) (- 2 * emax)); [lia|].
  simpl. by rewrite Z.mul_1_r.
Qed.

End DigitStrings.

(** ** Only characters of the alphabet are consumed *)

Section Alphabet.

(** [consumed l rest]: the scanner went from [l] to [rest] over
    characters of the alphabet of literals. *)
Definition consumed (l rest : list ascii) : Prop :=
  exists pre, l = pre ++ rest /\ Forall (fun c => float_char c = true) pre.

Lemma consumed_refl l : consumed l l.
Proof. by exists []. Qed.

Lemma consumed_step c l rest :
  float_char c = true -> consumed l rest -> consumed (c :: l) rest.
Proof. intros Hc (pre & -> & Hpre). exists (c :: pre). by split; [|constructor]. Qed.

Lemma consumed_trans l1 l2 l3 : consumed l1 l2 -> consumed l2 l3 -> consumed l1 l3.
Proof.
  intros (p1 & -> & H1) (p2 & -> & H2). exists (p1 ++ p2).
  split; [by rewrite app_assoc | by apply Forall_app].
Qed.

Lemma consumed_all l : consumed l [] -> Forall (fun c => float_char c = true) l.
Proof. intros (pre & -> & Hpre). by rewrite app_nil_r. Qed.

Lemma float_char_digit c : is_digit c = true -> float_char c = true.
Proof. unfold float_char. by intros ->. Qed.

Lemma float_char_code c :
  code c = 43 \/ code c = 45 \/ code c = 46 \/ code c = 95 -> float_char c = true.
Proof.
  unfold float_char.
  intros [E|[E|[E|E]]]; rewrite E; simpl; by rewrite ?orb_true_r.
Qed.

Lemma float_char_letter c :
  97 <= code (lower c) <= 122 -> float_char c = true.
Proof.
  intros Hc. unfold float_char.
  destruct (Z.leb_spec 97 (code (lower c))); [|lia].
  destruct (Z.leb_spec (code (lower c)) 122); [|lia].
  by rewrite !orb_true_r.
Qed.

Lemma float_char_lower c w :
  Ascii.eqb (lower c) w = true -> 97 <= code w <= 122 -> float_char c = true.
Proof. intros E%Ascii.eqb_eq Hw. apply float_char_letter. by rewrite E. Qed.

Lemma float_char_hex c : is_hex_letter c = true -> float_char c = true.
Proof. unfold is_hex_letter. intros Hc. apply float_char_letter. lia. Qed.

#[local] Hint Resolve consumed_refl consumed_step float_char_digit
  float_char_hex : go.

Definition is_lower_letter (w : ascii) : bool := (97 <=? code w) && (code w <=? 122).

Lemma fold_eq_alphabet word : forall l,
  forallb is_lower_letter word = true ->
  fold_eq l word = true -> Forall (fun c => float_char c = true) l.
Proof.
  induction word as [|w word IH]; intros [|c l]; simpl; try done.
  intros [Hw Hword]%andb_true_iff [Hc Hl]%andb_true_iff.
  constructor; [|by apply IH].
  eapply float_char_lower; [exact Hc|]. unfold is_lower_letter in Hw. lia.
Qed.

Lemma is_inf_word_alphabet l :
  is_inf_word l = true -> Forall (fun c => float_char c = true) l.
Proof.
  unfold is_inf_word.
  intros [H|H]%orb_true_iff; by eapply fold_eq_alphabet; [|exact H].
Qed.

Lemma special_alphabet l x :
  special l = Some x -> Forall (fun c => float_char c = true) l.
Proof.
  destruct l as [|c l]; [done|]. unfold special.
  destruct (Z.eqb_spec (code c) 43) as [H43|_].
  { destruct (is_inf_word l) eqn:Hl; [|done]. intros _.
    constructor; [apply float_char_code; auto | by apply is_inf_word_alphabet]. }
  destruct (Z.eqb_spec (code c) 45) as [H45|_].
  { destruct (is_inf_word l) eqn:Hl; [|done]. intros _.
    constructor; [apply float_char_code; auto | by apply is_inf_word_alphabet]. }
  destruct (is_inf_word (c :: l)) eqn:Hinf; [intros _; by apply is_inf_word_alphabet|].
  destruct (fold_eq (c :: l) (chars "nan")) eqn:Hnan; [|done].
  intros _. by eapply fold_eq_alphabet; [|exact Hnan].
Qed.

Lemma scan_mantissa_consumed hex l : forall st st' rest,
  scan_mantissa hex st l = (st', rest) -> consumed l rest.
Proof.
  induction l as [|c l IH]; simpl; intros st st' rest Hs.
  { simplify_eq. apply consumed_refl. }
  destruct (Z.eqb_spec (code c) 95).
  { eapply consumed_step; [apply float_char_code; auto | by eapply IH]. }
  destruct (Z.eqb_spec (code c) 46).
  { destruct (m_sawdot st); [simplify_eq; apply consumed_refl|].
    eapply consumed_step; [apply float_char_code; auto | by eapply IH]. }
  destruct (is_digit c) eqn:Hd; [eauto with go|].
  destruct (hex && is_hex_letter c) eqn:Hh.
  - apply andb_true_iff in Hh as [_ Hh]. eauto with go.
  - simplify_eq. apply consumed_refl.
Qed.

Lemma scan_exp_digits_consumed l : forall acc us e us' rest,
  scan_exp_digits acc us l = (e, us', rest) -> consumed l rest.
Proof.
  induction l as [|c l IH]; simpl; intros acc us e us' rest Hs.
  { simplify_eq. apply consumed_refl. }
  destruct (Z.eqb_spec (code c) 95).
  { eapply consumed_step; [apply float_char_code; auto | by eapply IH]. }
  destruct (is_digit c) eqn:Hd; [eauto with go|].
  simplify_eq. apply consumed_refl.
Qed.

Lemma exponent_sign_consumed l neg l' :
  match l with
  | d :: r => if code d =? 43 then (false, r)
              else if code d =? 45 then (true, r) else (false, l)
  | [] => (false, l)
  end = (neg, l') -> consumed l l'.
Proof.
  destruct l as [|d r]; [intros; simplify_eq; apply consumed_refl|].
  destruct (Z.eqb_spec (code d) 43).
  { intros; simplify_eq. apply consumed_step, consumed_refl. apply float_char_code; auto. }
  destruct (Z.eqb_spec (code d) 45); intros; simplify_eq; [|apply consumed_refl].
  apply consumed_step, consumed_refl. apply float_char_code; auto.
Qed.

Lemma scan_exponent_consumed hex l e us rest :
  scan_exponent hex l = Some (e, us, rest) -> consumed l rest.
Proof.
  unfold scan_exponent. destruct l as [|c l].
  { destruct hex; intros; simplify_eq. apply consumed_refl. }
  destruct (Ascii.eqb (lower c) (if hex then "p"%char else "e"%char)) eqn:Hc.
  2: { destruct hex; intros; simplify_eq. apply consumed_refl. }
  destruct (match l with
            | d :: r => if code d =? 43 then (false, r)
                        else if code d =? 45 then (true, r) else (false, l)
            | [] => (false, l)
            end) as [neg l''] eqn:Hsign.
  apply exponent_sign_consumed in Hsign.
  destruct l'' as [|d l3]; [done|].
  destruct (is_digit d); [|done].
  destruct (scan_exp_digits 0 false (d :: l3)) as [[e' us'] rest'] eqn:Hd.
  intros ?; simplify_eq. apply scan_exp_digits_consumed in Hd.
  eapply consumed_step.
  - eapply float_char_lower; [exact Hc|]. destruct hex; vm_compute; by split.
  - by eapply consumed_trans.
Qed.

End Alphabet.

Section Instance.

Lemma strip_sign_consumed l : consumed l (snd (strip_sign l)).
Proof.
  destruct l as [|c l]; [apply consumed_refl|]. simpl.
  destruct (Z.eqb_spec (code c) 43).
  { apply consumed_step, consumed_refl. apply float_char_code; auto. }
  destruct (Z.eqb_spec (code c) 45); [|apply consumed_refl].
  apply consumed_step, consumed_refl. apply float_char_code; auto.
Qed.

Lemma hex_prefix_consumed l l' : hex_prefix l = Some l' -> consumed l l'.
Proof.
  destruct l as [|z [|x [|c l]]]; try done. simpl.
  destruct (Z.eqb_spec (code z) 48) as [Hz|]; [|done].
  destruct (Ascii.eqb (lower x) "x") eqn:Hx; [|done].
  simpl. intros ?; simplify_eq.
  apply consumed_step; [apply float_char_digit; unfold is_digit; lia|].
  apply consumed_step, consumed_refl. by eapply float_char_lower.
Qed.

Lemma readFloat_alphabet l x :
  readFloat l = Some x -> Forall (fun c => float_char c = true) l.
Proof.
  unfold readFloat. pose proof (strip_sign_consumed l) as Hsign.
  destruct (strip_sign l) as [neg l1]. simpl in Hsign.
  assert (Hhex : consumed l1
            (snd (match hex_prefix l1 with
                  | Some l2 => (true, l2) | None => (false, l1) end))).
  { destruct (hex_prefix l1) eqn:E; [by apply hex_prefix_consumed | apply consumed_refl]. }
  destruct (match hex_prefix l1 with
            | Some l2 => (true, l2) | None => (false, l1) end) as [hex l2].
  simpl in Hhex.
  destruct (scan_mantissa hex mantissa0 l2) as [st l3] eqn:Hm.
  apply scan_mantissa_consumed in Hm.
  destruct (negb (m_sawdigits st)); [done|].
  destruct (scan_exponent hex l3) as [[[e us] rest]|] eqn:He; [|done].
  apply scan_exponent_consumed in He.
  destruct rest; [|done]. intros _. apply consumed_all.
  eauto using consumed_trans.
Qed.

Lemma parse_float_alphabet s b :
  Exists (fun c => float_char c = false) (chars s) ->
  parse_float s b = (f64_zero, Some ErrSyntax).
Proof.
  intros Hex. unfold parse_float.
  assert (Hnot : ~ Forall (fun c => float_char c = true) (chars s)).
  { intros Hall. apply Exists_exists in Hex as (c & Hin & Hc).
    rewrite Forall_forall in Hall. specialize (Hall c Hin). congruence. }
  destruct (special (chars s)) eqn:Hsp; [by apply special_alphabet in Hsp|].
  destruct (readFloat (chars s)) eqn:Hrf; [by apply readFloat_alphabet in Hrf|].
  done.
Qed.

Lemma parse_float_digits s n :
  digits_value s = Some n ->
  parse_float s 64 = (f64_normalize n 0, range_error (f64_normalize n 0)).
Proof.
  intros Hs. unfold parse_float.
  pose proof (digits_value_nonneg s n Hs) as Hn.
  rewrite (readFloat_digits s n Hs).
  destruct s as [|c s]; [done|].
  assert (Hc : is_digit c = true).
  { unfold digits_value in Hs. simpl in Hs. by destruct (is_digit c). }
  change (chars (String c s)) with (c :: chars s).
  rewrite special_digit by done. simpl.
  unfold round_literal. simpl l_hex. cbv iota. simpl l_neg. simpl l_mant. simpl l_exp.
  by rewrite round_decimal_integer.
Qed.

Lemma parse_float_syntax_zero s b :
  snd (parse_float s b) = Some ErrSyntax -> fst (parse_float s b) = f64_zero.
Proof.
  unfold parse_float.
  destruct (special (chars s)); [done|].
  destruct (readFloat (chars s)); [|done].
  simpl. unfold range_error. by case_match.
Qed.

#[export] Instance go_strconv : Strconv := {|
  ParseFloat := parse_float;
  ParseFloat_bitSize s b Hb :=
    ltac:(unfold parse_float; by destruct (Z.eqb_spec b 32));
  ParseFloat_digits := parse_float_digits;
  ParseFloat_syntax_zero := parse_float_syntax_zero;
  ParseFloat_empty b := eq_refl;
  ParseFloat_alphabet := parse_float_alphabet;
|}.

End Instance.

(** ** The scanner on concrete inputs *)

Example parse_float_42 : parse_float "42" 8 = (float64_of_int 42, None).
Proof. vm_compute. reflexivity. Qed.

Example parse_float_na : parse_float "N/A" 8 = (f64_zero, Some ErrSyntax).
Proof. vm_compute. reflexivity. Qed.

Example parse_float_fraction :
  parse_float "0.5" 64 = (S754_finite false 4503599627370496 (-53), None).
Proof. vm_compute. reflexivity. Qed.

Example parse_float_underscore :
  parse_float "1_000" 64 = parse_float "1000" 64 /\
  parse_float "_1" 64 = (f64_zero, Some ErrSyntax).
Proof. vm_compute. split; reflexivity. Qed.

Example parse_float_hex : parse_float "0x10p0" 64 = (float64_of_int 16, None).
Proof. vm_compute. reflexivity. Qed.

Example parse_float_overflow :
  parse_float "1e999" 64 = (S754_infinity false, Some ErrRange).
Proof. vm_compute. reflexivity. Qed.
