(* ===== verification/Prometheus.v ===== *)
(** * Prometheus: the part of client_golang the collector calls

    [BuildFQName], [NewDesc] and [MustNewConstMetric] are library
    functions; they are written here after their documented behaviour,
    for descriptors and metrics as the exporter builds them: a name, a
    help text, label names, and the error a descriptor carries when its
    name is not a metric name.  Metric names are checked against the
    classic pattern [[a-zA-Z_:][a-zA-Z0-9_:]*]. *)

From S2P Require Import Prelude GoMonad Float64 Strconv.

#[local] Open Scope Z_scope.

(** ** Names *)

(** [prometheus.BuildFQName]: the parts that are not empty, joined by
    underscores; empty when the name is empty. *)
Definition BuildFQName (namespace subsystem name : string) : string :=
  if decide (name = "") then ""
  else if decide (namespace <> "" /\ subsystem <> "") then
    namespace +:+ "_" +:+ subsystem +:+ "_" +:+ name
  else if decide (namespace <> "") then namespace +:+ "_" +:+ name
  else if decide (subsystem <> "") then subsystem +:+ "_" +:+ name
  else name.

Definition is_name_start (c : ascii) : bool :=
  ((97 <=? code (lower c)) && (code (lower c) <=? 122) && (64 <? code c))
  || (code c =? 95) || (code c =? 58).

Definition is_name_char (c : ascii) : bool := is_name_start c || is_digit c.

(** [model.IsValidMetricName], classic validation. *)
Definition IsValidMetricName (s : string) : bool :=
  match chars s with
  | [] => false
  | c :: l => is_name_start c && forallb is_name_char l
  end.

(** ** Descriptors *)

Record Desc : Type := mkDesc {
  fqName : string;
  help : string;
  constLabels : list (string * string);
  variableLabels : list string;
  desc_err : option error;
}.

#[export] Instance Desc_eq_dec : EqDecision Desc.
Proof. solve_decision. Defined.

(** [prometheus.NewDesc]: the descriptor, carrying an error when the
    name is not a metric name. *)
Definition NewDesc (fqName help : string) (variableLabels : list string)
  (constLabels : list (string * string)) : Desc :=
  mkDesc fqName help constLabels variableLabels
    (if IsValidMetricName fqName then None
     else Some (dquote +:+ fqName +:+ dquote +:+ " is not a valid metric name")).

(** ** Metrics *)

Inductive ValueType : Type := CounterValue | GaugeValue | UntypedValue.

#[export] Instance ValueType_eq_dec : EqDecision ValueType.
Proof. solve_decision. Defined.

Record Metric : Type := mkMetric {
  metric_desc : Desc;
  metric_type : ValueType;
  metric_value : float64;
  metric_labels : list string;
}.

#[export] Instance Metric_eq_dec : EqDecision Metric.
Proof. solve_decision. Defined.

Definition errInconsistentCardinality : error := "inconsistent label cardinality".

(** [prometheus.NewConstMetric]: refused when the descriptor carries an
    error or the number of label values is not the number of variable
    labels. *)
Definition NewConstMetric (desc : Desc) (valueType : ValueType) (value : float64)
  (labelValues : list string) : Metric + error :=
  match desc_err desc with
  | Some e => inr e
  | None =>
      if decide (length labelValues = length (variableLabels desc))
      then inl (mkMetric desc valueType value labelValues)
      else inr errInconsistentCardinality
  end.

(** [prometheus.MustNewConstMetric]: panics where [NewConstMetric]
    returns an error. *)
Definition MustNewConstMetric {S} (desc : Desc) (valueType : ValueType)
  (value : float64) (labelValues : list string) : Go S Metric :=
  match NewConstMetric desc valueType value labelValues with
  | inl m => ret m
  | inr e => panic e
  end.

(** ** Properties *)

Section Properties.

Lemma BuildFQName_namespace namespace name :
  namespace <> "" -> name <> "" ->
  BuildFQName namespace "" name = namespace +:+ "_" +:+ name.
Proof.
  intros Hns Hname. unfold BuildFQName.
  rewrite decide_False by done. rewrite decide_False by (by intros [_ ?]).
  by rewrite decide_True.
Qed.

Lemma BuildFQName_empty_name namespace subsystem :
  BuildFQName namespace subsystem "" = "".
Proof. done. Qed.

Lemma NewDesc_valid fqName help vl cl :
  IsValidMetricName fqName = true -> desc_err (NewDesc fqName help vl cl) = None.
Proof. unfold NewDesc. simpl. by intros ->. Qed.

(** A constant metric of a sound descriptor without variable labels is
    always built. *)
Lemma NewConstMetric_ok desc vt v :
  desc_err desc = None -> variableLabels desc = [] ->
  NewConstMetric desc vt v [] = inl (mkMetric desc vt v []).
Proof. unfold NewConstMetric. by intros -> ->. Qed.

Lemma MustNewConstMetric_ok {S} desc vt v :
  desc_err desc = None -> variableLabels desc = [] ->
  @MustNewConstMetric S desc vt v [] = ret (mkMetric desc vt v []).
Proof. intros He Hl. unfold MustNewConstMetric. by rewrite NewConstMetric_ok. Qed.

Lemma MustNewConstMetric_err {S} desc vt v lvs e :
  desc_err desc = Some e -> @MustNewConstMetric S desc vt v lvs = panic e.
Proof. intros He. unfold MustNewConstMetric, NewConstMetric. by rewrite He. Qed.

End Properties.

#[export] Hint Resolve NewDesc_valid : go.
