(* ===== verification/Http.v ===== *)
(** * Http: requests, responses and the outcomes of a round trip

    The part of [net/http] that [Collect] touches: [http.NewRequest],
    [Header.Add], [Client.Do], and a response body that is read and
    closed.  [http.NewRequest] fails exactly when [url.Parse] refuses the
    URL; the class [NetUrl] states the two facts about [url.Parse] the
    theorems need, and [go_url] is a reference instance that checks
    control bytes and percent escapes.

    A round trip has three outcomes, which the documentation of
    [Client.Do] distinguishes: a response and no error; an error and no
    response; and, when the redirect policy stops the request, both a
    response whose body is already closed and an error. *)

From S2P Require Import Prelude GoMonad Strconv.

#[local] Open Scope Z_scope.

(** ** Requests *)

Record Request : Type := mkRequest {
  req_method : string;
  req_url : string;
  req_header : list (string * string);
}.

#[export] Instance Request_eq_dec : EqDecision Request.
Proof. solve_decision. Defined.

(** [Header.Add] of a key in canonical form: one more value for it. *)
Definition Header_Add (req : Request) (key value : string) : Request :=
  mkRequest (req_method req) (req_url req) (req_header req ++ [(key, value)]).

(** ** URLs *)

(** A control byte: below the space, or DEL. *)
Definition is_ctl (c : ascii) : bool := (code c <? 32) || (code c =? 127).

Definition has_ctl (s : string) : bool := existsb is_ctl (chars s).

(** Letters, digits and [-], [.], [_], [~]: never escaped in a URL. *)
Definition is_unreserved (c : ascii) : bool :=
  ((97 <=? code (lower c)) && (code (lower c) <=? 122))
  || is_digit c
  || (code c =? 45) || (code c =? 46) || (code c =? 95) || (code c =? 126).

(** A path of unreserved characters and slashes. *)
Definition is_plain_path (s : string) : bool :=
  forallb (fun c => is_unreserved c || (code c =? 47)) (chars s).

(** A host name of unreserved characters. *)
Definition is_plain_host (s : string) : bool :=
  negb (String.eqb s "") && forallb is_unreserved (chars s).

Class NetUrl : Type := {
  (** Does [url.Parse] accept the string? *)
  url_parses : string -> bool;
  url_parses_ctl s : has_ctl s = true -> url_parses s = false;
  url_parses_plain host path :
    is_plain_host host = true -> is_plain_path path = true ->
    url_parses ("https://" +:+ host +:+ "/" +:+ path) = true;
}.

Definition errInvalidURL (url : string) : error :=
  "parse " +:+ dquote +:+ url +:+ dquote +:+ ": invalid URL".

(** The methods [http.NewRequest] accepts: tokens of RFC 7230.  The
    exporter only asks for [GET]. *)
Definition valid_method (m : string) : bool :=
  negb (String.eqb m "") &&
  forallb (fun c => ((97 <=? code (lower c)) && (code (lower c) <=? 122))
                    || is_digit c) (chars m).

(** [http.NewRequest(method, url, nil)]: a request with no header, or
    nil and an error. *)
Definition NewRequest `{NetUrl} (method url : string)
  : option Request * option error :=
  if negb (valid_method method) then
    (None, Some ("net/http: invalid method " +:+ dquote +:+ method +:+ dquote))
  else if url_parses url then (Some (mkRequest method url []), None)
  else (None, Some (errInvalidURL url)).

(** ** Responses *)

(** What reading a body to its end gives: the bytes received, and the
    error that ended the read if it was not the end of the body. *)
Record Body : Type := mkBody {
  body_data : string;
  body_err : option error;
}.

Record Response : Type := mkResponse {
  StatusCode : Z;
  resp_body : Body;
}.

#[export] Instance Body_eq_dec : EqDecision Body.
Proof. solve_decision. Defined.

#[export] Instance Response_eq_dec : EqDecision Response.
Proof. solve_decision. Defined.

(** The outcomes of [Client.Do]. *)
Inductive DoResult : Type :=
| DoOk (resp : Response)
| DoErr (err : error)
| DoRedirectErr (resp : Response) (err : error).

(** [http.Client]: the exporter sets no field, so there is no timeout. *)
Record Client : Type := mkClient {
  Timeout : Z;
}.

#[export] Instance Client_eq_dec : EqDecision Client.
Proof. solve_decision. Defined.

Definition errBodyClosed : error := "http: read on closed response body".

(** ** Properties of [NewRequest] *)

Section NewRequest.
Context `{NetUrl}.

Lemma NewRequest_ok method url :
  valid_method method = true -> url_parses url = true ->
  NewRequest method url = (Some (mkRequest method url []), None).
Proof. unfold NewRequest. by intros -> ->. Qed.

Lemma NewRequest_bad_url method url :
  valid_method method = true -> url_parses url = false ->
  NewRequest method url = (None, Some (errInvalidURL url)).
Proof. unfold NewRequest. by intros -> ->. Qed.

(** Exactly one of request and error is nil. *)
Lemma NewRequest_xor method url :
  is_Some (fst (NewRequest method url)) <-> snd (NewRequest method url) = None.
Proof.
  unfold NewRequest.
  destruct (valid_method method); simpl; [|split; [by intros []|done]].
  destruct (url_parses url); simpl; split; try done; by intros [].
Qed.

End NewRequest.

(** ** A reference instance of [NetUrl] *)

(** Percent escapes: every [%] is followed by two hexadecimal digits. *)
Fixpoint escapes_ok (l : list ascii) : bool :=
  match l with
  | [] => true
  | c :: l' =>
      if code c =? 37 then
        match l' with
        | h1 :: h2 :: l'' =>
            (is_digit h1 || is_hex_letter h1) && (is_digit h2 || is_hex_letter h2)
            && escapes_ok l''
        | _ => false
        end
      else escapes_ok l'
  end.

Definition parse_ok (s : string) : bool :=
  negb (has_ctl s) && escapes_ok (chars s).

Section Reference.

(** An unreserved character or a slash is no control byte and no [%]. *)
Definition is_harmless (c : ascii) : bool := negb (is_ctl c) && negb (code c =? 37).

Lemma unreserved_harmless c :
  is_unreserved c || (code c =? 47) = true -> is_harmless c = true.
Proof.
  revert c. enough (forall c, implb (is_unreserved c || (code c =? 47)) (is_harmless c) = true) as Hall.
  { intros c Hc. specialize (Hall c). by rewrite Hc in Hall. }
  by_ascii.
Qed.

Lemma harmless_parse_ok s :
  forallb is_harmless (chars s) = true -> parse_ok s = true.
Proof.
  unfold parse_ok, has_ctl. induction (chars s) as [|c l IH]; [done|]. simpl.
  intros [Hc Hl]%andb_true_iff. unfold is_harmless in Hc.
  apply andb_true_iff in Hc as [Hctl Hpct]. apply negb_true_iff in Hctl, Hpct.
  rewrite Hctl, Hpct. by apply IH.
Qed.

Lemma forallb_impl {A} (P Q : A -> bool) l :
  (forall x, P x = true -> Q x = true) -> forallb P l = true -> forallb Q l = true.
Proof. rewrite !forallb_forall. auto. Qed.

Lemma parse_ok_plain host path :
  is_plain_host host = true -> is_plain_path path = true ->
  parse_ok ("https://" +:+ host +:+ "/" +:+ path) = true.
Proof.
  unfold is_plain_host, is_plain_path. intros [_ Hh]%andb_true_iff Hp.
  apply harmless_parse_ok. rewrite !chars_app, !forallb_app.
  repeat (apply andb_true_iff; split); try done.
  - eapply forallb_impl; [|exact Hh]. intros c Hc. apply unreserved_harmless.
    by rewrite Hc.
  - eapply forallb_impl; [|exact Hp]. apply unreserved_harmless.
Qed.

#[export] Instance go_url : NetUrl := {|
  url_parses := parse_ok;
  url_parses_ctl s Hs := ltac:(unfold parse_ok; by rewrite Hs);
  url_parses_plain := parse_ok_plain;
|}.

End Reference.
