(* ===== verification/Json.v ===== *)
(** * Json: values and the decoding steps of [encoding/json]

    [json.Unmarshal(body, &v)] first checks that [body] is one JSON value
    (class [JsonSyntax]; a syntax error leaves [v] untouched), then walks
    the value and stores it into [v] in place.  Two kinds of error occur
    while storing:

    - a value of the wrong JSON type for a field: the field is skipped,
      the first such error is saved, decoding goes on;
    - an error returned by a type's own [UnmarshalJSON] (here
      [time.Time]): decoding stops at once, and what was stored before
      stays stored.

    A decoder is a computation over a [target]: the Go value being filled
    and the saved error.  Stopping is a panic of the computation, which
    keeps the state, as the in-place stores of the library do.  Only the
    error kinds are modelled, not their messages: [Collect] drops the
    error. *)

From S2P Require Import Prelude GoMonad Float64 Strconv.

#[local] Open Scope Z_scope.

(** ** Values *)

(** A number keeps its literal: the type of the field decides how it is
    read. *)
#[warning="-register-all"]
Inductive json : Type :=
| JNull
| JBool (b : bool)
| JNumber (lit : string)
| JString (s : string)
| JArray (elems : list json)
| JObject (members : list (string * json)).

(** The name [encoding/json] gives the type of a value in its errors. *)
Definition json_kind (j : json) : string :=
  match j with
  | JNull => "null"
  | JBool _ => "bool"
  | JNumber _ => "number"
  | JString _ => "string"
  | JArray _ => "array"
  | JObject _ => "object"
  end.

(** Induction with a hypothesis for the values nested in arrays and
    objects. *)
Section JsonInd.
Variable P : json -> Prop.
Hypothesis Hnull : P JNull.
Hypothesis Hbool : forall b, P (JBool b).
Hypothesis Hnumber : forall lit, P (JNumber lit).
Hypothesis Hstring : forall s, P (JString s).
Hypothesis Harray : forall l, Forall P l -> P (JArray l).
Hypothesis Hobject : forall l, Forall (fun kv => P (snd kv)) l -> P (JObject l).

Lemma json_ind' : forall j, P j.
Proof.
  fix IH 1. intros [ | b | lit | s | l | l ].
  - apply Hnull.
  - apply Hbool.
  - apply Hnumber.
  - apply Hstring.
  - apply Harray. induction l as [|x l IHl]; constructor; [apply IH | exact IHl].
  - apply Hobject. induction l as [|kv l IHl]; constructor; [apply IH | exact IHl].
Qed.

End JsonInd.

(** ** Errors *)

Inductive json_error : Type :=
| SyntaxError
| UnmarshalTypeError (value : string) (type : string)
| UnmarshalerError (msg : error).

#[export] Instance json_error_eq_dec : EqDecision json_error.
Proof. solve_decision. Defined.

(** ** Interfaces to the library *)

(** The syntax check and scan of a document. *)
Class JsonSyntax : Type := {
  json_parse : string -> option json;
  json_parse_empty : json_parse "" = None;
}.

(** Does [time.Time.UnmarshalJSON] accept the string as RFC 3339? *)
Class TimeFormat : Type := {
  time_parses : string -> bool;
  time_parses_empty : time_parses "" = false;
}.

(** ** Targets *)

Record target (A : Type) : Type := Target {
  tgt : A;
  saved : option json_error;
}.

Arguments Target {A} tgt saved.
Arguments tgt {A} t.
Arguments saved {A} t.

(** A decoder stores one JSON value into a target of type [A]. *)
Definition decoder (A : Type) : Type := json -> Go (target A) unit.

Section Steps.
Context {A : Type}.

(** [v.Set(x)] *)
Definition store (x : A) : Go (target A) unit :=
  modify (fun t => Target x (saved t)).

(** [d.saveError]: only the first error is kept. *)
Definition saveError (e : json_error) : Go (target A) unit :=
  modify (fun t => Target (tgt t) (match saved t with Some e0 => Some e0 | None => Some e end)).

(** An error from an [UnmarshalJSON] method ends the decoding. *)
Definition abort (msg : error) : Go (target A) unit := panic msg.

Definition type_error (j : json) (type : string) : Go (target A) unit :=
  saveError (UnmarshalTypeError (json_kind j) type).

End Steps.

(** Run a decoder of a field on the field of the target. *)
Definition zoom {A B} (proj : A -> B) (update : B -> A -> A)
  (m : Go (target B) unit) : Go (target A) unit :=
  fun t =>
    let (r, t') := m (Target (proj (tgt t)) (saved t)) in
    (r, Target (update (tgt t') (tgt t)) (saved t')).

(** ** Decoders of the basic types *)

(** A JSON integer literal in the range of [int], as [strconv.ParseInt]
    reads it: an optional minus sign and decimal digits. *)
Definition parse_int (lit : string) : option Z :=
  let n :=
    match lit with
    | String c rest =>
        if code c =? 45 then Z.opp <$> digits_value rest else digits_value lit
    | "" => None
    end in
  n ≫= fun n => if in_int_range n then Some n else None.

Definition dec_string : decoder string := fun j =>
  match j with
  | JString s => store s
  | JNull => ret tt
  | _ => type_error j "string"
  end.

Definition dec_int : decoder int := fun j =>
  match j with
  | JNumber lit =>
      match parse_int lit with
      | Some n => store n
      | None => saveError (UnmarshalTypeError ("number " +:+ lit) "int")
      end
  | JNull => ret tt
  | _ => type_error j "int"
  end.

Definition dec_float64 `{Strconv} : decoder float64 := fun j =>
  match j with
  | JNumber lit =>
      match ParseFloat lit 64 with
      | (x, None) => store x
      | (_, Some _) => saveError (UnmarshalTypeError ("number " +:+ lit) "float64")
      end
  | JNull => ret tt
  | _ => type_error j "float64"
  end.

(** [time.Time]: zero, or the RFC 3339 text it was read from.  The
    exporter never looks inside a time. *)
Inductive time_Time : Type :=
| TimeZero
| TimeOf (rfc3339 : string).

#[export] Instance time_Time_eq_dec : EqDecision time_Time.
Proof. solve_decision. Defined.

Definition dec_time `{TimeFormat} : decoder time_Time := fun j =>
  match j with
  | JNull => ret tt
  | JString s =>
      if time_parses s then store (TimeOf s)
      else abort ("parsing time " +:+ dquote +:+ s +:+ dquote)
  | _ => abort "Time.UnmarshalJSON: input is not a JSON string"
  end.

(** ** Slices *)

(** Element [i] is decoded into the element the slice already has at
    [i], or into a zero value appended to it. *)
Fixpoint dec_elems {A} (zero : A) (dec : decoder A) (elems : list json)
  (old : list A) : Go (target (list A)) unit :=
  match elems with
  | [] => ret tt
  | j :: elems' =>
      let (x, old') := match old with
                       | x :: old' => (x, old')
                       | [] => (zero, [])
                       end in
      fun t =>
        let (r, t') := dec j (Target x (saved t)) in
        let t1 := Target (tgt t ++ [tgt t']) (saved t') in
        match r with
        | Returned _ => dec_elems zero dec elems' old' t1
        | Panicked msg => (Panicked msg, Target (tgt t1 ++ old') (saved t1))
        end
  end.

Definition dec_slice {A} (zero : A) (dec : decoder A) : decoder (list A) := fun j =>
  match j with
  | JArray elems =>
      old <- gets tgt ;;
      store [] ;;
      dec_elems zero dec elems old
  | JNull => store []
  | _ => type_error j "slice"
  end.

(** ** Structs *)

(** The key of a member as field names are compared with it: ASCII
    letters in lower case, and the two characters that fold to an ASCII
    letter, the Kelvin sign (to [k]) and the long s (to [s]). *)
Fixpoint fold_bytes (l : list ascii) : list ascii :=
  match l with
  | [] => []
  | c :: l' =>
      match l' with
      | c2 :: l'' =>
          if (code c =? 197) && (code c2 =? 191) then "s"%char :: fold_bytes l''
          else
            match l'' with
            | c3 :: l3 =>
                if (code c =? 226) && (code c2 =? 132) && (code c3 =? 170)
                then "k"%char :: fold_bytes l3
                else (if is_letter c then lower c else c) :: fold_bytes l'
            | [] => (if is_letter c then lower c else c) :: fold_bytes l'
            end
      | [] => [if is_letter c then lower c else c]
      end
  end.

Definition key_matches (tag key : string) : bool :=
  if decide (fold_bytes (chars key) = fold_bytes (chars tag)) then true else false.

(** The fields of a struct: the name in the struct tag and the decoder
    of the field. *)
Definition fields (A : Type) : Type := list (string * decoder A).

(** The field a key names: the one whose tag is the key, else the first
    whose tag matches it under folding. *)
Definition find_field {A} (fs : fields A) (key : string) : option (decoder A) :=
  match list_find (fun f => f.1 = key) fs with
  | Some (_, f) => Some f.2
  | None =>
      match list_find (fun f => key_matches f.1 key = true) fs with
      | Some (_, f) => Some f.2
      | None => None
      end
  end.

(** The members of an object in document order; a key that names no
    field is skipped. *)
Fixpoint dec_members {A} (fs : fields A) (members : list (string * json))
  : Go (target A) unit :=
  match members with
  | [] => ret tt
  | (key, value) :: members' =>
      match find_field fs key with
      | Some dec => dec value
      | None => ret tt
      end ;;
      dec_members fs members'
  end.

Definition dec_struct {A} (name : string) (fs : fields A) : decoder A := fun j =>
  match j with
  | JObject members => dec_members fs members
  | JNull => ret tt
  | _ => type_error j name
  end.

(** A field of a struct: its tag, and its decoder run on the field. *)
Definition field {A B} (tag : string) (proj : A -> B) (update : B -> A -> A)
  (dec : decoder B) : string * decoder A :=
  (tag, fun j => zoom proj update (dec j)).

(** ** [json.Unmarshal] *)

(** The value after decoding and the error returned: the syntax error,
    the error that stopped the decoding, or the first saved error. *)
Definition Unmarshal `{JsonSyntax} {A} (dec : decoder A) (body : string) (v : A)
  : A * option json_error :=
  match json_parse body with
  | None => (v, Some SyntaxError)
  | Some j =>
      match dec j (Target v None) with
      | (Returned _, t) => (tgt t, saved t)
      | (Panicked msg, t) => (tgt t, Some (UnmarshalerError msg))
      end
  end.

(** ** Reasoning about decoders *)

Section Rules.
Context {A : Type}.
Implicit Types (t : target A) (m : Go (target A) unit).

Lemma store_run (x : A) t : store x t = (Returned tt, Target x (saved t)).
Proof. reflexivity. Qed.

Lemma saveError_run e t :
  @saveError A e t =
  (Returned tt, Target (tgt t) (Some (default e (saved t)))).
Proof. unfold saveError, modify. by destruct (saved t). Qed.

(** The decoder found for a key is that of a field. *)
Lemma find_field_elem (fs : fields A) key dec :
  find_field fs key = Some dec -> exists tag, (tag, dec) ∈ fs.
Proof.
  unfold find_field.
  destruct (list_find (fun f => f.1 = key) fs) as [[i [tag d]]|] eqn:H1;
    [|destruct (list_find (fun f => key_matches f.1 key = true) fs)
        as [[i [tag d]]|] eqn:H2];
    intros Hfind; simplify_eq;
    [apply list_find_Some in H1 as (Hl & _ & _)
    |apply list_find_Some in H2 as (Hl & _ & _)];
    eauto using list_elem_of_lookup_2.
Qed.

(** A member whose key names no field is skipped. *)
Lemma dec_members_unknown (fs : fields A) key value members t :
  find_field fs key = None ->
  dec_members fs ((key, value) :: members) t = dec_members fs members t.
Proof. simpl. by intros ->. Qed.

Lemma dec_members_known (fs : fields A) key value members dec t :
  find_field fs key = Some dec ->
  dec_members fs ((key, value) :: members) t
  = bind (dec value) (fun _ => dec_members fs members) t.
Proof. simpl. by intros ->. Qed.

(** Members are decoded one after the other. *)
Lemma dec_members_app (fs : fields A) ms1 ms2 t :
  dec_members fs (ms1 ++ ms2) t
  = bind (dec_members fs ms1) (fun _ => dec_members fs ms2) t.
Proof.
  revert t. induction ms1 as [|[key value] ms1 IH]; intros t; [done|].
  simpl. rewrite (bind_assoc _ _ _ t). apply bind_ext_run. intros _ t'. apply IH.
Qed.

(** Decoding stops at the member that aborts: the members after it are
    not looked at. *)
Lemma dec_members_aborted (fs : fields A) ms1 ms2 t msg t' :
  dec_members fs ms1 t = (Panicked msg, t') ->
  dec_members fs (ms1 ++ ms2) t = (Panicked msg, t').
Proof. intros Hm. rewrite dec_members_app. by apply bind_panicked. Qed.

(** An object with a member that names no field decodes as without it. *)
Lemma dec_struct_unknown name (fs : fields A) key value ms1 ms2 t :
  find_field fs key = None ->
  dec_struct name fs (JObject (ms1 ++ (key, value) :: ms2)) t
  = dec_struct name fs (JObject (ms1 ++ ms2)) t.
Proof.
  intros Hkey. simpl. rewrite !dec_members_app. apply bind_ext_run.
  intros _ t'. by apply dec_members_unknown.
Qed.

End Rules.

(** A field decoder that aborts leaves the struct as it was: the field
    is stored only by a decoder that gets to its store. *)
Lemma zoom_abort {A B} (proj : A -> B) update msg (t : target A) :
  (forall a, update (proj a) a = a) ->
  zoom proj update (abort msg) t = (Panicked msg, t).
Proof. intros Heta. unfold zoom, abort, panic. simpl. rewrite Heta. by destruct t. Qed.

(** ** Properties every decoder keeps *)

(** [preserves P m]: the stores of [m] keep the target in [P], whether
    [m] returns or aborts. *)
Definition preserves {A} (P : A -> Prop) (m : Go (target A) unit) : Prop :=
  forall t, P (tgt t) -> P (tgt (final m t)).

(** [keeps_first m]: an error saved before [m] is still the saved error
    after it. *)
Definition keeps_first {A} (m : Go (target A) unit) : Prop :=
  forall t e, saved t = Some e -> saved (final m t) = Some e.

(** [total m]: [m] never aborts. *)
Definition total {A} (m : Go (target A) unit) : Prop :=
  forall t, exists t', m t = (Returned tt, t').

Section Preserves.
Context {A : Type}.
Implicit Types (P : A -> Prop) (m : Go (target A) unit).

Lemma preserves_ret P : preserves P (ret tt).
Proof. by intros t. Qed.

Lemma preserves_abort P msg : preserves P (abort msg).
Proof. by intros t. Qed.

Lemma preserves_saveError P e : preserves P (saveError e).
Proof. by intros t. Qed.

Lemma preserves_type_error P j type : preserves P (type_error j type).
Proof. apply preserves_saveError. Qed.

Lemma preserves_store P x : P x -> preserves P (store x).
Proof. by intros Hx t _. Qed.

Lemma preserves_bind P m (f : unit -> Go (target A) unit) :
  preserves P m -> (forall u, preserves P (f u)) -> preserves P (bind m f).
Proof.
  intros Hm Hf t Ht. specialize (Hm t Ht). unfold final, bind in *.
  destruct (m t) as [[u|msg] t']; [by apply Hf|done].
Qed.

Lemma preserves_zoom {B} P (Q : B -> Prop) (proj : A -> B) update
  (m : Go (target B) unit) :
  (forall a, P a -> Q (proj a)) -> (forall a b, P a -> Q b -> P (update b a)) ->
  preserves Q m -> preserves P (zoom proj update m).
Proof.
  intros Hproj Hupd Hm t Ht. unfold final, zoom.
  specialize (Hm (Target (proj (tgt t)) (saved t)) (Hproj _ Ht)).
  unfold final in Hm. destruct (m _) as [r t']. by apply Hupd.
Qed.

Lemma preserves_dec_members P (fs : fields A) members :
  Forall (fun f => forall j, preserves P (f.2 j)) fs ->
  preserves P (dec_members fs members).
Proof.
  intros Hfs. induction members as [|[key value] members IH];
    [apply preserves_ret|].
  simpl. apply preserves_bind; [|done].
  destruct (find_field fs key) as [dec|] eqn:Hfind; [|apply preserves_ret].
  apply find_field_elem in Hfind as [tag Hin].
  rewrite Forall_forall in Hfs. apply (Hfs _ Hin).
Qed.

Lemma preserves_dec_struct P name (fs : fields A) j :
  Forall (fun f => forall j, preserves P (f.2 j)) fs ->
  preserves P (dec_struct name fs j).
Proof.
  intros Hfs. destruct j; simpl;
    auto using preserves_type_error, preserves_ret, preserves_dec_members.
Qed.

End Preserves.

(** ** The basic decoders *)

Section Basic.
Context `{Strconv} `{TimeFormat}.

Lemma preserves_True {A} (m : Go (target A) unit) : preserves (fun _ => True) m.
Proof. by intros t. Qed.

Lemma parse_int_range lit n : parse_int lit = Some n -> in_int_range n = true.
Proof.
  unfold parse_int. intros Hn. apply bind_Some in Hn as (k & _ & Hk).
  by destruct (in_int_range k) eqn:Hr; simplify_eq.
Qed.

(** An [int] field always holds a number in the range of [int]. *)
Lemma preserves_dec_int j : preserves (fun n => in_int_range n = true) (dec_int j).
Proof.
  destruct j as [| |lit| | |]; try by intros t.
  simpl. destruct (parse_int lit) as [n|] eqn:Hn; [|by intros t].
  apply preserves_store. by eapply parse_int_range.
Qed.

Lemma preserves_field {A B} (P : A -> Prop) (Q : B -> Prop) tag proj update
  (dec : decoder B) :
  (forall a, P a -> Q (proj a)) -> (forall a b, P a -> Q b -> P (update b a)) ->
  (forall j, preserves Q (dec j)) ->
  forall j, preserves P ((field tag proj update dec).2 j).
Proof. intros Hproj Hupd Hdec j. by apply (preserves_zoom P Q). Qed.

(** Every element of a slice is decoded by the decoder of the elements,
    into an old element or a zero value. *)
Lemma preserves_dec_elems {A} (Q : A -> Prop) zero (dec : decoder A) elems :
  Q zero -> (forall j, preserves Q (dec j)) ->
  forall old, Forall Q old -> preserves (Forall Q) (dec_elems zero dec elems old).
Proof.
  intros Hzero Hdec. induction elems as [|j elems IH]; intros old Hold t Ht; [done|].
  unfold final. simpl.
  assert (Q (match old with x :: _ => x | [] => zero end) /\
          Forall Q (match old with _ :: old' => old' | [] => [] end)) as [Hx Hold']
    by (destruct Hold; auto).
  destruct old as [|x old']; simpl in *;
    match goal with |- context [dec j ?t0] =>
      pose proof (Hdec j t0 Hx) as Hj; unfold final in Hj;
      destruct (dec j t0) as [[[]|msg] t'] end; simpl in *;
    try (apply (IH _ Hold'); simpl; by apply Forall_app_2; [|constructor]);
    repeat (apply Forall_app_2); auto.
Qed.

Lemma preserves_dec_slice {A} (Q : A -> Prop) zero (dec : decoder A) j :
  Q zero -> (forall j, preserves Q (dec j)) ->
  preserves (Forall Q) (dec_slice zero dec j).
Proof.
  intros Hzero Hdec. destruct j as [| | | |elems|]; try by intros t.
  intros t Ht. unfold dec_slice.
  apply (preserves_dec_elems Q zero dec elems Hzero Hdec (tgt t) Ht
           (Target [] (saved t))).
  constructor.
Qed.

End Basic.

(** ** [Unmarshal] *)

Section Unmarshal.
Context `{JsonSyntax} {A : Type}.
Implicit Types (dec : decoder A) (v : A).

(** A body that is not JSON leaves the value as it was. *)
Lemma Unmarshal_syntax dec body v :
  json_parse body = None -> Unmarshal dec body v = (v, Some SyntaxError).
Proof. unfold Unmarshal. by intros ->. Qed.

Lemma Unmarshal_returned dec body v j t :
  json_parse body = Some j -> dec j (Target v None) = (Returned tt, t) ->
  Unmarshal dec body v = (tgt t, saved t).
Proof. unfold Unmarshal. by intros -> ->. Qed.

Lemma Unmarshal_aborted dec body v j msg t :
  json_parse body = Some j -> dec j (Target v None) = (Panicked msg, t) ->
  Unmarshal dec body v = (tgt t, Some (UnmarshalerError msg)).
Proof. unfold Unmarshal. by intros -> ->. Qed.

(** What the decoder preserves holds of the value after [Unmarshal],
    whatever the body. *)
Lemma Unmarshal_preserves (P : A -> Prop) dec body v :
  (forall j, preserves P (dec j)) -> P v -> P (fst (Unmarshal dec body v)).
Proof.
  intros Hdec Hv. unfold Unmarshal. destruct (json_parse body) as [j|]; [|done].
  specialize (Hdec j (Target v None) Hv). unfold final in Hdec.
  by destruct (dec j _) as [[[]|msg] t].
Qed.

End Unmarshal.
