(* ===== verification/JsonRef.v ===== *)
(** * JsonRef: reference instances of [JsonSyntax] and [TimeFormat]

    A parser for the JSON grammar of RFC 8259 as the scanner of
    [encoding/json] accepts it: one value with optional white space
    around it, no trailing data, nesting of at most 10000.  Strings are
    unescaped as [unquote] does (a lone surrogate becomes U+FFFD); raw
    bytes are kept as they are.  The parser recurses on fuel; the length
    of the input is enough, because every call consumes a byte.

    The reference [TimeFormat] accepts the fixed-width RFC 3339 shape
    [YYYY-MM-DDTHH:MM:SS], an optional fraction, and [Z] or a numeric
    offset. *)

From S2P Require Import Prelude GoMonad Float64 Strconv Json.

#[local] Open Scope Z_scope.

(** ** Lexical helpers *)

Definition is_ws (c : ascii) : bool :=
  (code c =? 32) || (code c =? 9) || (code c =? 10) || (code c =? 13).

Fixpoint skip_ws (l : list ascii) : list ascii :=
  match l with
  | c :: l' => if is_ws c then skip_ws l' else l
  | [] => []
  end.

(** [l] without the prefix [word], if it starts with it. *)
Fixpoint expect (word l : list ascii) : option (list ascii) :=
  match word, l with
  | [], _ => Some l
  | w :: word', c :: l' => if Ascii.eqb w c then expect word' l' else None
  | _ :: _, [] => None
  end.

(** The longest prefix of digits, and the rest. *)
Fixpoint span_digits (l : list ascii) : list ascii * list ascii :=
  match l with
  | c :: l' =>
      if is_digit c then let (ds, r) := span_digits l' in (c :: ds, r) else ([], l)
  | [] => ([], [])
  end.

(** ** Numbers *)

(** An optional minus sign; zero, or a digit from 1 to 9 and more
    digits; optionally a point and digits; optionally an exponent. *)
Definition scan_int_part (l : list ascii) : option (list ascii * list ascii) :=
  match l with
  | c :: l' =>
      if code c =? 48 then Some ([c], l')
      else if is_digit c then let (ds, r) := span_digits l' in Some (c :: ds, r)
      else None
  | [] => None
  end.

Definition scan_frac_part (l : list ascii) : option (list ascii * list ascii) :=
  match l with
  | c :: l' =>
      if code c =? 46 then
        match span_digits l' with
        | ([], _) => None
        | (ds, r) => Some (c :: ds, r)
        end
      else Some ([], l)
  | [] => Some ([], [])
  end.

Definition scan_exp_part (l : list ascii) : option (list ascii * list ascii) :=
  match l with
  | c :: l' =>
      if Ascii.eqb (lower c) "e" then
        let (sign, l'') :=
          match l' with
          | s :: r => if (code s =? 43) || (code s =? 45) then ([s], r) else ([], l')
          | [] => ([], l')
          end in
        match span_digits l'' with
        | ([], _) => None
        | (ds, r) => Some (c :: sign ++ ds, r)
        end
      else Some ([], l)
  | [] => Some ([], [])
  end.

Definition scan_number (l : list ascii) : option (string * list ascii) :=
  let (minus, l1) :=
    match l with
    | c :: l' => if code c =? 45 then ([c], l') else ([], l)
    | [] => ([], l)
    end in
  '(i, l2) ← scan_int_part l1;
  '(f, l3) ← scan_frac_part l2;
  '(e, l4) ← scan_exp_part l3;
  Some (string_of_chars (minus ++ i ++ f ++ e), l4).

(** ** Strings *)

Definition hex_value (c : ascii) : option Z :=
  if is_digit c then Some (digit_value c)
  else if is_hex_letter c then Some (hex_letter_value c)
  else None.

Definition hex4 (a b c d : ascii) : option Z :=
  x1 ← hex_value a; x2 ← hex_value b; x3 ← hex_value c; x4 ← hex_value d;
  Some (((x1 * 16 + x2) * 16 + x3) * 16 + x4).

Definition byte (n : Z) : ascii := ascii_of_N (Z.to_N n).

(** The UTF-8 encoding of a code point. *)
Definition utf8 (cp : Z) : list ascii :=
  if cp <? 128 then [byte cp]
  else if cp <? 2048 then [byte (192 + cp / 64); byte (128 + cp mod 64)]
  else if cp <? 65536 then
    [byte (224 + cp / 4096); byte (128 + cp / 64 mod 64); byte (128 + cp mod 64)]
  else
    [byte (240 + cp / 262144); byte (128 + cp / 4096 mod 64);
     byte (128 + cp / 64 mod 64); byte (128 + cp mod 64)].

Definition replacement : Z := 65533.

Definition is_high_surrogate (u : Z) : bool := (55296 <=? u) && (u <? 56320).
Definition is_low_surrogate (u : Z) : bool := (56320 <=? u) && (u <? 57344).

(** The characters a one-letter escape stands for. *)
Definition simple_escape (c : ascii) : option ascii :=
  if (code c =? 34) || (code c =? 92) || (code c =? 47) then Some c
  else if Ascii.eqb c "b" then Some (byte 8)
  else if Ascii.eqb c "f" then Some (byte 12)
  else if Ascii.eqb c "n" then Some (byte 10)
  else if Ascii.eqb c "r" then Some (byte 13)
  else if Ascii.eqb c "t" then Some (byte 9)
  else None.

(** The body of a string after its opening quote: the bytes it denotes
    and what follows the closing quote. *)
Fixpoint scan_string (fuel : nat) (l : list ascii)
  : option (list ascii * list ascii) :=
  match fuel with
  | O => None
  | S fuel' =>
      match l with
      | [] => None
      | c :: l' =>
          if code c =? 34 then Some ([], l')
          else if code c <? 32 then None
          else if code c =? 92 then
            match l' with
            | [] => None
            | e :: l'' =>
                if Ascii.eqb e "u" then
                  match l'' with
                  | a :: b :: c' :: d :: l3 =>
                      u ← hex4 a b c' d;
                      let low :=
                        match l3 with
                        | b1 :: b2 :: a2 :: b3 :: c2 :: d2 :: l4 =>
                            if (code b1 =? 92) && Ascii.eqb b2 "u" then
                              match hex4 a2 b3 c2 d2 with
                              | Some v => if is_low_surrogate v then Some (v, l4) else None
                              | None => None
                              end
                            else None
                        | _ => None
                        end in
                      let '(cp, rest) :=
                        if is_high_surrogate u then
                          match low with
                          | Some (v, l4) =>
                              (65536 + (u - 55296) * 1024 + (v - 56320), l4)
                          | None => (replacement, l3)
                          end
                        else if is_low_surrogate u then (replacement, l3)
                        else (u, l3) in
                      '(s, r) ← scan_string fuel' rest;
                      Some (utf8 cp ++ s, r)
                  | _ => None
                  end
                else
                  x ← simple_escape e;
                  '(s, r) ← scan_string fuel' l'';
                  Some (x :: s, r)
            end
          else
            '(s, r) ← scan_string fuel' l';
            Some (c :: s, r)
      end
  end.

(** ** Values *)

Definition maxNestingDepth : nat := 10000.

Section Sequences.
(** The parser of one value, at one level deeper than the sequence. *)
Variable value : list ascii -> option (json * list ascii).

(** Elements after the first: [, value]* followed by the closing
    bracket. *)
Fixpoint parse_more_elems (fuel : nat) (l : list ascii)
  : option (list json * list ascii) :=
  match fuel with
  | O => None
  | S fuel' =>
      match skip_ws l with
      | c :: l' =>
          if code c =? 93 then Some ([], l')
          else if code c =? 44 then
            '(v, l1) ← value l';
            '(vs, l2) ← parse_more_elems fuel' l1;
            Some (v :: vs, l2)
          else None
      | [] => None
      end
  end.

Definition parse_elems (fuel : nat) (l : list ascii)
  : option (list json * list ascii) :=
  match skip_ws l with
  | c :: l' =>
      if code c =? 93 then Some ([], l')
      else
        '(v, l1) ← value l;
        '(vs, l2) ← parse_more_elems fuel l1;
        Some (v :: vs, l2)
  | [] => None
  end.

(** One member: a string, a colon, a value. *)
Definition parse_member (l : list ascii)
  : option ((string * json) * list ascii) :=
  match skip_ws l with
  | q :: l' =>
      if code q =? 34 then
        '(k, l1) ← scan_string (S (length l')) l';
        match skip_ws l1 with
        | c :: l2 =>
            if code c =? 58 then
              '(v, l3) ← value l2;
              Some ((string_of_chars k, v), l3)
            else None
        | [] => None
        end
      else None
  | [] => None
  end.

Fixpoint parse_more_members (fuel : nat) (l : list ascii)
  : option (list (string * json) * list ascii) :=
  match fuel with
  | O => None
  | S fuel' =>
      match skip_ws l with
      | c :: l' =>
          if code c =? 125 then Some ([], l')
          else if code c =? 44 then
            '(m, l1) ← parse_member l';
            '(ms, l2) ← parse_more_members fuel' l1;
            Some (m :: ms, l2)
          else None
      | [] => None
      end
  end.

Definition parse_members (fuel : nat) (l : list ascii)
  : option (list (string * json) * list ascii) :=
  match skip_ws l with
  | c :: l' =>
      if code c =? 125 then Some ([], l')
      else
        '(m, l1) ← parse_member l;
        '(ms, l2) ← parse_more_members fuel l1;
        Some (m :: ms, l2)
  | [] => None
  end.

End Sequences.

(** One value, skipping the white space before it. *)
Fixpoint parse_value (fuel depth : nat) (l : list ascii)
  : option (json * list ascii) :=
  match fuel with
  | O => None
  | S fuel' =>
      match skip_ws l with
      | [] => None
      | c :: l' =>
          if code c =? 123 then
            if (maxNestingDepth <=? depth)%nat then None
            else
              '(ms, r) ← parse_members (parse_value fuel' (S depth)) fuel' l';
              Some (JObject ms, r)
          else if code c =? 91 then
            if (maxNestingDepth <=? depth)%nat then None
            else
              '(vs, r) ← parse_elems (parse_value fuel' (S depth)) fuel' l';
              Some (JArray vs, r)
          else if code c =? 34 then
            '(s, r) ← scan_string (S (length l')) l';
            Some (JString (string_of_chars s), r)
          else if Ascii.eqb c "t" then
            r ← expect (chars "rue") l'; Some (JBool true, r)
          else if Ascii.eqb c "f" then
            r ← expect (chars "alse") l'; Some (JBool false, r)
          else if Ascii.eqb c "n" then
            r ← expect (chars "ull") l'; Some (JNull, r)
          else
            '(lit, r) ← scan_number (c :: l');
            Some (JNumber lit, r)
      end
  end.

(** A document: one value and nothing but white space after it. *)
Definition parse_document (s : string) : option json :=
  let l := chars s in
  '(v, r) ← parse_value (S (length l)) 0 l;
  match skip_ws r with
  | [] => Some v
  | _ :: _ => None
  end.

#[export] Instance go_json : JsonSyntax := {|
  json_parse := parse_document;
  json_parse_empty := eq_refl;
|}.

(** ** RFC 3339 *)

Definition digits_at (n : nat) (l : list ascii) : option (Z * list ascii) :=
  let ds := take n l in
  if (length ds =? n)%nat && forallb is_digit ds
  then Some (fold_left (fun acc c => acc * 10 + digit_value c) ds 0, drop n l)
  else None.

Definition sep (c : ascii) (l : list ascii) : option (list ascii) :=
  match l with
  | x :: l' => if Ascii.eqb x c then Some l' else None
  | [] => None
  end.

Definition days_in_month (y m : Z) : Z :=
  if m =? 2 then
    if ((y mod 4 =? 0) && negb (y mod 100 =? 0)) || (y mod 400 =? 0) then 29 else 28
  else if (m =? 4) || (m =? 6) || (m =? 9) || (m =? 11) then 30 else 31.

Definition rfc3339_offset (l : list ascii) : bool :=
  match l with
  | [c] => Ascii.eqb c "Z"
  | c :: l' =>
      if (code c =? 43) || (code c =? 45) then
        match (h ← digits_at 2 l'; l1 ← sep ":" h.2; m ← digits_at 2 l1; Some (h.1, m.1, m.2)) with
        | Some (h, m, []) => (h <? 24) && (m <? 60)
        | _ => false
        end
      else false
  | [] => false
  end.

Definition rfc3339_ok (s : string) : bool :=
  match (y ← digits_at 4 (chars s); l1 ← sep "-" y.2;
         mo ← digits_at 2 l1; l2 ← sep "-" mo.2;
         d ← digits_at 2 l2; l3 ← sep "T" d.2;
         h ← digits_at 2 l3; l4 ← sep ":" h.2;
         mi ← digits_at 2 l4; l5 ← sep ":" mi.2;
         se ← digits_at 2 l5;
         Some (y.1, mo.1, d.1, h.1, mi.1, se.1, se.2)) with
  | Some (y, mo, d, h, mi, se, rest) =>
      (1 <=? mo) && (mo <=? 12) && (1 <=? d) && (d <=? days_in_month y mo)
      && (h <? 24) && (mi <? 60) && (se <? 60)
      && match rest with
         | c :: r =>
             if code c =? 46 then
               match span_digits r with
               | ([], _) => false
               | (_, r') => rfc3339_offset r'
               end
             else rfc3339_offset rest
         | [] => false
         end
  | None => false
  end.

#[export] Instance go_time : TimeFormat := {|
  time_parses := rfc3339_ok;
  time_parses_empty := eq_refl;
|}.

(** ** The parser on concrete documents *)

Example parse_object :
  parse_document (dq "{ 'a': [1, -2.5e3, true, null], 'b': {} }") =
  Some (JObject [("a", JArray [JNumber "1"; JNumber "-2.5e3"; JBool true; JNull]);
                 ("b", JObject [])]).
Proof. vm_compute. reflexivity. Qed.
