(* ===== verification/Stats.v ===== *)
(** * Stats: the statistics document, [GatewayConnectionStats]

    The struct of [ttn_exporter.go] lines 188-231, with a record for each
    of its anonymous nested structs, their zero values (what [var
    gatewayStats GatewayConnectionStats] declares), and the decoder that
    the field types and the [json] struct tags determine.  A field of the
    records has the name of the Go field. *)

From S2P Require Import Prelude GoMonad Float64 Strconv Json StrconvRef JsonRef.

#[local] Open Scope Z_scope.

(** ** The structs *)

(** [LastStatus.Versions] *)
Record VersionsT : Type := mkVersions {
  Fpga : string;
  Hal : string;
  TtnLwGatewayServer : string;
}.

(** An element of [LastStatus.AntennaLocations] *)
Record AntennaLocation : Type := mkAntennaLocation {
  Latitude : float64;
  Longitude : float64;
  Altitude : int;
}.

(** [LastStatus.Metrics]: the seven link counters. *)
Record MetricsT : Type := mkMetrics {
  Ackr : int;
  Lpps : int;
  Rxfw : int;
  Rxin : int;
  Rxok : int;
  Txin : int;
  Txok : int;
}.

Record LastStatusT : Type := mkLastStatus {
  Time : time_Time;
  BootTime : time_Time;
  Versions : VersionsT;
  AntennaLocations : list AntennaLocation;
  Ip : list string;
  Metrics : MetricsT;
}.

Record RoundTripTimesT : Type := mkRoundTripTimes {
  Min : string;
  Max : string;
  Median : string;
  Count : int;
}.

(** An element of [SubBands] *)
Record SubBand : Type := mkSubBand {
  MinFrequency : string;
  MaxFrequency : string;
  DownlinkUtilizationLimit : float64;
}.

Record GatewayConnectionStats : Type := mkGatewayConnectionStats {
  ConnectedAt : time_Time;
  Protocol : string;
  LastStatusReceivedAt : time_Time;
  LastStatus : LastStatusT;
  LastUplinkReceivedAt : time_Time;
  UplinkCount : string;
  LastDownlinkReceivedAt : time_Time;
  DownlinkCount : string;
  RoundTripTimes : RoundTripTimesT;
  SubBands : list SubBand;
}.

#[export] Instance VersionsT_eq_dec : EqDecision VersionsT.
Proof. solve_decision. Defined.
#[export] Instance AntennaLocation_eq_dec : EqDecision AntennaLocation.
Proof. solve_decision. Defined.
#[export] Instance MetricsT_eq_dec : EqDecision MetricsT.
Proof. solve_decision. Defined.
#[export] Instance LastStatusT_eq_dec : EqDecision LastStatusT.
Proof. solve_decision. Defined.
#[export] Instance RoundTripTimesT_eq_dec : EqDecision RoundTripTimesT.
Proof. solve_decision. Defined.
#[export] Instance SubBand_eq_dec : EqDecision SubBand.
Proof. solve_decision. Defined.
#[export] Instance GatewayConnectionStats_eq_dec : EqDecision GatewayConnectionStats.
Proof. solve_decision. Defined.

(** ** Zero values *)

Definition zero_Versions : VersionsT := mkVersions "" "" "".
Definition zero_AntennaLocation : AntennaLocation :=
  mkAntennaLocation f64_zero f64_zero 0.
Definition zero_Metrics : MetricsT := mkMetrics 0 0 0 0 0 0 0.
Definition zero_LastStatus : LastStatusT :=
  mkLastStatus TimeZero TimeZero zero_Versions [] [] zero_Metrics.
Definition zero_RoundTripTimes : RoundTripTimesT := mkRoundTripTimes "" "" "" 0.
Definition zero_SubBand : SubBand := mkSubBand "" "" f64_zero.

(** [var gatewayStats GatewayConnectionStats] *)
Definition zero_GatewayConnectionStats : GatewayConnectionStats :=
  mkGatewayConnectionStats TimeZero "" TimeZero zero_LastStatus TimeZero ""
    TimeZero "" zero_RoundTripTimes [].

(** ** Decoders *)

Section Decoders.
Context `{Strconv} `{TimeFormat}.

Definition Versions_fields : fields VersionsT := [
  field "fpga" Fpga
    (fun x v => mkVersions x (Hal v) (TtnLwGatewayServer v)) dec_string;
  field "hal" Hal
    (fun x v => mkVersions (Fpga v) x (TtnLwGatewayServer v)) dec_string;
  field "ttn-lw-gateway-server" TtnLwGatewayServer
    (fun x v => mkVersions (Fpga v) (Hal v) x) dec_string
].

Definition AntennaLocation_fields : fields AntennaLocation := [
  field "latitude" Latitude
    (fun x a => mkAntennaLocation x (Longitude a) (Altitude a)) dec_float64;
  field "longitude" Longitude
    (fun x a => mkAntennaLocation (Latitude a) x (Altitude a)) dec_float64;
  field "altitude" Altitude
    (fun x a => mkAntennaLocation (Latitude a) (Longitude a) x) dec_int
].

Definition Metrics_fields : fields MetricsT := [
  field "ackr" Ackr
    (fun x m => mkMetrics x (Lpps m) (Rxfw m) (Rxin m) (Rxok m) (Txin m) (Txok m))
    dec_int;
  field "lpps" Lpps
    (fun x m => mkMetrics (Ackr m) x (Rxfw m) (Rxin m) (Rxok m) (Txin m) (Txok m))
    dec_int;
  field "rxfw" Rxfw
    (fun x m => mkMetrics (Ackr m) (Lpps m) x (Rxin m) (Rxok m) (Txin m) (Txok m))
    dec_int;
  field "rxin" Rxin
    (fun x m => mkMetrics (Ackr m) (Lpps m) (Rxfw m) x (Rxok m) (Txin m) (Txok m))
    dec_int;
  field "rxok" Rxok
    (fun x m => mkMetrics (Ackr m) (Lpps m) (Rxfw m) (Rxin m) x (Txin m) (Txok m))
    dec_int;
  field "txin" Txin
    (fun x m => mkMetrics (Ackr m) (Lpps m) (Rxfw m) (Rxin m) (Rxok m) x (Txok m))
    dec_int;
  field "txok" Txok
    (fun x m => mkMetrics (Ackr m) (Lpps m) (Rxfw m) (Rxin m) (Rxok m) (Txin m) x)
    dec_int
].

Definition dec_Versions : decoder VersionsT := dec_struct "struct" Versions_fields.
Definition dec_AntennaLocation : decoder AntennaLocation :=
  dec_struct "struct" AntennaLocation_fields.
Definition dec_Metrics : decoder MetricsT := dec_struct "struct" Metrics_fields.

Definition LastStatus_fields : fields LastStatusT := [
  field "time" Time
    (fun x s => mkLastStatus x (BootTime s) (Versions s) (AntennaLocations s)
                  (Ip s) (Metrics s)) dec_time;
  field "boot_time" BootTime
    (fun x s => mkLastStatus (Time s) x (Versions s) (AntennaLocations s)
                  (Ip s) (Metrics s)) dec_time;
  field "versions" Versions
    (fun x s => mkLastStatus (Time s) (BootTime s) x (AntennaLocations s)
                  (Ip s) (Metrics s)) dec_Versions;
  field "antenna_locations" AntennaLocations
    (fun x s => mkLastStatus (Time s) (BootTime s) (Versions s) x
                  (Ip s) (Metrics s))
    (dec_slice zero_AntennaLocation dec_AntennaLocation);
  field "ip" Ip
    (fun x s => mkLastStatus (Time s) (BootTime s) (Versions s)
                  (AntennaLocations s) x (Metrics s))
    (dec_slice "" dec_string);
  field "metrics" Metrics
    (fun x s => mkLastStatus (Time s) (BootTime s) (Versions s)
                  (AntennaLocations s) (Ip s) x) dec_Metrics
].

Definition RoundTripTimes_fields : fields RoundTripTimesT := [
  field "min" Min (fun x r => mkRoundTripTimes x (Max r) (Median r) (Count r))
    dec_string;
  field "max" Max (fun x r => mkRoundTripTimes (Min r) x (Median r) (Count r))
    dec_string;
  field "median" Median (fun x r => mkRoundTripTimes (Min r) (Max r) x (Count r))
    dec_string;
  field "count" Count (fun x r => mkRoundTripTimes (Min r) (Max r) (Median r) x)
    dec_int
].

Definition SubBand_fields : fields SubBand := [
  field "min_frequency" MinFrequency
    (fun x b => mkSubBand x (MaxFrequency b) (DownlinkUtilizationLimit b))
    dec_string;
  field "max_frequency" MaxFrequency
    (fun x b => mkSubBand (MinFrequency b) x (DownlinkUtilizationLimit b))
    dec_string;
  field "downlink_utilization_limit" DownlinkUtilizationLimit
    (fun x b => mkSubBand (MinFrequency b) (MaxFrequency b) x) dec_float64
].

Definition dec_LastStatus : decoder LastStatusT :=
  dec_struct "struct" LastStatus_fields.
Definition dec_RoundTripTimes : decoder RoundTripTimesT :=
  dec_struct "struct" RoundTripTimes_fields.
Definition dec_SubBand : decoder SubBand := dec_struct "struct" SubBand_fields.

Definition GatewayConnectionStats_fields : fields GatewayConnectionStats := [
  field "connected_at" ConnectedAt
    (fun x g => mkGatewayConnectionStats x (Protocol g) (LastStatusReceivedAt g)
       (LastStatus g) (LastUplinkReceivedAt g) (UplinkCount g)
       (LastDownlinkReceivedAt g) (DownlinkCount g) (RoundTripTimes g)
       (SubBands g)) dec_time;
  field "protocol" Protocol
    (fun x g => mkGatewayConnectionStats (ConnectedAt g) x (LastStatusReceivedAt g)
       (LastStatus g) (LastUplinkReceivedAt g) (UplinkCount g)
       (LastDownlinkReceivedAt g) (DownlinkCount g) (RoundTripTimes g)
       (SubBands g)) dec_string;
  field "last_status_received_at" LastStatusReceivedAt
    (fun x g => mkGatewayConnectionStats (ConnectedAt g) (Protocol g) x
       (LastStatus g) (LastUplinkReceivedAt g) (UplinkCount g)
       (LastDownlinkReceivedAt g) (DownlinkCount g) (RoundTripTimes g)
       (SubBands g)) dec_time;
  field "last_status" LastStatus
    (fun x g => mkGatewayConnectionStats (ConnectedAt g) (Protocol g)
       (LastStatusReceivedAt g) x (LastUplinkReceivedAt g) (UplinkCount g)
       (LastDownlinkReceivedAt g) (DownlinkCount g) (RoundTripTimes g)
       (SubBands g)) dec_LastStatus;
  field "last_uplink_received_at" LastUplinkReceivedAt
    (fun x g => mkGatewayConnectionStats (ConnectedAt g) (Protocol g)
       (LastStatusReceivedAt g) (LastStatus g) x (UplinkCount g)
       (LastDownlinkReceivedAt g) (DownlinkCount g) (RoundTripTimes g)
       (SubBands g)) dec_time;
  field "uplink_count" UplinkCount
    (fun x g => mkGatewayConnectionStats (ConnectedAt g) (Protocol g)
       (LastStatusReceivedAt g) (LastStatus g) (LastUplinkReceivedAt g) x
       (LastDownlinkReceivedAt g) (DownlinkCount g) (RoundTripTimes g)
       (SubBands g)) dec_string;
  field "last_downlink_received_at" LastDownlinkReceivedAt
    (fun x g => mkGatewayConnectionStats (ConnectedAt g) (Protocol g)
       (LastStatusReceivedAt g) (LastStatus g) (LastUplinkReceivedAt g)
       (UplinkCount g) x (DownlinkCount g) (RoundTripTimes g) (SubBands g))
    dec_time;
  field "downlink_count" DownlinkCount
    (fun x g => mkGatewayConnectionStats (ConnectedAt g) (Protocol g)
       (LastStatusReceivedAt g) (LastStatus g) (LastUplinkReceivedAt g)
       (UplinkCount g) (LastDownlinkReceivedAt g) x (RoundTripTimes g)
       (SubBands g)) dec_string;
  field "round_trip_times" RoundTripTimes
    (fun x g => mkGatewayConnectionStats (ConnectedAt g) (Protocol g)
       (LastStatusReceivedAt g) (LastStatus g) (LastUplinkReceivedAt g)
       (UplinkCount g) (LastDownlinkReceivedAt g) (DownlinkCount g) x
       (SubBands g)) dec_RoundTripTimes;
  field "sub_bands" SubBands
    (fun x g => mkGatewayConnectionStats (ConnectedAt g) (Protocol g)
       (LastStatusReceivedAt g) (LastStatus g) (LastUplinkReceivedAt g)
       (UplinkCount g) (LastDownlinkReceivedAt g) (DownlinkCount g)
       (RoundTripTimes g) x) (dec_slice zero_SubBand dec_SubBand)
].

Definition dec_GatewayConnectionStats : decoder GatewayConnectionStats :=
  dec_struct "exporter.GatewayConnectionStats" GatewayConnectionStats_fields.

End Decoders.

(** ** The ints of a document *)







Section Invariant.
Context `{Strconv} `{TimeFormat}.











End Invariant.

(** ** What the decoder does with a document *)

Section Decoding.
Context `{Strconv} `{TimeFormat} `{JsonSyntax}.
Implicit Types (g : GatewayConnectionStats) (t : target GatewayConnectionStats).



(** The four time stamps at the top of the document. *)
Definition time_tags : list string :=
  ["connected_at"; "last_status_received_at"; "last_uplink_received_at";
   "last_downlink_received_at"].

Lemma dec_time_stamp_aborts tag s members t :
  tag ∈ time_tags -> time_parses s = false ->
  dec_members GatewayConnectionStats_fields ((tag, JString s) :: members) t
  = (Panicked ("parsing time " +:+ dquote +:+ s +:+ dquote), t).
Proof.
  intros Htag Hs. unfold time_tags in Htag.
  repeat (apply elem_of_cons in Htag as [->|Htag]); [..|by apply elem_of_nil in Htag];
    (erewrite dec_members_known by reflexivity);
    apply bind_panicked; simpl; rewrite Hs; apply zoom_abort; by intros [].
Qed.

(** C28: a time stamp that is not RFC 3339 stops the decoding: the
    members before it are stored, those after it are never looked at,
    and [json.Unmarshal] returns the error of the time stamp. *)
Theorem Unmarshal_bad_time_stops body g tag s ms1 ms2 t :
  json_parse body = Some (JObject (ms1 ++ (tag, JString s) :: ms2)) ->
  tag ∈ time_tags -> time_parses s = false ->
  dec_members GatewayConnectionStats_fields ms1 (Target g None) = (Returned tt, t) ->
  Unmarshal dec_GatewayConnectionStats body g =
  (tgt t, Some (UnmarshalerError ("parsing time " +:+ dquote +:+ s +:+ dquote))).
Proof.
  intros Hbody Htag Hs Hms1. eapply Unmarshal_aborted; [done|].
  simpl. rewrite dec_members_app. erewrite bind_returned by done.
  by apply dec_time_stamp_aborts.
Qed.

End Decoding.



Lemma Unmarshal_bad_time_stops_witness :
  Unmarshal dec_GatewayConnectionStats
    (dq "{'uplink_count':'42','connected_at':'yesterday','downlink_count':'7'}")
    zero_GatewayConnectionStats
  = (mkGatewayConnectionStats TimeZero "" TimeZero zero_LastStatus TimeZero "42"
       TimeZero "" zero_RoundTripTimes [],
     Some (UnmarshalerError ("parsing time " +:+ dquote +:+ "yesterday" +:+ dquote))).
Proof.
  apply (Unmarshal_bad_time_stops _ _ "connected_at" "yesterday"
           [("uplink_count", JString "42")] [("downlink_count", JString "7")]
           (Target (mkGatewayConnectionStats TimeZero "" TimeZero zero_LastStatus
                      TimeZero "42" TimeZero "" zero_RoundTripTimes []) None));
    [by vm_compute | by left | by vm_compute | by vm_compute].
Defined.

(** ** A document of the API *)




