(* ===== verification/Runtime.v ===== *)
(** * Runtime: the world a scrape runs in

    The exporter's methods act on four things outside themselves: the
    channel they are given, the standard logger, the HTTP transport, and
    the bodies of the responses they hold.  The [World] has the answers
    of the transport (what the [n]-th round trip returns for a request:
    the environment decides, the program cannot change it) and the
    [trace] of what the program did, in order.  Every operation appends
    its event to the trace; nothing is ever removed from it.

    A response held by the program is a [ResponseRef]: the response, the
    number of its round trip, and whether its body was handed out closed.
    Reading a body gives its bytes and its read error once; a closed body
    gives [errBodyClosed]. *)

From S2P Require Import Prelude GoMonad Float64 Prometheus Http.

(** ** Events and worlds *)

Inductive Event : Type :=
| EvRoundTrip (c : Client) (req : Request)
| EvReadAll (id : nat)
| EvClose (id : nat)
| EvLog (line : string)
| EvDesc (d : Desc)
| EvMetric (m : Metric).

#[export] Instance Event_eq_dec : EqDecision Event.
Proof. solve_decision. Defined.

Record World : Type := mkWorld {
  transport : nat -> Request -> DoResult;
  trace : list Event;
}.

Record ResponseRef : Type := mkRef {
  ref_id : nat;
  ref_resp : Response;
  ref_closed : bool;
}.

(** ** Projections of a trace *)

Definition metric_of (e : Event) : option Metric :=
  match e with EvMetric m => Some m | _ => None end.
Definition desc_of (e : Event) : option Desc :=
  match e with EvDesc d => Some d | _ => None end.
Definition log_of (e : Event) : option string :=
  match e with EvLog l => Some l | _ => None end.
Definition request_of (e : Event) : option (Client * Request) :=
  match e with EvRoundTrip c r => Some (c, r) | _ => None end.

(** The metrics sent, the descriptors sent, the lines logged and the
    requests made, each in order. *)
Definition metrics (tr : list Event) : list Metric := omap metric_of tr.
Definition descs (tr : list Event) : list Desc := omap desc_of tr.
Definition logs (tr : list Event) : list string := omap log_of tr.
Definition requests (tr : list Event) : list (Client * Request) := omap request_of tr.

Definition round_trips (tr : list Event) : nat := length (requests tr).

Definition was_closed (tr : list Event) (id : nat) : bool :=
  bool_decide (EvClose id ∈ tr).
Definition was_read (tr : list Event) (id : nat) : bool :=
  bool_decide (EvReadAll id ∈ tr).

(** Was the body of round trip [n] handed out open and not closed
    since?  Such a body holds a connection. *)
Definition is_open (w : World) (n : nat) : bool :=
  match requests (trace w) !! n with
  | Some (_, req) =>
      match transport w n req with
      | DoOk _ => negb (was_closed (trace w) n)
      | _ => false
      end
  | None => false
  end.

Definition open_bodies (w : World) : list nat :=
  filter (fun n => is_open w n = true) (seq 0 (round_trips (trace w))).

(** ** Operations *)

(** The world after more events. *)
Definition extend (w : World) (evs : list Event) : World :=
  mkWorld (transport w) (trace w ++ evs).

Definition emit (e : Event) : Go World unit := modify (fun w => extend w [e]).

(** [ch <- m] and [ch <- d] *)
Definition send_metric (m : Metric) : Go World unit := emit (EvMetric m).
Definition send_desc (d : Desc) : Go World unit := emit (EvDesc d).

(** [strings.Join(parts, " ")] *)
Fixpoint join_space (parts : list string) : string :=
  match parts with
  | [] => ""
  | [p] => p
  | p :: parts' => p +:+ " " +:+ join_space parts'
  end.

(** [log.Println(parts...)]: the operands separated by spaces and a line
    feed; the time stamp of the logger is left out. *)
Definition log_Println (parts : list string) : Go World unit :=
  emit (EvLog (join_space parts +:+ nl)).

(** [client.Do(req)]: the transport answers; the response is nil exactly
    when the outcome is [DoErr]. *)
Definition client_Do (c : Client) (req : Request)
  : Go World (option ResponseRef * option error) :=
  w <- get ;;
  let n := round_trips (trace w) in
  emit (EvRoundTrip c req) ;;
  ret (match transport w n req with
       | DoOk r => (Some (mkRef n r false), None)
       | DoErr e => (None, Some e)
       | DoRedirectErr r e => (Some (mkRef n r true), Some e)
       end).

(** [ioutil.ReadAll(resp.Body)] *)
Definition ioutil_ReadAll (r : ResponseRef) : Go World (string * option error) :=
  w <- get ;;
  emit (EvReadAll (ref_id r)) ;;
  ret (if ref_closed r || was_closed (trace w) (ref_id r) then ("", Some errBodyClosed)
       else if was_read (trace w) (ref_id r) then ("", None)
       else (body_data (resp_body (ref_resp r)), body_err (resp_body (ref_resp r)))).

(** [resp.Body.Close()] *)
Definition Body_Close (r : ResponseRef) : Go World unit := emit (EvClose (ref_id r)).

(** ** Reasoning about the operations *)

Section Rules.

Lemma extend_extend w evs1 evs2 :
  extend (extend w evs1) evs2 = extend w (evs1 ++ evs2).
Proof. unfold extend. simpl. by rewrite app_assoc. Qed.

Lemma extend_nil w : extend w [] = w.
Proof. destruct w. unfold extend. simpl. by rewrite app_nil_r. Qed.

Lemma wp_emit e Q R w : wp (emit e) Q R w <-> Q tt (extend w [e]).
Proof. reflexivity. Qed.

Lemma emit_run e w : emit e w = (Returned tt, extend w [e]).
Proof. reflexivity. Qed.

Lemma client_Do_run c req w :
  client_Do c req w =
  (Returned (match transport w (round_trips (trace w)) req with
             | DoOk r => (Some (mkRef (round_trips (trace w)) r false), None)
             | DoErr e => (None, Some e)
             | DoRedirectErr r e => (Some (mkRef (round_trips (trace w)) r true), Some e)
             end),
   extend w [EvRoundTrip c req]).
Proof. reflexivity. Qed.

Lemma ioutil_ReadAll_run r w :
  ioutil_ReadAll r w =
  (Returned (if ref_closed r || was_closed (trace w) (ref_id r)
             then ("", Some errBodyClosed)
             else if was_read (trace w) (ref_id r) then ("", None)
             else (body_data (resp_body (ref_resp r)),
                   body_err (resp_body (ref_resp r)))),
   extend w [EvReadAll (ref_id r)]).
Proof. reflexivity. Qed.

(** The operations as steps of a sequence. *)
Lemma bind_send_metric {B} m (f : unit -> Go World B) w :
  bind (send_metric m) f w = f tt (extend w [EvMetric m]).
Proof. reflexivity. Qed.

Lemma bind_send_desc {B} d (f : unit -> Go World B) w :
  bind (send_desc d) f w = f tt (extend w [EvDesc d]).
Proof. reflexivity. Qed.

Lemma bind_log_Println {B} parts (f : unit -> Go World B) w :
  bind (log_Println parts) f w = f tt (extend w [EvLog (join_space parts +:+ nl)]).
Proof. reflexivity. Qed.

Lemma bind_client_Do {B} c req
  (f : option ResponseRef * option error -> Go World B) w :
  bind (client_Do c req) f w =
  f (match transport w (round_trips (trace w)) req with
     | DoOk r => (Some (mkRef (round_trips (trace w)) r false), None)
     | DoErr e => (None, Some e)
     | DoRedirectErr r e => (Some (mkRef (round_trips (trace w)) r true), Some e)
     end) (extend w [EvRoundTrip c req]).
Proof. reflexivity. Qed.

Lemma bind_ioutil_ReadAll {B} r (f : string * option error -> Go World B) w :
  bind (ioutil_ReadAll r) f w =
  f (if ref_closed r || was_closed (trace w) (ref_id r)
     then ("", Some errBodyClosed)
     else if was_read (trace w) (ref_id r) then ("", None)
     else (body_data (resp_body (ref_resp r)), body_err (resp_body (ref_resp r))))
    (extend w [EvReadAll (ref_id r)]).
Proof. reflexivity. Qed.

Lemma Body_Close_run r w : Body_Close r w = (Returned tt, extend w [EvClose (ref_id r)]).
Proof. reflexivity. Qed.

Lemma log_Println_run parts w :
  log_Println parts w = (Returned tt, extend w [EvLog (join_space parts +:+ nl)]).
Proof. reflexivity. Qed.

Lemma send_metric_run m w : send_metric m w = (Returned tt, extend w [EvMetric m]).
Proof. reflexivity. Qed.

(** Every operation only appends to the trace. *)
Lemma emit_appends e : appends trace (emit e).
Proof. intros w. apply extends_snoc. Qed.

Lemma send_metric_appends m : appends trace (send_metric m).
Proof. apply emit_appends. Qed.

Lemma send_desc_appends d : appends trace (send_desc d).
Proof. apply emit_appends. Qed.

Lemma log_Println_appends parts : appends trace (log_Println parts).
Proof. apply emit_appends. Qed.

Lemma Body_Close_appends r : appends trace (Body_Close r).
Proof. apply emit_appends. Qed.

Lemma client_Do_appends c req : appends trace (client_Do c req).
Proof. intros w. apply extends_snoc. Qed.

Lemma ioutil_ReadAll_appends r : appends trace (ioutil_ReadAll r).
Proof. intros w. apply extends_snoc. Qed.

Lemma MustNewConstMetric_appends d vt v lvs :
  appends trace (@MustNewConstMetric World d vt v lvs).
Proof.
  unfold MustNewConstMetric.
  destruct (NewConstMetric d vt v lvs); [apply appends_ret | apply appends_panic].
Qed.

End Rules.

#[export] Hint Resolve emit_appends send_metric_appends send_desc_appends
  log_Println_appends Body_Close_appends client_Do_appends
  ioutil_ReadAll_appends MustNewConstMetric_appends : go.

(** ** Projections of an extended trace *)

Section Projections.
Implicit Types tr : list Event.

Lemma metrics_app tr1 tr2 : metrics (tr1 ++ tr2) = metrics tr1 ++ metrics tr2.
Proof. apply omap_app. Qed.

Lemma logs_app tr1 tr2 : logs (tr1 ++ tr2) = logs tr1 ++ logs tr2.
Proof. apply omap_app. Qed.

Lemma descs_app tr1 tr2 : descs (tr1 ++ tr2) = descs tr1 ++ descs tr2.
Proof. apply omap_app. Qed.

Lemma requests_app tr1 tr2 : requests (tr1 ++ tr2) = requests tr1 ++ requests tr2.
Proof. apply omap_app. Qed.

Lemma was_closed_app tr1 tr2 id :
  was_closed (tr1 ++ tr2) id = was_closed tr1 id || was_closed tr2 id.
Proof.
  unfold was_closed. apply eq_true_iff_eq.
  rewrite orb_true_iff, !bool_decide_eq_true. apply elem_of_app.
Qed.

End Projections.

#[export] Hint Rewrite metrics_app logs_app descs_app requests_app
  was_closed_app : go_rw.

(** ** What a run adds to the trace *)

(** The events of one run of [m] from [w], and what it sent, logged and
    requested. *)
Definition new_events {A} (m : Go World A) (w : World) : list Event :=
  drop (length (trace w)) (trace (final m w)).

Definition sent {A} (m : Go World A) (w : World) : list Metric :=
  metrics (new_events m w).

Definition described {A} (m : Go World A) (w : World) : list Desc :=
  descs (new_events m w).

Definition logged {A} (m : Go World A) (w : World) : list string :=
  logs (new_events m w).

Definition requested {A} (m : Go World A) (w : World) : list (Client * Request) :=
  requests (new_events m w).

Section NewEvents.
Context {A : Type}.
Implicit Types (m : Go World A) (w : World).

Lemma new_events_run m w r evs : m w = (r, extend w evs) -> new_events m w = evs.
Proof. unfold new_events, final. intros ->. simpl. by rewrite drop_app_length. Qed.

Lemma new_events_unchanged m w r : m w = (r, w) -> new_events m w = [].
Proof. unfold new_events, final. intros ->. simpl. by rewrite drop_all. Qed.

Lemma final_run m w r w' : m w = (r, w') -> final m w = w'.
Proof. unfold final. by intros ->. Qed.

Lemma outcome_run m w r w' : m w = (r, w') -> outcome m w = r.
Proof. unfold outcome. by intros ->. Qed.

(** A run that appends adds exactly its new events. *)
Lemma appends_new_events m w :
  appends trace m -> trace (final m w) = trace w ++ new_events m w.
Proof.
  intros Hm. destruct (Hm w) as [d Hd]. unfold new_events.
  by rewrite Hd, drop_app_length.
Qed.

End NewEvents.

(** ** Well-formed worlds *)

(** Only the bodies of round trips that happened have been read or
    closed: the next response is fresh. *)
Definition wf_world (w : World) : Prop :=
  forall id, round_trips (trace w) <= id ->
             (EvClose id ∉ trace w) /\ (EvReadAll id ∉ trace w).

Section WellFormed.

Lemma wf_world_empty t : wf_world (mkWorld t []).
Proof. intros id _. split; apply not_elem_of_nil. Qed.

Lemma round_trips_app tr1 tr2 :
  round_trips (tr1 ++ tr2) = round_trips tr1 + round_trips tr2.
Proof. unfold round_trips. by rewrite requests_app, length_app. Qed.

(** The body of the round trip just made is neither closed nor read. *)
Lemma fresh_not_closed w c req :
  wf_world w ->
  was_closed (trace w ++ [EvRoundTrip c req]) (round_trips (trace w)) = false.
Proof.
  intros Hwf. destruct (Hwf (round_trips (trace w))) as [Hc _]; [done|].
  unfold was_closed. apply bool_decide_eq_false.
  rewrite elem_of_app, list_elem_of_singleton. by intros [?|?].
Qed.

Lemma fresh_not_read w c req :
  wf_world w ->
  was_read (trace w ++ [EvRoundTrip c req]) (round_trips (trace w)) = false.
Proof.
  intros Hwf. destruct (Hwf (round_trips (trace w))) as [_ Hr]; [done|].
  unfold was_read. apply bool_decide_eq_false.
  rewrite elem_of_app, list_elem_of_singleton. by intros [?|?].
Qed.

(** Events on bodies that exist keep a world well formed. *)
Definition on_existing (n : nat) (e : Event) : Prop :=
  match e with
  | EvClose id | EvReadAll id => id < n
  | _ => True
  end.

Lemma wf_world_extend w evs :
  wf_world w ->
  Forall (on_existing (round_trips (trace w ++ evs))) evs ->
  wf_world (extend w evs).
Proof.
  intros Hwf Hevs id Hid. simpl in *.
  rewrite round_trips_app in Hid.
  destruct (Hwf id) as [Hc Hr]; [lia|].
  rewrite !elem_of_app. rewrite Forall_forall in Hevs.
  split; intros [?|Hin]; try done;
    apply Hevs in Hin; simpl in Hin;
    rewrite round_trips_app in Hin; lia.
Qed.

End WellFormed.

(** ** Open bodies *)

Section Bodies.
Implicit Types (w : World) (evs : list Event).

(** Later events that do not close body [k] leave it as it was. *)
Lemma is_open_extend w evs k :
  k < round_trips (trace w) -> EvClose k ∉ evs ->
  is_open (extend w evs) k = is_open w k.
Proof.
  intros Hk Hevs. unfold is_open, round_trips in *. simpl.
  rewrite requests_app, lookup_app_l by done.
  destruct (requests (trace w) !! k) as [[cl req]|]; [|done].
  destruct (transport w k req); try done.
  f_equal. unfold was_closed. apply bool_decide_ext. rewrite elem_of_app. tauto.
Qed.

(** A round trip whose body, if any was handed out open, is closed by
    the events after it leaves no body open. *)
Lemma is_open_round_trip w cl req evs :
  (match transport w (round_trips (trace w)) req with
   | DoOk _ => EvClose (round_trips (trace w)) ∈ evs
   | _ => True
   end) ->
  is_open (extend w (EvRoundTrip cl req :: evs)) (round_trips (trace w)) = false.
Proof.
  intros Hclosed. unfold is_open, round_trips in *. simpl.
  rewrite requests_app. simpl. rewrite list_lookup_middle by done.
  destruct (transport w _ req); try done.
  apply negb_false_iff, bool_decide_eq_true. rewrite elem_of_app. right. by right.
Qed.

Lemma open_bodies_round_trip w cl req evs :
  requests evs = [] ->
  (forall k, EvClose k ∈ evs -> k = round_trips (trace w)) ->
  (match transport w (round_trips (trace w)) req with
   | DoOk _ => EvClose (round_trips (trace w)) ∈ evs
   | _ => True
   end) ->
  open_bodies (extend w (EvRoundTrip cl req :: evs)) = open_bodies w.
Proof.
  intros Hreq Hclose Hclosed. unfold open_bodies.
  replace (round_trips (trace (extend w (EvRoundTrip cl req :: evs))))
    with (S (round_trips (trace w)))
    by (simpl; rewrite round_trips_app; unfold round_trips; simpl; rewrite Hreq;
        simpl; lia).
  rewrite seq_S, filter_app. simpl. rewrite filter_cons, filter_nil.
  rewrite is_open_round_trip by done. rewrite decide_False by done.
  rewrite app_nil_r. apply filter_agree. intros k [_ Hk]%elem_of_seq.
  rewrite is_open_extend; [done|done|].
  intros Hin. apply elem_of_cons in Hin as [?|Hin]; [done|].
  apply Hclose in Hin. simpl in *. lia.
Qed.

End Bodies.

#[export] Hint Resolve wf_world_empty : go.

(** ** Events that touch neither the network nor a body *)

Definition silent (e : Event) : Prop :=
  match e with
  | EvLog _ | EvDesc _ | EvMetric _ => True
  | _ => False
  end.

Section Silent.
Implicit Types (w : World) (evs : list Event).

Lemma silent_requests evs : Forall silent evs -> requests evs = [].
Proof.
  induction 1 as [|e evs He _ IH]; [done|].
  change (requests (e :: evs))
    with (match request_of e with Some r => r :: requests evs | None => requests evs end).
  rewrite IH. by destruct e.
Qed.

Lemma silent_round_trips w evs :
  Forall silent evs -> round_trips (trace (extend w evs)) = round_trips (trace w).
Proof.
  intros Hs. simpl. rewrite round_trips_app. unfold round_trips at 2.
  rewrite silent_requests by done. simpl. lia.
Qed.

Lemma silent_wf w evs : wf_world w -> Forall silent evs -> wf_world (extend w evs).
Proof.
  intros Hwf Hs. apply wf_world_extend; [done|].
  eapply Forall_impl; [done|]. by intros [].
Qed.

Lemma silent_descs (ds : list Desc) : Forall silent (EvDesc <$> ds).
Proof. apply Forall_fmap, Forall_forall. by intros d _. Qed.

Lemma silent_metrics (ms : list Metric) : Forall silent (EvMetric <$> ms).
Proof. apply Forall_fmap, Forall_forall. by intros m _. Qed.

End Silent.
