(* ===== verification/Collector.v ===== *)
(** * Collector: [ttnCollector] and its methods

    [ttn_exporter.go] lines 16-186, statement by statement: the constant
    [namespace], the struct [ttnCollector], its constructor
    [newTtnCollector], and the methods [Describe] and [Collect].  The
    methods are computations over the [World]; the library calls they
    make are those of [Prometheus], [Http], [Runtime], [Json] and
    [Strconv].

    In [Collect] the variable [err] is assigned three times (by
    [http.NewRequest], [client.Do] and [ioutil.ReadAll]) and the result
    of [json.Unmarshal] is not assigned to it: the test that selects the
    [up = 0] branch reads the error of [ioutil.ReadAll]. *)

From S2P Require Import Prelude GoMonad Float64 Strconv Json Prometheus.
From S2P Require Import Stats Http Runtime StrconvRef JsonRef.

#[local] Open Scope Z_scope.

(** ** Data *)

Definition namespace : string := "ttn".

Record ttnCollector : Type := mkTtnCollector {
  up : Desc;
  uplinkCount : Desc;
  downlinkCount : Desc;
  metricsAckr : Desc;
  metricsLpps : Desc;
  metricsRxfw : Desc;
  metricsRxin : Desc;
  metricsRxok : Desc;
  metricsTxin : Desc;
  metricsTxok : Desc;
  apiToken : string;
  gateway : string;
}.

Definition newTtnCollector (apiToken gateway : string) : ttnCollector := {|
  up := NewDesc (BuildFQName namespace "" "up")
          "Was the last API query successful." [] [];
  uplinkCount := NewDesc (BuildFQName namespace "" "uplink_count")
          "How many uplinks have been done." [] [];
  downlinkCount := NewDesc (BuildFQName namespace "" "downlink_count")
          "How many downlinks have been done." [] [];
  metricsAckr := NewDesc (BuildFQName namespace "" "ackr")
          "How many ackr have been done." [] [];
  metricsLpps := NewDesc (BuildFQName namespace "" "llps")
          "How many llps have been done." [] [];
  metricsRxfw := NewDesc (BuildFQName namespace "" "rxfw")
          "How many rxfw have been done." [] [];
  metricsRxin := NewDesc (BuildFQName namespace "" "rxin")
          "How many rxin have been done." [] [];
  metricsRxok := NewDesc (BuildFQName namespace "" "rxok")
          "How many rxok have been done." [] [];
  metricsTxin := NewDesc (BuildFQName namespace "" "txin")
          "How many txin have been done." [] [];
  metricsTxok := NewDesc (BuildFQName namespace "" "txok")
          "How many txok have been done." [] [];
  apiToken := apiToken;
  gateway := gateway;
|}.

(** ** Describe *)

Definition Describe (collector : ttnCollector) : Go World unit :=
  send_desc (up collector) ;;
  send_desc (uplinkCount collector) ;;
  send_desc (downlinkCount collector).

(** ** Collect *)

(** [fmt.Sprintf] of the endpoint with the gateway as [%s]. *)
Definition stats_url (gateway : string) : string :=
  "https://eu1.cloud.thethings.network/api/v3/gs/gateways/" +:+ gateway
  +:+ "/connection/stats".

(** [ch <- prometheus.MustNewConstMetric(desc, prometheus.GaugeValue, v)] *)
Definition send_gauge (desc : Desc) (v : float64) : Go World unit :=
  m <- MustNewConstMetric desc GaugeValue v [] ;;
  send_metric m.

Section Collect.
Context `{Strconv} `{JsonSyntax} `{TimeFormat} `{NetUrl}.

(** Lines 128-177: the ten sends of a scrape whose read returned no
    error. *)
Definition send_stats (collector : ttnCollector)
  (gatewayStats : GatewayConnectionStats) : Go World unit :=
  send_gauge (up collector) f64_one ;;
  let uplinkCount_ := fst (ParseFloat (UplinkCount gatewayStats) 8) in
  send_gauge (uplinkCount collector) uplinkCount_ ;;
  let downlinkCount_ := fst (ParseFloat (DownlinkCount gatewayStats) 8) in
  send_gauge (downlinkCount collector) downlinkCount_ ;;
  send_gauge (metricsAckr collector)
    (float64_of_int (Ackr (Metrics (LastStatus gatewayStats)))) ;;
  send_gauge (metricsLpps collector)
    (float64_of_int (Lpps (Metrics (LastStatus gatewayStats)))) ;;
  send_gauge (metricsRxfw collector)
    (float64_of_int (Rxfw (Metrics (LastStatus gatewayStats)))) ;;
  send_gauge (metricsRxin collector)
    (float64_of_int (Rxin (Metrics (LastStatus gatewayStats)))) ;;
  send_gauge (metricsRxok collector)
    (float64_of_int (Rxok (Metrics (LastStatus gatewayStats)))) ;;
  send_gauge (metricsTxin collector)
    (float64_of_int (Txin (Metrics (LastStatus gatewayStats)))) ;;
  send_gauge (metricsTxok collector)
    (float64_of_int (Txok (Metrics (LastStatus gatewayStats)))).

(** Lines 115-177: what runs once [defer resp.Body.Close()] is
    registered. *)
Definition read_and_send (collector : ttnCollector) (resp : ResponseRef)
  : Go World unit :=
  let* (body, err) := ioutil_ReadAll resp in
  when (bool_decide (is_Some err))
    (log_Println ["Error while reading the response bytes:"; default "" err]) ;;
  let gatewayStats :=
    fst (Unmarshal dec_GatewayConnectionStats body zero_GatewayConnectionStats) in
  match err with
  | Some e =>
      send_gauge (up collector) f64_zero ;;
      log_Println [e]
  | None => send_stats collector gatewayStats
  end.

Definition Collect (collector : ttnCollector) : Go World unit :=
  let url := stats_url (gateway collector) in
  let bearer := "Bearer " +:+ apiToken collector in
  let (req, err) := NewRequest "GET" url in
  req <- deref req ;;
  let req := Header_Add req "Authorization" bearer in
  let client := mkClient 0 in
  let* (resp, err) := client_Do client req in
  when (bool_decide (is_Some err))
    (log_Println ["Error on response." +:+ nl +:+ "[ERROR] -"; default "" err]) ;;
  resp <- deref resp ;;
  defer_ (Body_Close resp) (read_and_send collector resp).

End Collect.

(** ** The descriptors of a collector *)

(** The ten descriptors, in the order [Collect] uses them. *)
Definition all_descs (c : ttnCollector) : list Desc :=
  [up c; uplinkCount c; downlinkCount c; metricsAckr c; metricsLpps c;
   metricsRxfw c; metricsRxin c; metricsRxok c; metricsTxin c; metricsTxok c].

(** A descriptor [MustNewConstMetric] accepts with no label value. *)
Definition sound_desc (d : Desc) : Prop := desc_err d = None /\ variableLabels d = [].

Definition sound (c : ttnCollector) : Prop := Forall sound_desc (all_descs c).

#[export] Instance sound_desc_dec d : Decision (sound_desc d).
Proof. unfold sound_desc. apply _. Defined.

#[export] Instance sound_dec c : Decision (sound c).
Proof. unfold sound. apply _. Defined.

(** The metric [MustNewConstMetric(desc, GaugeValue, v)] builds. *)
Definition gauge (d : Desc) (v : float64) : Metric := mkMetric d GaugeValue v [].

(** The request of a scrape and the client that sends it. *)
Definition scrape_request (c : ttnCollector) : Request :=
  mkRequest "GET" (stats_url (gateway c)) [("Authorization", "Bearer " +:+ apiToken c)].

Definition scrape_client : Client := mkClient 0.

(** The two lines [Collect] logs. *)
Definition response_error_line (e : error) : string :=
  "Error on response." +:+ nl +:+ "[ERROR] - " +:+ e +:+ nl.

Definition read_error_line (e : error) : string :=
  "Error while reading the response bytes: " +:+ e +:+ nl.

Section Specification.
Context `{Strconv} `{JsonSyntax} `{TimeFormat} `{NetUrl}.

(** What a scrape sends for a decoded document: [up = 1] and the nine
    values, as a list. *)
Definition stats_metrics (c : ttnCollector) (g : GatewayConnectionStats)
  : list Metric :=
  let m := Metrics (LastStatus g) in
  [gauge (up c) f64_one;
   gauge (uplinkCount c) (fst (ParseFloat (UplinkCount g) 8));
   gauge (downlinkCount c) (fst (ParseFloat (DownlinkCount g) 8));
   gauge (metricsAckr c) (float64_of_int (Ackr m));
   gauge (metricsLpps c) (float64_of_int (Lpps m));
   gauge (metricsRxfw c) (float64_of_int (Rxfw m));
   gauge (metricsRxin c) (float64_of_int (Rxin m));
   gauge (metricsRxok c) (float64_of_int (Rxok m));
   gauge (metricsTxin c) (float64_of_int (Txin m));
   gauge (metricsTxok c) (float64_of_int (Txok m))].

(** The document [Collect] decodes from a body. *)
Definition decoded (body : string) : GatewayConnectionStats :=
  fst (Unmarshal dec_GatewayConnectionStats body zero_GatewayConnectionStats).

(** The events of a scrape after its round trip [n], by the answer. *)
Definition after_round_trip (c : ttnCollector) (n : nat) (answer : DoResult)
  : list Event :=
  match answer with
  | DoOk r =>
      EvReadAll n ::
      match body_err (resp_body r) with
      | None => map EvMetric (stats_metrics c (decoded (body_data (resp_body r))))
      | Some e =>
          [EvLog (read_error_line e); EvMetric (gauge (up c) f64_zero);
           EvLog (e +:+ nl)]
      end ++ [EvClose n]
  | DoErr e => [EvLog (response_error_line e)]
  | DoRedirectErr r e =>
      [EvLog (response_error_line e); EvReadAll n;
       EvLog (read_error_line errBodyClosed);
       EvMetric (gauge (up c) f64_zero); EvLog (errBodyClosed +:+ nl);
       EvClose n]
  end.

(** The events of a scrape whose round trip is the [n]-th. *)
Definition scrape_events (c : ttnCollector) (n : nat) (answer : DoResult)
  : list Event :=
  EvRoundTrip scrape_client (scrape_request c) :: after_round_trip c n answer.

(** How a scrape ends, by the outcome of its round trip. *)
Definition scrape_result (answer : DoResult) : result unit :=
  match answer with
  | DoErr _ => Panicked nil_dereference
  | _ => Returned tt
  end.

End Specification.

(** ** Steps of [Collect] *)

Lemma sound_lookup (c : ttnCollector) d : sound c -> d ∈ all_descs c -> sound_desc d.
Proof. unfold sound. rewrite Forall_forall. auto. Qed.

(** The side condition of a send: the descriptor is one of a sound
    collector. *)
Ltac sound_side Hc := eapply sound_lookup; [exact Hc | repeat constructor].

Section Steps.
Context `{Strconv} `{JsonSyntax} `{TimeFormat} `{NetUrl}.
Implicit Types (c : ttnCollector) (w : World).

Lemma send_gauge_run d v w :
  sound_desc d -> send_gauge d v w = (Returned tt, extend w [EvMetric (gauge d v)]).
Proof. intros [He Hl]. unfold send_gauge. by rewrite MustNewConstMetric_ok. Qed.

Lemma bind_send_gauge {B} d v (f : unit -> Go World B) w :
  sound_desc d -> bind (send_gauge d v) f w = f tt (extend w [EvMetric (gauge d v)]).
Proof. intros Hd. by apply bind_returned, send_gauge_run. Qed.

(** A descriptor that carries an error makes the send panic, with
    nothing sent. *)
Lemma send_gauge_unsound d v w e :
  desc_err d = Some e -> send_gauge d v w = (Panicked e, w).
Proof. intros He. unfold send_gauge. by rewrite (MustNewConstMetric_err _ _ _ _ e). Qed.

Lemma send_stats_run c g w :
  sound c ->
  send_stats c g w = (Returned tt, extend w (map EvMetric (stats_metrics c g))).
Proof.
  intros Hc. unfold send_stats.
  rewrite !bind_send_gauge, send_gauge_run
    by sound_side Hc.
  by rewrite !extend_extend.
Qed.

(** The events after the read, by its error. *)
Definition after_read c (body : string) (err : option error) : list Event :=
  match err with
  | None => map EvMetric (stats_metrics c (decoded body))
  | Some e =>
      [EvLog (read_error_line e); EvMetric (gauge (up c) f64_zero); EvLog (e +:+ nl)]
  end.

Lemma read_and_send_run c r w body err :
  sound c ->
  fst (ioutil_ReadAll r w) = Returned (body, err) ->
  read_and_send c r w =
  (Returned tt, extend w (EvReadAll (ref_id r) :: after_read c body err)).
Proof.
  intros Hc Hread. unfold read_and_send.
  rewrite ioutil_ReadAll_run in Hread. rewrite bind_ioutil_ReadAll.
  simpl in Hread. injection Hread as ->. destruct err as [e|]; simpl after_read.
  - rewrite bool_decide_eq_true_2 by eauto. rewrite when_true, bind_log_Println.
    rewrite bind_send_gauge by sound_side Hc.
    by rewrite log_Println_run, !extend_extend.
  - rewrite bool_decide_eq_false_2 by (by intros []). rewrite bind_when_false.
    by rewrite send_stats_run, extend_extend.
Qed.

(** The body of a response just received is read for the first time. *)
Lemma fresh_read w (cl : Client) req r :
  wf_world w ->
  fst (ioutil_ReadAll (mkRef (round_trips (trace w)) r false)
         (extend w [EvRoundTrip cl req]))
  = Returned (body_data (resp_body r), body_err (resp_body r)).
Proof.
  intros Hwf. rewrite ioutil_ReadAll_run. simpl.
  by rewrite fresh_not_closed, fresh_not_read.
Qed.

(** [Collect] up to the answer of the transport. *)
Lemma Collect_request c w :
  url_parses (stats_url (gateway c)) = true ->
  Collect c w =
  (let* (resp, err) := client_Do scrape_client (scrape_request c) in
   when (bool_decide (is_Some err))
     (log_Println ["Error on response." +:+ nl +:+ "[ERROR] -"; default "" err]) ;;
   resp <- deref resp ;;
   defer_ (Body_Close resp) (read_and_send c resp))%go w.
Proof. intros Hurl. unfold Collect. by rewrite NewRequest_ok. Qed.

(** A URL that does not parse: [req] is nil and [req.Header] panics
    before anything is done. *)
Lemma Collect_no_request c w :
  url_parses (stats_url (gateway c)) = false ->
  Collect c w = (Panicked nil_dereference, w).
Proof. intros Hurl. unfold Collect. by rewrite NewRequest_bad_url. Qed.

(** One scrape, whatever the transport answers. *)
Lemma Collect_run c w :
  wf_world w -> sound c -> url_parses (stats_url (gateway c)) = true ->
  let n := round_trips (trace w) in
  let answer := transport w n (scrape_request c) in
  Collect c w = (scrape_result answer, extend w (scrape_events c n answer)).
Proof.
  intros Hwf Hc Hurl n answer. rewrite Collect_request, bind_client_Do by done.
  fold n answer. unfold scrape_events, after_round_trip, scrape_result.
  destruct answer as [r|e|r e]; simpl bool_decide; cbv iota beta.
  - rewrite bind_when_false. simpl deref. rewrite bind_ret_run.
    erewrite defer_returned;
      [|by apply read_and_send_run, fresh_read|apply Body_Close_run].
    rewrite !extend_extend. simpl ref_id. unfold after_read.
    destruct (body_err (resp_body r)); by rewrite <- ?app_assoc.
  - by rewrite when_true, bind_log_Println, extend_extend.
  - rewrite when_true, bind_log_Println. simpl deref. rewrite bind_ret_run.
    erewrite defer_returned;
      [|by apply read_and_send_run|apply Body_Close_run].
    by rewrite !extend_extend.
Qed.

End Steps.

(** ** The events of a scrape *)

Section Events.
Context `{Strconv} `{JsonSyntax} `{TimeFormat} `{NetUrl}.
Implicit Types (c : ttnCollector) (n : nat) (answer : DoResult).

(** The metrics among the events of a scrape. *)
Definition scrape_metrics c answer : list Metric :=
  match answer with
  | DoOk r =>
      match body_err (resp_body r) with
      | None => stats_metrics c (decoded (body_data (resp_body r)))
      | Some _ => [gauge (up c) f64_zero]
      end
  | DoErr _ => []
  | DoRedirectErr _ _ => [gauge (up c) f64_zero]
  end.

Lemma after_round_trip_metrics c n answer :
  metrics (after_round_trip c n answer) = scrape_metrics c answer.
Proof. destruct answer as [r| |]; try done. simpl. by destruct (body_err _). Qed.

Lemma after_round_trip_requests c n answer :
  requests (after_round_trip c n answer) = [].
Proof. destruct answer as [r| |]; try done. simpl. by destruct (body_err _). Qed.

(** A scrape touches no body but its own. *)
Lemma after_round_trip_existing c n answer :
  Forall (on_existing (S n)) (after_round_trip c n answer).
Proof.
  destruct answer as [r| |]; simpl; [destruct (body_err _)|..];
    repeat constructor.
Qed.

Lemma after_round_trip_closes c n answer k :
  EvClose k ∈ after_round_trip c n answer -> k = n.
Proof.
  intros Hin.
  assert (Forall (fun e => if e is EvClose k then k = n else True)
            (after_round_trip c n answer)) as Hall
    by (destruct answer as [r| |]; simpl; [destruct (body_err _)|..];
        repeat constructor).
  rewrite Forall_forall in Hall. apply (Hall _ Hin).
Qed.

(** It closes the body it was handed. *)
Lemma after_round_trip_closed c n answer :
  match answer with
  | DoOk _ => EvClose n ∈ after_round_trip c n answer
  | _ => True
  end.
Proof.
  destruct answer as [r| |]; [|done..]. simpl.
  right. apply elem_of_app. right. by left.
Qed.

Lemma scrape_events_round_trips c n answer tr :
  round_trips (tr ++ scrape_events c n answer) = S (round_trips tr).
Proof.
  rewrite round_trips_app. unfold round_trips, scrape_events. simpl.
  rewrite after_round_trip_requests. simpl. lia.
Qed.

Lemma scrape_events_wf c w answer :
  wf_world w -> wf_world (extend w (scrape_events c (round_trips (trace w)) answer)).
Proof.
  intros Hwf. apply wf_world_extend; [done|].
  rewrite scrape_events_round_trips. constructor; [done|].
  apply after_round_trip_existing.
Qed.

Lemma scrape_events_open c w answer :
  answer = transport w (round_trips (trace w)) (scrape_request c) ->
  open_bodies (extend w (scrape_events c (round_trips (trace w)) answer))
  = open_bodies w.
Proof.
  intros ->. apply open_bodies_round_trip.
  - apply after_round_trip_requests.
  - apply after_round_trip_closes.
  - apply after_round_trip_closed.
Qed.

End Events.

(** ** Concrete collectors and worlds *)

(** The collector [Register] builds for a token and a gateway, a document
    as the API sends it, and worlds whose transport gives one answer to
    every request. *)
Definition example_collector : ttnCollector := newTtnCollector "token" "my-gateway".

Definition example_body : string :=
  dq "{'uplink_count':'42','downlink_count':'7','last_status':{'metrics':{'ackr':99,'lpps':1,'rxfw':2,'rxin':3,'rxok':4,'txin':5,'txok':6}}}".

Definition answering (answer : DoResult) : World := mkWorld (fun _ _ => answer) [].

Definition example_response : Response := mkResponse 200 (mkBody example_body None).

Definition truncated_response : Response :=
  mkResponse 200 (mkBody "{" (Some "unexpected EOF")).

Lemma example_collector_sound : sound example_collector.
Proof. unfold sound. by repeat constructor. Qed.

Lemma answering_wf answer : wf_world (answering answer).
Proof. apply wf_world_empty. Qed.

(** ** The outcomes of a scrape *)

Section Outcomes.
Context `{Strconv} `{JsonSyntax} `{TimeFormat} `{NetUrl}.
Implicit Types (c : ttnCollector) (w : World).

(** C1: when the transport answers with a response whose body is read to
    its end, [Collect] returns after exactly these events, in order: the
    round trip (a GET of the gateway's statistics URL with the bearer
    token, by a client without timeout), the read of the body, the ten
    metrics ([up = 1], the two counts parsed as floats, the seven counters
    converted from int), and the close of the body. *)
Theorem Collect_success c w r :
  wf_world w -> sound c -> url_parses (stats_url (gateway c)) = true ->
  transport w (round_trips (trace w)) (scrape_request c) = DoOk r ->
  body_err (resp_body r) = None ->
  Collect c w =
  (Returned tt,
   extend w ([EvRoundTrip scrape_client (scrape_request c);
              EvReadAll (round_trips (trace w))]
             ++ map EvMetric (stats_metrics c (decoded (body_data (resp_body r))))
             ++ [EvClose (round_trips (trace w))])).
Proof.
  intros Hwf Hc Hurl Hans Herr. rewrite Collect_run by done. cbv zeta.
  rewrite Hans. unfold scrape_events, after_round_trip. by rewrite Herr.
Qed.

(** C6: when reading the body fails, [Collect] logs the error, sends the
    single metric [up = 0], logs the error again, closes the body and
    returns: no other metric is sent. *)
Theorem Collect_read_error c w r e :
  wf_world w -> sound c -> url_parses (stats_url (gateway c)) = true ->
  transport w (round_trips (trace w)) (scrape_request c) = DoOk r ->
  body_err (resp_body r) = Some e ->
  Collect c w =
  (Returned tt,
   extend w [EvRoundTrip scrape_client (scrape_request c);
             EvReadAll (round_trips (trace w));
             EvLog (read_error_line e);
             EvMetric (gauge (up c) f64_zero);
             EvLog (e +:+ nl);
             EvClose (round_trips (trace w))]).
Proof.
  intros Hwf Hc Hurl Hans Herr. rewrite Collect_run by done. cbv zeta.
  rewrite Hans. unfold scrape_events, after_round_trip. by rewrite Herr.
Qed.

(** C3: when the transport fails (no response, only an error), [Collect]
    logs the error and then panics with a nil dereference at
    [defer resp.Body.Close()]: it sends no metric, not even [up = 0]. *)
Theorem Collect_transport_error_panics c w e :
  wf_world w -> sound c -> url_parses (stats_url (gateway c)) = true ->
  transport w (round_trips (trace w)) (scrape_request c) = DoErr e ->
  Collect c w =
  (Panicked nil_dereference,
   extend w [EvRoundTrip scrape_client (scrape_request c);
             EvLog (response_error_line e)]).
Proof.
  intros Hwf Hc Hurl Hans. rewrite Collect_run by done. cbv zeta. by rewrite Hans.
Qed.

(** C25: when the redirect policy stops the request, the client returns
    the last response with its body closed and an error: [Collect] logs
    the error, fails to read the closed body, and reports [up = 0]. *)
Theorem Collect_redirect_error c w r e :
  wf_world w -> sound c -> url_parses (stats_url (gateway c)) = true ->
  transport w (round_trips (trace w)) (scrape_request c) = DoRedirectErr r e ->
  outcome (Collect c) w = Returned tt /\
  sent (Collect c) w = [gauge (up c) f64_zero] /\
  logged (Collect c) w =
    [response_error_line e; read_error_line errBodyClosed; errBodyClosed +:+ nl].
Proof.
  intros Hwf Hc Hurl Hans.
  pose proof (Collect_run c w Hwf Hc Hurl) as Hrun. cbv zeta in Hrun.
  rewrite Hans in Hrun. unfold sent, logged.
  by rewrite (outcome_run _ _ _ _ Hrun), (new_events_run _ _ _ _ Hrun).
Qed.

End Outcomes.

(** ** What holds of every scrape *)

Section Safety.
Context `{Strconv} `{JsonSyntax} `{TimeFormat} `{NetUrl}.
Implicit Types (c : ttnCollector) (w : World).

(** A scrape either stops before its request or runs as [Collect_run]
    says. *)
Lemma Collect_cases c w :
  wf_world w -> sound c ->
  Collect c w = (Panicked nil_dereference, w) /\
    url_parses (stats_url (gateway c)) = false \/
  Collect c w =
    (scrape_result (transport w (round_trips (trace w)) (scrape_request c)),
     extend w (scrape_events c (round_trips (trace w))
                 (transport w (round_trips (trace w)) (scrape_request c)))) /\
    url_parses (stats_url (gateway c)) = true.
Proof.
  intros Hwf Hc. destruct (url_parses (stats_url (gateway c))) eqn:Hurl.
  - right. split; [|done]. by apply Collect_run.
  - left. split; [|done]. by apply Collect_no_request.
Qed.

(** C8: the metrics of one scrape have one of three shapes: none, when
    [Collect] panics; the single [up = 0]; or the ten metrics of some
    document, [up = 1] first.  A scrape that returns always reports
    [up]. *)
Theorem Collect_sent_shape c w :
  wf_world w -> sound c ->
  match outcome (Collect c) w with
  | Panicked _ => sent (Collect c) w = []
  | Returned _ =>
      sent (Collect c) w = [gauge (up c) f64_zero] \/
      exists g, sent (Collect c) w = stats_metrics c g
  end.
Proof.
  intros Hwf Hc. unfold sent.
  destruct (Collect_cases c w Hwf Hc) as [[Hrun _]|[Hrun _]];
    rewrite (outcome_run _ _ _ _ Hrun).
  { by rewrite (new_events_unchanged _ _ _ Hrun). }
  rewrite (new_events_run _ _ _ _ Hrun). unfold scrape_events.
  change (metrics (?e :: ?l)) with (metrics l). rewrite after_round_trip_metrics.
  destruct (transport w _ _) as [r| |]; simpl; [|done|by left].
  destruct (body_err _); eauto.
Qed.

(** C7: a scrape leaves no response body open: the bodies open after
    [Collect], returned or panicked, are those that were open before. *)
Theorem Collect_closes_body c w :
  wf_world w -> sound c -> open_bodies (final (Collect c) w) = open_bodies w.
Proof.
  intros Hwf Hc.
  destruct (Collect_cases c w Hwf Hc) as [[Hrun _]|[Hrun _]];
    rewrite (final_run _ _ _ _ Hrun); [done|].
  by apply scrape_events_open.
Qed.

(** C12: a scrape makes exactly one request, the GET of the gateway's
    statistics with the bearer token, through a client whose timeout is
    zero (none); it makes no request at all when the URL does not
    parse. *)
Theorem Collect_one_round_trip c w :
  wf_world w -> sound c ->
  requested (Collect c) w =
  if url_parses (stats_url (gateway c))
  then [(mkClient 0,
         mkRequest "GET" (stats_url (gateway c))
           [("Authorization", "Bearer " +:+ apiToken c)])]
  else [].
Proof.
  intros Hwf Hc. unfold requested.
  destruct (Collect_cases c w Hwf Hc) as [[Hrun ->]|[Hrun ->]].
  { by rewrite (new_events_unchanged _ _ _ Hrun). }
  rewrite (new_events_run _ _ _ _ Hrun). unfold scrape_events.
  change (requests (EvRoundTrip ?cl ?r :: ?l)) with ((cl, r) :: requests l).
  by rewrite after_round_trip_requests.
Qed.


(** C32: scrapes are independent: the events of the scrape after a first
    one, whether that returned or panicked, are those of its own round
    trip and depend on nothing the first one did. *)
Theorem Collect_next_scrape c w :
  wf_world w -> sound c -> url_parses (stats_url (gateway c)) = true ->
  new_events (Collect c) (final (Collect c) w) =
  scrape_events c (S (round_trips (trace w)))
    (transport w (S (round_trips (trace w))) (scrape_request c)).
Proof.
  intros Hwf Hc Hurl.
  rewrite (final_run _ _ _ _ (Collect_run c w Hwf Hc Hurl)).
  erewrite new_events_run; [|by apply Collect_run, Hurl; [apply scrape_events_wf|]].
  simpl. by rewrite scrape_events_round_trips.
Qed.

(** C23: the status code of the response is never looked at: two
    responses with the same body and different codes give the same
    scrape. *)
Theorem Collect_status_ignored c w code1 code2 body :
  wf_world w -> sound c -> url_parses (stats_url (gateway c)) = true ->
  transport w (round_trips (trace w)) (scrape_request c) = DoOk (mkResponse code1 body) ->
  let w' := mkWorld (fun _ _ => DoOk (mkResponse code2 body)) (trace w) in
  outcome (Collect c) w' = outcome (Collect c) w /\
  new_events (Collect c) w' = new_events (Collect c) w.
Proof.
  intros Hwf Hc Hurl Hans w'.
  pose proof (Collect_run c w Hwf Hc Hurl) as Hrun.
  pose proof (Collect_run c w' Hwf Hc Hurl) as Hrun'.
  cbv zeta in Hrun, Hrun'. rewrite Hans in Hrun.
  rewrite (outcome_run _ _ _ _ Hrun), (outcome_run _ _ _ _ Hrun').
  by rewrite (new_events_run _ _ _ _ Hrun), (new_events_run _ _ _ _ Hrun').
Qed.


End Safety.

Lemma Collect_success_witness :
  Collect example_collector (answering (DoOk example_response)) =
  (Returned tt,
   extend (answering (DoOk example_response))
     ([EvRoundTrip scrape_client (scrape_request example_collector); EvReadAll 0]
      ++ map EvMetric (stats_metrics example_collector (decoded example_body))
      ++ [EvClose 0])).
Proof.
  apply (Collect_success example_collector (answering (DoOk example_response))
           example_response);
    [apply answering_wf | apply example_collector_sound | reflexivity ..].
Defined.

Lemma Collect_read_error_witness :
  Collect example_collector (answering (DoOk truncated_response)) =
  (Returned tt,
   extend (answering (DoOk truncated_response))
     [EvRoundTrip scrape_client (scrape_request example_collector);
      EvReadAll 0;
      EvLog (read_error_line "unexpected EOF");
      EvMetric (gauge (up example_collector) f64_zero);
      EvLog ("unexpected EOF" +:+ nl);
      EvClose 0]).
Proof.
  apply (Collect_read_error example_collector (answering (DoOk truncated_response))
           truncated_response "unexpected EOF");
    [apply answering_wf | apply example_collector_sound | reflexivity ..].
Defined.

Lemma Collect_transport_error_panics_witness :
  Collect example_collector (answering (DoErr "connection refused")) =
  (Panicked nil_dereference,
   extend (answering (DoErr "connection refused"))
     [EvRoundTrip scrape_client (scrape_request example_collector);
      EvLog (response_error_line "connection refused")]).
Proof.
  apply (Collect_transport_error_panics example_collector
           (answering (DoErr "connection refused")) "connection refused");
    [apply answering_wf | apply example_collector_sound | reflexivity ..].
Defined.

Lemma Collect_redirect_error_witness :
  sent (Collect example_collector)
    (answering (DoRedirectErr example_response "stopped after 10 redirects"))
  = [gauge (up example_collector) f64_zero].
Proof.
  eapply (Collect_redirect_error example_collector
           (answering (DoRedirectErr example_response "stopped after 10 redirects"))
           example_response "stopped after 10 redirects");
    [apply answering_wf | apply example_collector_sound | reflexivity ..].
Defined.

Lemma Collect_sent_shape_witness :
  match outcome (Collect example_collector) (answering (DoOk example_response)) with
  | Panicked _ =>
      sent (Collect example_collector) (answering (DoOk example_response)) = []
  | Returned _ =>
      sent (Collect example_collector) (answering (DoOk example_response))
        = [gauge (up example_collector) f64_zero] \/
      exists g, sent (Collect example_collector) (answering (DoOk example_response))
                = stats_metrics example_collector g
  end.
Proof.
  apply (Collect_sent_shape example_collector (answering (DoOk example_response)));
    [apply answering_wf | apply example_collector_sound].
Defined.

Lemma Collect_closes_body_witness :
  open_bodies (final (Collect example_collector) (answering (DoOk example_response)))
  = open_bodies (answering (DoOk example_response)).
Proof.
  apply (Collect_closes_body example_collector (answering (DoOk example_response)));
    [apply answering_wf | apply example_collector_sound].
Defined.

Lemma Collect_one_round_trip_witness :
  requested (Collect example_collector) (answering (DoOk example_response)) =
  [(mkClient 0,
    mkRequest "GET"
      "https://eu1.cloud.thethings.network/api/v3/gs/gateways/my-gateway/connection/stats"
      [("Authorization", "Bearer token")])].
Proof.
  rewrite (Collect_one_round_trip example_collector
             (answering (DoOk example_response)) (answering_wf _)
             example_collector_sound).
  reflexivity.
Defined.


Lemma Collect_next_scrape_witness :
  new_events (Collect example_collector)
    (final (Collect example_collector) (answering (DoErr "timeout")))
  = scrape_events example_collector 1 (DoErr "timeout").
Proof.
  apply (Collect_next_scrape example_collector (answering (DoErr "timeout")));
    [apply answering_wf | apply example_collector_sound | reflexivity].
Defined.

Lemma Collect_status_ignored_witness :
  let w := answering (DoOk (mkResponse 200 (mkBody example_body None))) in
  let w' := mkWorld (fun _ _ => DoOk (mkResponse 503 (mkBody example_body None))) [] in
  outcome (Collect example_collector) w' = outcome (Collect example_collector) w /\
  new_events (Collect example_collector) w' = new_events (Collect example_collector) w.
Proof.
  apply (Collect_status_ignored example_collector
           (answering (DoOk (mkResponse 200 (mkBody example_body None)))) 200 503
           (mkBody example_body None));
    [apply answering_wf | apply example_collector_sound | reflexivity ..].
Defined.

(** ** The gateway in the URL *)

Section Url.
Context `{Strconv} `{JsonSyntax} `{TimeFormat} `{NetUrl}.

Lemma stats_url_has_ctl g : has_ctl g = true -> has_ctl (stats_url g) = true.
Proof.
  unfold has_ctl, stats_url. rewrite !chars_app, !existsb_app. intros ->.
  by rewrite orb_true_r.
Qed.

(** C38: the gateway is put in the URL as it is; a gateway made of
    letters, digits, [-], [.], [_], [~] and [/] gives a URL that
    [http.NewRequest] accepts, so the scrape reaches its round trip. *)
Theorem stats_url_plain g :
  is_plain_path g = true -> url_parses (stats_url g) = true.
Proof.
  intros Hg.
  apply (url_parses_plain "eu1.cloud.thethings.network"
           ("api/v3/gs/gateways/" +:+ g +:+ "/connection/stats")); [done|].
  unfold is_plain_path in *. rewrite !chars_app, !forallb_app, Hg. done.
Qed.

(** C24: a gateway with a control character makes [http.NewRequest]
    return nil; [Collect] ignores the error and panics with a nil
    dereference at [req.Header], before any request, log line or
    metric. *)
Theorem Collect_bad_gateway_panics (c : ttnCollector) (w : World) :
  has_ctl (gateway c) = true -> Collect c w = (Panicked nil_dereference, w).
Proof. intros Hg. by apply Collect_no_request, url_parses_ctl, stats_url_has_ctl. Qed.

End Url.

Lemma stats_url_plain_witness : url_parses (stats_url "my-gateway") = true.
Proof. apply (stats_url_plain "my-gateway"). reflexivity. Defined.

Lemma Collect_bad_gateway_panics_witness :
  Collect (newTtnCollector "token" ("gw" +:+ nl)) (answering (DoOk example_response))
  = (Panicked nil_dereference, answering (DoOk example_response)).
Proof.
  apply (Collect_bad_gateway_panics (newTtnCollector "token" ("gw" +:+ nl))).
  reflexivity.
Defined.

(** ** Errors the scrape does not see *)

Section Unseen.
Context `{Strconv} `{JsonSyntax} `{TimeFormat} `{NetUrl}.
Implicit Types (c : ttnCollector) (w : World) (g : GatewayConnectionStats).

Lemma decoded_invalid body : json_parse body = None -> decoded body = zero_GatewayConnectionStats.
Proof. unfold decoded, Unmarshal. by intros ->. Qed.

Lemma stats_metrics_zero c :
  stats_metrics c zero_GatewayConnectionStats =
  gauge (up c) f64_one :: map (fun d => gauge d f64_zero) (tail (all_descs c)).
Proof. unfold stats_metrics. simpl. by rewrite ParseFloat_empty. Qed.

(** The metrics of a scrape whose body was read: those of the document
    decoded from it, whatever [json.Unmarshal] returned. *)
Lemma Collect_sent_decoded c w r :
  wf_world w -> sound c -> url_parses (stats_url (gateway c)) = true ->
  transport w (round_trips (trace w)) (scrape_request c) = DoOk r ->
  body_err (resp_body r) = None ->
  sent (Collect c) w = stats_metrics c (decoded (body_data (resp_body r))).
Proof.
  intros Hwf Hc Hurl Hans Herr.
  pose proof (Collect_run c w Hwf Hc Hurl) as Hrun. cbv zeta in Hrun.
  unfold sent. rewrite (new_events_run _ _ _ _ Hrun), Hans. unfold scrape_events.
  change (metrics (?e :: ?l)) with (metrics l).
  rewrite after_round_trip_metrics. simpl. by rewrite Herr.
Qed.

(** C15: the error of [json.Unmarshal] is dropped: a body that is not
    JSON is reported as a success, [up = 1], with the nine values of the
    zero document, all 0. *)
Theorem Collect_invalid_json_reports_up c w r :
  wf_world w -> sound c -> url_parses (stats_url (gateway c)) = true ->
  transport w (round_trips (trace w)) (scrape_request c) = DoOk r ->
  body_err (resp_body r) = None ->
  json_parse (body_data (resp_body r)) = None ->
  sent (Collect c) w =
  gauge (up c) f64_one :: map (fun d => gauge d f64_zero) (tail (all_descs c)).
Proof.
  intros Hwf Hc Hurl Hans Herr Hjson. rewrite (Collect_sent_decoded c w r) by done.
  by rewrite decoded_invalid, stats_metrics_zero.
Qed.

(** C22: the error of [strconv.ParseFloat] is dropped: a count that is
    not a number is sent as 0, after [up = 1]. *)
Theorem send_stats_garbage_count c g w :
  sound c ->
  Exists (fun ch => float_char ch = false) (chars (UplinkCount g)) ->
  take 2 (sent (send_stats c g) w) =
  [gauge (up c) f64_one; gauge (uplinkCount c) f64_zero].
Proof.
  intros Hc Hg. unfold sent.
  rewrite (new_events_run _ _ _ _ (send_stats_run c g w Hc)). simpl.
  by rewrite ParseFloat_garbage_zero.
Qed.


(** C26: for counts sent as decimal digits and counters, all below 2^53
    in magnitude, the ten values sent are [1] and exactly the numbers of
    the document: nothing is rounded. *)
Theorem send_stats_exact c g w u d :
  sound c ->
  digits_value (UplinkCount g) = Some u -> u < 2 ^ 53 ->
  digits_value (DownlinkCount g) = Some d -> d < 2 ^ 53 ->
  (let m := Metrics (LastStatus g) in
   Forall (fun x => - 2 ^ 53 < x < 2 ^ 53)
     [Ackr m; Lpps m; Rxfw m; Rxin m; Rxok m; Txin m; Txok m]) ->
  map (fun m => f64_to_Z (metric_value m)) (sent (send_stats c g) w) =
  let m := Metrics (LastStatus g) in
  map Some [1; u; d; Ackr m; Lpps m; Rxfw m; Rxin m; Rxok m; Txin m; Txok m].
Proof.
  intros Hc Hu Hu53 Hd Hd53 Hm. unfold sent.
  rewrite (new_events_run _ _ _ _ (send_stats_run c g w Hc)).
  pose proof (digits_value_nonneg _ _ Hu). pose proof (digits_value_nonneg _ _ Hd).
  cbv zeta in *. rewrite !Forall_cons in Hm. simpl.
  rewrite (ParseFloat_counter _ _ Hu), (ParseFloat_counter _ _ Hd) by done.
  simpl. rewrite !float64_of_int_to_Z by (lia || tauto). done.
Qed.

Lemma decoded_bad_time body tag s members :
  json_parse body = Some (JObject ((tag, JString s) :: members)) ->
  tag ∈ time_tags -> time_parses s = false ->
  decoded body = zero_GatewayConnectionStats.
Proof.
  intros Hbody Htag Hs. unfold decoded.
  by erewrite Unmarshal_aborted; [|done|by apply dec_time_stamp_aborts].
Qed.

(** C21: a document that begins with a time stamp that is not RFC 3339
    is reported as a success with nine zeros: decoding stops at the time
    stamp, the counts after it are never stored, and the error is
    dropped. *)
Theorem Collect_bad_time_zeroes c w r tag s members :
  wf_world w -> sound c -> url_parses (stats_url (gateway c)) = true ->
  transport w (round_trips (trace w)) (scrape_request c) = DoOk r ->
  body_err (resp_body r) = None ->
  json_parse (body_data (resp_body r)) = Some (JObject ((tag, JString s) :: members)) ->
  tag ∈ time_tags -> time_parses s = false ->
  sent (Collect c) w =
  gauge (up c) f64_one :: map (fun d => gauge d f64_zero) (tail (all_descs c)).
Proof.
  intros Hwf Hc Hurl Hans Herr Hjson Htag Hs.
  rewrite (Collect_sent_decoded c w r) by done.
  by erewrite decoded_bad_time, stats_metrics_zero.
Qed.

End Unseen.

Definition garbage_response : Response := mkResponse 200 (mkBody "<html>" None).

Lemma Collect_invalid_json_reports_up_witness :
  sent (Collect example_collector) (answering (DoOk garbage_response)) =
  gauge (up example_collector) f64_one ::
  map (fun d => gauge d f64_zero) (tail (all_descs example_collector)).
Proof.
  apply (Collect_invalid_json_reports_up example_collector
           (answering (DoOk garbage_response)) garbage_response);
    [apply answering_wf | apply example_collector_sound | reflexivity ..].
Defined.

Definition bad_time_response : Response :=
  mkResponse 200
    (mkBody (dq "{'connected_at':'yesterday','uplink_count':'42','downlink_count':'7'}")
       None).

Lemma Collect_bad_time_zeroes_witness :
  sent (Collect example_collector) (answering (DoOk bad_time_response)) =
  gauge (up example_collector) f64_one ::
  map (fun d => gauge d f64_zero) (tail (all_descs example_collector)).
Proof.
  apply (Collect_bad_time_zeroes example_collector
           (answering (DoOk bad_time_response)) bad_time_response
           "connected_at" "yesterday"
           [("uplink_count", JString "42"); ("downlink_count", JString "7")]);
    [apply answering_wf | apply example_collector_sound | reflexivity | reflexivity
    | reflexivity | by vm_compute | by left | by vm_compute].
Defined.

Definition stats_with_counts (uplink downlink : string) : GatewayConnectionStats :=
  decoded (dq "{'uplink_count':'" +:+ uplink +:+ dq "','downlink_count':'"
           +:+ downlink +:+ dq "'}").

Lemma send_stats_garbage_count_witness :
  take 2 (sent (send_stats example_collector (stats_with_counts "N/A" "7"))
            (answering (DoErr "")))
  = [gauge (up example_collector) f64_one;
     gauge (uplinkCount example_collector) f64_zero].
Proof.
  apply (send_stats_garbage_count example_collector (stats_with_counts "N/A" "7"));
    [apply example_collector_sound|].
  apply Exists_cons_tl, Exists_cons_hd. reflexivity.
Defined.

Lemma send_stats_exact_witness :
  map (fun m => f64_to_Z (metric_value m))
    (sent (send_stats example_collector (decoded example_body)) (answering (DoErr "")))
  = map Some [1; 42; 7; 99; 1; 2; 3; 4; 5; 6].
Proof.
  rewrite (send_stats_exact example_collector (decoded example_body)
             (answering (DoErr "")) 42 7);
    [ vm_compute; reflexivity | apply example_collector_sound
    | vm_compute; reflexivity | lia | vm_compute; reflexivity | lia | ].
  cbv zeta. repeat (apply Forall_cons; split; [by vm_compute|]). constructor.
Defined.

(** ** The descriptors and [Describe] *)

Section Descriptors.
Implicit Types (c : ttnCollector) (w : World).


Lemma newTtnCollector_NoDup apiToken gateway :
  NoDup (all_descs (newTtnCollector apiToken gateway)).
Proof.
  apply (NoDup_fmap_1 fqName).
  change (NoDup ["ttn_up"; "ttn_uplink_count"; "ttn_downlink_count"; "ttn_ackr";
                 "ttn_llps"; "ttn_rxfw"; "ttn_rxin"; "ttn_rxok"; "ttn_txin";
                 "ttn_txok"]).
  apply (bool_decide_unpack _). by vm_compute.
Qed.

(** C35: every collector [newTtnCollector] builds is sound: its ten
    descriptors are distinct, carry no error and have no label, and it
    keeps the token and the gateway it was given. *)
Theorem newTtnCollector_sound apiToken gateway :
  let c := newTtnCollector apiToken gateway in
  sound c /\ NoDup (all_descs c) /\
  Forall (fun d => constLabels d = []) (all_descs c) /\
  Collector.apiToken c = apiToken /\ Collector.gateway c = gateway.
Proof.
  cbv zeta. split; [unfold sound; by repeat constructor|].
  split; [apply newTtnCollector_NoDup|]. split; [by repeat constructor|by split].
Qed.

Lemma Describe_run c w :
  Describe c w =
  (Returned tt,
   extend w [EvDesc (up c); EvDesc (uplinkCount c); EvDesc (downlinkCount c)]).
Proof.
  unfold Describe. rewrite !bind_send_desc. unfold send_desc.
  by rewrite emit_run, !extend_extend.
Qed.

(** C36: [Describe] sends three descriptors, those of [up] and of the two
    counts, in this order, in every world, and nothing else happens. *)
Theorem Describe_three c w :
  outcome (Describe c) w = Returned tt /\
  new_events (Describe c) w = map EvDesc (take 3 (all_descs c)).
Proof.
  by rewrite (outcome_run _ _ _ _ (Describe_run c w)),
    (new_events_run _ _ _ _ (Describe_run c w)).
Qed.


(** C13: the seven descriptors of [last_status.metrics] are sent by a
    successful scrape and never advertised: among the descriptors of the
    ten metrics, those that [Describe] did not send are exactly these
    seven. *)
Theorem Describe_omits_emitted `{Strconv} c g w w' :
  sound c -> NoDup (all_descs c) ->
  filter (fun d => d ∉ described (Describe c) w)
    (map metric_desc (sent (send_stats c g) w'))
  = [metricsAckr c; metricsLpps c; metricsRxfw c; metricsRxin c; metricsRxok c;
     metricsTxin c; metricsTxok c].
Proof.
  intros Hc Hnd. unfold described, sent.
  rewrite (new_events_run _ _ _ _ (Describe_run c w)).
  rewrite (new_events_run _ _ _ _ (send_stats_run c g w' Hc)).
  by apply (filter_not_in_prefix [up c; uplinkCount c; downlinkCount c]).
Qed.

End Descriptors.

Lemma Describe_omits_emitted_witness :
  filter (fun d => d ∉ described (Describe example_collector) (answering (DoErr "")))
    (map metric_desc
       (sent (send_stats example_collector (decoded example_body))
          (answering (DoErr ""))))
  = [metricsAckr example_collector; metricsLpps example_collector;
     metricsRxfw example_collector; metricsRxin example_collector;
     metricsRxok example_collector; metricsTxin example_collector;
     metricsTxok example_collector].
Proof.
  apply (Describe_omits_emitted example_collector);
    [apply example_collector_sound | apply newTtnCollector_NoDup].
Defined.

(** ** The example of the specification *)

