(* ===== verification/Registry.v ===== *)
(** * Registry: the metric registry of client_golang

    The part of [prometheus.Registry] that [Register] of the exporter
    goes through: [Register], [MustRegister], [Unregister], and the
    collectors a scrape runs.  A collector is its two methods.  The
    registry identifies a descriptor by a hash of its name and the values
    of its constant labels, and a collector by the XOR of the identities
    of its descriptors; the model keeps the hashed data instead of the
    hash ([desc_id], [dim_hash]) and the list of identities instead of
    their XOR, compared up to order, so two identities are equal exactly
    when the data are: collisions of the hash are left out.

    Registration checks, in the order of the library: every descriptor
    is valid; a descriptor of a name already known has the same help and
    label names; a collector that describes nothing is unchecked; a
    collector with the identity of a registered one is refused; so is one
    with a descriptor that is already registered. *)

From S2P Require Import Prelude GoMonad Float64 Prometheus Http Runtime.

(** ** Collectors *)

(** [prometheus.Collector]: the two methods, acting on the world. *)
Record Collector : Type := mkCollector {
  coll_Describe : Go World unit;
  coll_Collect : Go World unit;
}.

(** ** Identities *)

(** What [Desc.id] hashes: the name and the values of the constant
    labels. *)
Definition DescID : Type := string * list string.

(** What [Desc.dimHash] hashes: the help and the names of the labels. *)
Definition DimHash : Type := string * list string.

Definition desc_id (d : Desc) : DescID := (fqName d, (constLabels d).*2).

Definition dim_hash (d : Desc) : DimHash :=
  (help d, (constLabels d).*1 ++ variableLabels d).

(** The identity of a collector: the distinct identities of its
    descriptors, in any order. *)
Definition CollectorID : Type := list DescID.

Definition same_collector (id1 id2 : CollectorID) : Prop := id1 ≡ₚ id2.

#[export] Instance same_collector_dec id1 id2 : Decision (same_collector id1 id2).
Proof. unfold same_collector. apply _. Defined.

(** ** The registry *)

Record Registry : Type := mkRegistry {
  collectorsByID : list (CollectorID * Collector);
  descIDs : list DescID;
  dimHashesByName : list (string * DimHash);
  uncheckedCollectors : list Collector;
}.

Definition empty_registry : Registry := mkRegistry [] [] [] [].

(** [m[key]] of a Go map kept as a list of pairs. *)
Definition dim_lookup (name : string) (m : list (string * DimHash)) : option DimHash :=
  (fun found => found.2.2) <$> list_find (fun p => p.1 = name) m.

Definition is_registered (id : CollectorID) (r : Registry) : bool :=
  bool_decide (Exists (fun p => same_collector p.1 id) (collectorsByID r)).

(** ** Register *)

(** The local variables of [Register] while it reads the descriptors. *)
Record Scan : Type := mkScan {
  newDescIDs : list DescID;
  newDimHashesByName : list (string * DimHash);
  duplicateDescErr : option error;
}.

Definition errInvalidDesc (e : error) : error := "descriptor is invalid: " +:+ e.
Definition errDuplicateDesc (d : Desc) : error :=
  "descriptor " +:+ fqName d +:+
  " already exists with the same fully-qualified name and const label values".
Definition errDimRegistered (d : Desc) : error :=
  "a previously registered descriptor with the same fully-qualified name as "
  +:+ fqName d +:+ " has different label names or a different help string".
Definition errDimCollector (d : Desc) : error :=
  "descriptors reported by collector have inconsistent label names or help strings for the same fully-qualified name, offender is "
  +:+ fqName d.
Definition errAlreadyRegistered : error :=
  "duplicate metrics collector registration attempted".

(** One turn of the loop over the descriptors. *)
Definition scan_desc (r : Registry) (desc : Desc) (acc : Scan) : Scan + error :=
  match desc_err desc with
  | Some e => inr (errInvalidDesc e)
  | None =>
      let dup := if bool_decide (desc_id desc ∈ descIDs r)
                 then Some (errDuplicateDesc desc) else duplicateDescErr acc in
      let ids := if bool_decide (desc_id desc ∈ newDescIDs acc) then newDescIDs acc
                 else newDescIDs acc ++ [desc_id desc] in
      match dim_lookup (fqName desc) (dimHashesByName r) with
      | Some h =>
          if bool_decide (h = dim_hash desc)
          then inl (mkScan ids (newDimHashesByName acc) dup)
          else inr (errDimRegistered desc)
      | None =>
          match dim_lookup (fqName desc) (newDimHashesByName acc) with
          | Some h =>
              if bool_decide (h = dim_hash desc)
              then inl (mkScan ids (newDimHashesByName acc) dup)
              else inr (errDimCollector desc)
          | None =>
              inl (mkScan ids
                     (newDimHashesByName acc ++ [(fqName desc, dim_hash desc)]) dup)
          end
      end
  end.

Fixpoint scan_descs (r : Registry) (descs : list Desc) (acc : Scan) : Scan + error :=
  match descs with
  | [] => inl acc
  | desc :: descs' =>
      match scan_desc r desc acc with
      | inl acc' => scan_descs r descs' acc'
      | inr e => inr e
      end
  end.

(** [Registry.Register] of a collector whose [Describe] sent [descs]. *)
Definition Registry_Register (r : Registry) (c : Collector) (descs : list Desc)
  : Registry * option error :=
  match scan_descs r descs (mkScan [] [] None) with
  | inr e => (r, Some e)
  | inl acc =>
      match newDescIDs acc with
      | [] =>
          (mkRegistry (collectorsByID r) (descIDs r) (dimHashesByName r)
             (uncheckedCollectors r ++ [c]), None)
      | _ :: _ =>
          if is_registered (newDescIDs acc) r then (r, Some errAlreadyRegistered)
          else
            match duplicateDescErr acc with
            | Some e => (r, Some e)
            | None =>
                (mkRegistry (collectorsByID r ++ [(newDescIDs acc, c)])
                   (descIDs r ++ newDescIDs acc)
                   (dimHashesByName r ++ newDimHashesByName acc)
                   (uncheckedCollectors r), None)
            end
      end
  end.

(** ** Unregister *)

(** The distinct identities of the descriptors, in the order seen. *)
Fixpoint distinct_ids (descs : list Desc) (seen : list DescID) : list DescID :=
  match descs with
  | [] => seen
  | d :: descs' =>
      distinct_ids descs'
        (if bool_decide (desc_id d ∈ seen) then seen else seen ++ [desc_id d])
  end.

(** [Registry.Unregister]: the collector with this identity and its
    descriptor identities are removed; the help and label names known
    for a name stay. *)
Definition Registry_Unregister (r : Registry) (descs : list Desc) : Registry * bool :=
  let id := distinct_ids descs [] in
  if is_registered id r then
    (mkRegistry
       (filter (fun p => ~ same_collector p.1 id) (collectorsByID r))
       (filter (fun i => i ∉ id) (descIDs r))
       (dimHashesByName r) (uncheckedCollectors r), true)
  else (r, false).

(** ** The collectors of a scrape *)

(** [Registry.Gather] runs [Collect] of every registered collector,
    checked and unchecked. *)
Definition gathered (r : Registry) : list Collector :=
  (collectorsByID r).*2 ++ uncheckedCollectors r.

(** ** Registering a collector whose descriptors are new *)

Section Fresh.
Implicit Types (r : Registry) (d : Desc) (descs : list Desc).

(** The names and identities a collector brings. *)
Definition names_of descs : list string := fqName <$> descs.
Definition ids_of descs : list DescID := desc_id <$> descs.
Definition dims_of descs : list (string * DimHash) :=
  (fun d => (fqName d, dim_hash d)) <$> descs.

Lemma dim_lookup_None name m : name ∉ m.*1 -> dim_lookup name m = None.
Proof.
  intros Hname. unfold dim_lookup.
  destruct (list_find _ m) as [[i [n h]]|] eqn:Hfind; [|done].
  apply list_find_Some in Hfind as (Hl & Hn & _). simpl in Hn. subst n.
  exfalso. apply Hname. apply list_elem_of_fmap. exists (name, h).
  split; [done|]. by eapply list_elem_of_lookup_2.
Qed.

Lemma desc_id_name d ids : fqName d ∉ ids.*1 -> desc_id d ∉ ids.
Proof.
  intros Hname Hin. apply Hname. apply list_elem_of_fmap. by exists (desc_id d).
Qed.

(** A descriptor that is valid and whose name is new passes the checks. *)
Lemma scan_desc_fresh r d acc :
  desc_err d = None -> fqName d ∉ (descIDs r).*1 ->
  fqName d ∉ (dimHashesByName r).*1 ->
  fqName d ∉ (newDescIDs acc).*1 -> fqName d ∉ (newDimHashesByName acc).*1 ->
  scan_desc r d acc =
  inl (mkScan (newDescIDs acc ++ [desc_id d])
         (newDimHashesByName acc ++ [(fqName d, dim_hash d)])
         (duplicateDescErr acc)).
Proof.
  intros Herr Hr Hdim Hnew Hnewdim. unfold scan_desc. rewrite Herr.
  rewrite !dim_lookup_None by done.
  by rewrite !bool_decide_eq_false_2 by (by apply desc_id_name).
Qed.

Lemma scan_descs_fresh r descs : forall acc,
  Forall (fun d => desc_err d = None) descs -> NoDup (names_of descs) ->
  (forall n, n ∈ names_of descs ->
     (n ∉ (descIDs r).*1) /\ (n ∉ (dimHashesByName r).*1) /\
     (n ∉ (newDescIDs acc).*1) /\ (n ∉ (newDimHashesByName acc).*1)) ->
  scan_descs r descs acc =
  inl (mkScan (newDescIDs acc ++ ids_of descs)
         (newDimHashesByName acc ++ dims_of descs) (duplicateDescErr acc)).
Proof.
  induction descs as [|d descs IH]; intros acc Hvalid Hnd Hfresh.
  { simpl. rewrite !app_nil_r. by destruct acc. }
  apply Forall_cons in Hvalid as [Hd Hvalid]. apply NoDup_cons in Hnd as [Hdn Hnd].
  destruct (Hfresh (fqName d)) as (H1 & H2 & H3 & H4); [by left|].
  simpl. rewrite scan_desc_fresh by done. rewrite IH; [|done|done|].
  { simpl. by rewrite <- !app_assoc. }
  intros n Hn. destruct (Hfresh n) as (G1 & G2 & G3 & G4); [by right|].
  simpl. rewrite !fmap_app, !not_elem_of_app. simpl.
  repeat split; try done; apply not_elem_of_cons; split; try apply not_elem_of_nil;
    intros ->; by apply Hdn.
Qed.

(** No registered collector has an identity with a name outside the
    registered names. *)
Definition ids_registered r : Prop :=
  Forall (fun p => p.1 ⊆ descIDs r) (collectorsByID r).

Lemma fresh_not_registered r descs :
  ids_registered r -> descs <> [] ->
  (forall n, n ∈ names_of descs -> n ∉ (descIDs r).*1) ->
  is_registered (ids_of descs) r = false.
Proof.
  intros Hreg Hne Hfresh. apply bool_decide_eq_false. rewrite Exists_exists.
  intros ([id c] & Hin & Hsame). unfold ids_registered in Hreg.
  rewrite Forall_forall in Hreg. specialize (Hreg _ Hin). simpl in *.
  destruct descs as [|d descs]; [done|].
  apply (Hfresh (fqName d)); [by left|].
  apply list_elem_of_fmap. exists (desc_id d). split; [done|]. apply Hreg.
  unfold same_collector in Hsame. rewrite Hsame. by left.
Qed.

(** Registration of a collector with valid descriptors of new, distinct
    names succeeds and adds the collector, its identities and the help of
    its names. *)
Lemma Registry_Register_fresh r c descs :
  ids_registered r -> descs <> [] ->
  Forall (fun d => desc_err d = None) descs -> NoDup (names_of descs) ->
  (forall n, n ∈ names_of descs ->
     (n ∉ (descIDs r).*1) /\ (n ∉ (dimHashesByName r).*1)) ->
  Registry_Register r c descs =
  (mkRegistry (collectorsByID r ++ [(ids_of descs, c)]) (descIDs r ++ ids_of descs)
     (dimHashesByName r ++ dims_of descs) (uncheckedCollectors r), None).
Proof.
  intros Hreg Hne Hvalid Hnd Hfresh. unfold Registry_Register.
  rewrite scan_descs_fresh; [|done|done|].
  - simpl. destruct (ids_of descs) as [|i ids] eqn:Hids;
      [by destruct descs|]. rewrite <- Hids.
    rewrite fresh_not_registered; [done|done|done|]. intros n Hn. by apply Hfresh.
  - intros n Hn. destruct (Hfresh n Hn). simpl. repeat split; try done;
      apply not_elem_of_nil.
Qed.

(** Registration keeps the identities of the collectors registered. *)
Lemma Registry_Register_ids_registered r c descs :
  ids_registered r -> ids_registered (Registry_Register r c descs).1.
Proof.
  intros Hreg. unfold Registry_Register.
  destruct (scan_descs _ _ _) as [acc|e]; [|done].
  destruct (newDescIDs acc) as [|i ids] eqn:Hids; [done|].
  destruct (is_registered _ r); [done|]. destruct (duplicateDescErr acc); [done|].
  unfold ids_registered in *. simpl. apply Forall_app. split.
  - eapply Forall_impl; [done|]. intros [id c'] Hsub x Hx. simpl in *.
    apply elem_of_app. left. by apply Hsub.
  - constructor; [|done]. intros x Hx. simpl in *. apply elem_of_app. by right.
Qed.

End Fresh.

(** ** Names told apart by their first character *)

Section Heads.
Implicit Types (n : string) (c : ascii) (descs : list Desc).

(** The first character of the names of the descriptors. *)
Definition headed (c : ascii) descs : Prop :=
  Forall (fun d => head (chars (fqName d)) = Some c) descs.

Lemma prefix_head c p n : String.prefix (String c p) n = true -> head (chars n) = Some c.
Proof.
  destruct n as [|c' n]; [done|]. simpl.
  destruct (ascii_dec c c') as [->|]; [done|discriminate].
Qed.

Lemma headed_prefix c p descs :
  Forall (fun d => String.prefix (String c p) (fqName d) = true) descs ->
  headed c descs.
Proof. intros Hall. eapply Forall_impl; [done|]. intros d. apply prefix_head. Qed.

Lemma headed_names c descs n : headed c descs -> n ∈ names_of descs -> head (chars n) = Some c.
Proof.
  unfold headed. rewrite Forall_forall. intros Hall (d & -> & Hd)%list_elem_of_fmap.
  by apply Hall.
Qed.

(** Names that start differently are different names. *)
Lemma headed_disjoint c1 c2 ds1 ds2 n :
  c1 <> c2 -> headed c1 ds1 -> headed c2 ds2 ->
  n ∈ names_of ds1 -> n ∉ names_of ds2.
Proof.
  intros Hc H1 H2 Hn1 Hn2.
  pose proof (headed_names _ _ _ H1 Hn1). pose proof (headed_names _ _ _ H2 Hn2).
  congruence.
Qed.

Lemma ids_names descs : (ids_of descs).*1 = names_of descs.
Proof. unfold ids_of, names_of. rewrite <- list_fmap_compose. done. Qed.

Lemma dims_names descs : (dims_of descs).*1 = names_of descs.
Proof. unfold dims_of, names_of. rewrite <- list_fmap_compose. done. Qed.

Lemma id_not_in descs1 descs2 i :
  (forall n, n ∈ names_of descs1 -> n ∉ names_of descs2) ->
  i ∈ ids_of descs1 -> i ∉ ids_of descs2.
Proof.
  intros Hdisj H1 H2. apply (Hdisj i.1).
  - rewrite <- ids_names. by apply list_elem_of_fmap_2.
  - rewrite <- ids_names. by apply list_elem_of_fmap_2.
Qed.

(** Collectors with descriptors of different names are different
    collectors. *)
Lemma not_same_collector descs1 descs2 :
  descs1 <> [] -> (forall n, n ∈ names_of descs1 -> n ∉ names_of descs2) ->
  ~ same_collector (ids_of descs1) (ids_of descs2).
Proof.
  intros Hne Hdisj Hsame. destruct descs1 as [|d ds]; [done|].
  apply (id_not_in (d :: ds) descs2 (desc_id d) Hdisj); [by left|].
  unfold same_collector in Hsame. rewrite <- Hsame. by left.
Qed.

(** The identities [Unregister] computes for descriptors of distinct
    names. *)
Lemma distinct_ids_fresh descs : forall seen,
  NoDup (names_of descs) -> (forall n, n ∈ names_of descs -> n ∉ seen.*1) ->
  distinct_ids descs seen = seen ++ ids_of descs.
Proof.
  induction descs as [|d descs IH]; intros seen Hnd Hfresh.
  { simpl. by rewrite app_nil_r. }
  apply NoDup_cons in Hnd as [Hd Hnd]. simpl.
  rewrite bool_decide_eq_false_2
    by (apply desc_id_name, Hfresh; by left).
  rewrite IH; [by rewrite <- app_assoc|done|].
  intros n Hn. rewrite fmap_app, not_elem_of_app. split; [apply Hfresh; by right|].
  simpl. apply not_elem_of_cons. split; [|apply not_elem_of_nil].
  intros ->. by apply Hd.
Qed.

End Heads.

(** ** The registry as a list of collectors *)

(** Programs that register collectors with descriptors of distinct names
    see the registry as a list: [registry_of entries history] is the
    registry that holds the collectors of [entries], each with the
    descriptors it described, after the descriptors of [history] have
    been registered at some time. *)
Definition Entry : Type := list Desc * Collector.

Definition entry_descs (entries : list Entry) : list Desc := concat entries.*1.

Definition registry_of (entries : list Entry) (history : list Desc) : Registry :=
  mkRegistry ((fun e => (ids_of e.1, e.2)) <$> entries)
    (ids_of (entry_descs entries)) (dims_of history) [].

(** The entries are in order when all their names are distinct, none is
    empty, and all are in the history. *)
Record entries_ok (entries : list Entry) (history : list Desc) : Prop := {
  entries_distinct : NoDup (names_of (entry_descs entries));
  entries_nonempty : Forall (fun e => e.1 <> []) entries;
  entries_history : names_of (entry_descs entries) ⊆ names_of history;
}.

Lemma entries_ok_nil : entries_ok [] [].
Proof. split; [constructor|constructor|done]. Qed.

Section Entries.
Implicit Types (entries : list Entry) (history descs : list Desc) (c : Collector).

Lemma entry_descs_app entries1 entries2 :
  entry_descs (entries1 ++ entries2) = entry_descs entries1 ++ entry_descs entries2.
Proof. unfold entry_descs. by rewrite fmap_app, concat_app. Qed.

Lemma entry_descs_snoc entries descs c :
  entry_descs (entries ++ [(descs, c)]) = entry_descs entries ++ descs.
Proof. rewrite entry_descs_app. unfold entry_descs. simpl. by rewrite app_nil_r. Qed.

Lemma names_of_app descs1 descs2 :
  names_of (descs1 ++ descs2) = names_of descs1 ++ names_of descs2.
Proof. apply fmap_app. Qed.

Lemma ids_of_app descs1 descs2 : ids_of (descs1 ++ descs2) = ids_of descs1 ++ ids_of descs2.
Proof. apply fmap_app. Qed.

Lemma dims_of_app descs1 descs2 :
  dims_of (descs1 ++ descs2) = dims_of descs1 ++ dims_of descs2.
Proof. apply fmap_app. Qed.

Lemma entry_names entries e :
  e ∈ entries -> names_of e.1 ⊆ names_of (entry_descs entries).
Proof.
  intros (e1 & e2 & ->)%list_elem_of_split n Hn.
  rewrite entry_descs_app, names_of_app. apply elem_of_app. right.
  unfold entry_descs. simpl. rewrite names_of_app. apply elem_of_app. by left.
Qed.

Lemma gathered_registry_of entries history :
  gathered (registry_of entries history) = entries.*2.
Proof.
  unfold gathered, registry_of. simpl. rewrite app_nil_r, <- list_fmap_compose. done.
Qed.

Lemma registry_of_ids_registered entries history :
  ids_registered (registry_of entries history).
Proof.
  unfold ids_registered, registry_of. simpl. apply Forall_fmap, Forall_forall.
  intros e (e1 & e2 & ->)%list_elem_of_split i Hi. simpl in *.
  rewrite entry_descs_app, ids_of_app. apply elem_of_app. right.
  unfold entry_descs. simpl. rewrite ids_of_app. apply elem_of_app. by left.
Qed.

(** Registering a collector whose names are new adds it at the end. *)
Lemma Registry_Register_of entries history c descs :
  entries_ok entries history -> descs <> [] ->
  Forall (fun d => desc_err d = None) descs -> NoDup (names_of descs) ->
  (forall n, n ∈ names_of descs -> n ∉ names_of history) ->
  Registry_Register (registry_of entries history) c descs =
  (registry_of (entries ++ [(descs, c)]) (history ++ descs), None).
Proof.
  intros [Hnd Hne Hhist] Hdescs Hvalid Hnames Hfresh.
  rewrite Registry_Register_fresh;
    [|apply registry_of_ids_registered|done|done|done|].
  - unfold registry_of. simpl.
    by rewrite fmap_app, entry_descs_snoc, ids_of_app, dims_of_app.
  - intros n Hn. simpl. rewrite ids_names, dims_names. split; [|by apply Hfresh].
    intros Hin. by apply (Hfresh n Hn), Hhist.
Qed.

Lemma Registry_Register_of_ok entries history c descs :
  entries_ok entries history -> descs <> [] -> NoDup (names_of descs) ->
  (forall n, n ∈ names_of descs -> n ∉ names_of history) ->
  entries_ok (entries ++ [(descs, c)]) (history ++ descs).
Proof.
  intros [Hnd Hne Hhist] Hdescs Hnames Hfresh. split.
  - rewrite entry_descs_snoc, names_of_app. apply NoDup_app. repeat split; try done.
    intros n Hn Hn'. by apply (Hfresh n Hn'), Hhist.
  - apply Forall_app. split; [done|]. by constructor.
  - rewrite entry_descs_snoc, !names_of_app. intros n [Hn|Hn]%elem_of_app;
      apply elem_of_app; [left; by apply Hhist|by right].
Qed.

End Entries.

Section Unregister.
Implicit Types (entries : list Entry) (history descs : list Desc) (c : Collector).

(** What distinct names give for an entry in the middle of the list. *)
Lemma entries_middle e1 e2 descs c history :
  entries_ok (e1 ++ (descs, c) :: e2) history ->
  NoDup (names_of descs) /\ descs <> [] /\
  (forall n, n ∈ names_of (entry_descs e1) -> n ∉ names_of descs) /\
  (forall n, n ∈ names_of (entry_descs e2) -> n ∉ names_of descs).
Proof.
  intros [Hnd Hne _]. rewrite entry_descs_app, names_of_app in Hnd.
  change ((descs, c) :: e2) with ([(descs, c)] ++ e2) in Hnd.
  rewrite entry_descs_app, names_of_app in Hnd. unfold entry_descs at 2 in Hnd.
  simpl in Hnd. rewrite app_nil_r in Hnd.
  apply NoDup_app in Hnd as (_ & H1 & Hnd). apply NoDup_app in Hnd as (Hd & H2 & _).
  apply Forall_app in Hne as [_ Hne]. apply Forall_cons in Hne as [Hne _].
  repeat split; [done|done| |].
  - intros n Hn Hn'. apply (H1 n Hn). apply elem_of_app. by left.
  - intros n Hn Hn'. by apply (H2 n Hn').
Qed.

Lemma entries_remove_ok e1 e2 descs c history :
  entries_ok (e1 ++ (descs, c) :: e2) history -> entries_ok (e1 ++ e2) history.
Proof.
  intros [Hnd Hne Hhist].
  rewrite entry_descs_app, names_of_app in *.
  change ((descs, c) :: e2) with ([(descs, c)] ++ e2) in *.
  rewrite entry_descs_app, names_of_app in *.
  apply NoDup_app in Hnd as (Hd1 & H1 & Hnd). apply NoDup_app in Hnd as (_ & _ & Hd2).
  apply Forall_app in Hne as [Hne1 Hne]. apply Forall_app in Hne as [_ Hne2].
  split.
  - rewrite entry_descs_app, names_of_app. apply NoDup_app. repeat split; try done.
    intros n Hn Hn'. apply (H1 n Hn). apply elem_of_app. by right.
  - by apply Forall_app.
  - rewrite entry_descs_app, names_of_app. intros n [Hn|Hn]%elem_of_app;
      apply Hhist; rewrite !elem_of_app; auto.
Qed.

(** The collectors one entry apart from [descs] are other collectors. *)
Lemma others_kept entries descs :
  Forall (fun e => e.1 <> []) entries ->
  (forall n, n ∈ names_of (entry_descs entries) -> n ∉ names_of descs) ->
  filter (fun p => ~ same_collector p.1 (ids_of descs))
    ((fun e : Entry => (ids_of e.1, e.2)) <$> entries)
  = (fun e : Entry => (ids_of e.1, e.2)) <$> entries.
Proof.
  intros Hne Hdisj. apply filter_all.
  intros p (e & -> & He)%list_elem_of_fmap. simpl.
  rewrite Forall_forall in Hne. apply not_same_collector; [by apply Hne|].
  intros n Hn. apply Hdisj. by eapply entry_names.
Qed.

Lemma other_ids_kept descs' descs :
  (forall n, n ∈ names_of descs' -> n ∉ names_of descs) ->
  filter (fun i => i ∉ ids_of descs) (ids_of descs') = ids_of descs'.
Proof. intros Hdisj. apply filter_all. intros i Hi. by eapply id_not_in. Qed.

(** Unregistering a collector of the list removes it and its
    identities. *)
Lemma Registry_Unregister_of e1 e2 descs c history :
  entries_ok (e1 ++ (descs, c) :: e2) history ->
  Registry_Unregister (registry_of (e1 ++ (descs, c) :: e2) history) descs
  = (registry_of (e1 ++ e2) history, true).
Proof.
  intros Hok. pose proof Hok as [_ Hne _].
  destruct (entries_middle _ _ _ _ _ Hok) as (Hnd & Hdescs & H1 & H2).
  apply Forall_app in Hne as [Hne1 Hne2]. apply Forall_cons in Hne2 as [_ Hne2].
  unfold Registry_Unregister. rewrite distinct_ids_fresh by (done || set_solver).
  simpl app. unfold is_registered. rewrite bool_decide_eq_true_2.
  2:{ simpl. rewrite fmap_app, Exists_app. right. by left. }
  unfold registry_of. simpl. f_equal. f_equal.
  - rewrite !fmap_app, fmap_cons, filter_app, filter_cons.
    rewrite !others_kept by done.
    rewrite decide_False; [done|]. intros Hn. apply Hn. unfold same_collector. simpl.
    reflexivity.
  - change ((descs, c) :: e2) with ([(descs, c)] ++ e2).
    rewrite !entry_descs_app, !ids_of_app, !filter_app.
    rewrite (other_ids_kept (entry_descs e1)), (other_ids_kept (entry_descs e2))
      by done.
    change (entry_descs [(descs, c)]) with (descs ++ []). rewrite app_nil_r.
    by rewrite filter_none by (intros i Hi Hn; by apply Hn).
Qed.

End Unregister.

(** ** Registering a collector a second time *)

Section Again.
Implicit Types (r : Registry) (d : Desc) (entries : list Entry)
  (history descs : list Desc) (c : Collector).

(** With distinct names in the history, the help on record for the name
    of a descriptor of the history is its own. *)
Lemma dim_lookup_history history d :
  NoDup (names_of history) -> d ∈ history ->
  dim_lookup (fqName d) (dims_of history) = Some (dim_hash d).
Proof.
  intros Hnd [j Hj]%list_elem_of_lookup. unfold dim_lookup.
  destruct (list_find _ _) as [[i [n h]]|] eqn:Hfind.
  - apply list_find_Some in Hfind as (Hi & Hn & _). simpl in *. subst n.
    unfold dims_of in Hi. rewrite list_lookup_fmap in Hi.
    destruct (history !! i) as [d'|] eqn:Hd'; [|done]. simpl in Hi.
    injection Hi as Hname <-.
    assert (i = j) as ->; [|congruence].
    apply (NoDup_lookup _ _ _ (fqName d) Hnd); unfold names_of;
      rewrite list_lookup_fmap; [by rewrite Hd', <- Hname|by rewrite Hj].
  - apply list_find_None in Hfind. rewrite Forall_forall in Hfind.
    destruct (Hfind (fqName d, dim_hash d)); [|done].
    apply list_elem_of_fmap. exists d. split; [done|]. by eapply list_elem_of_lookup_2.
Qed.

(** A valid descriptor whose name is on record with its own help passes
    the checks, whether its identity is registered or not. *)
Lemma scan_desc_known r d acc :
  desc_err d = None ->
  dim_lookup (fqName d) (dimHashesByName r) = Some (dim_hash d) ->
  fqName d ∉ (newDescIDs acc).*1 ->
  exists dup,
    scan_desc r d acc =
    inl (mkScan (newDescIDs acc ++ [desc_id d]) (newDimHashesByName acc) dup).
Proof.
  intros Herr Hdim Hnew. unfold scan_desc. rewrite Herr, Hdim.
  rewrite bool_decide_eq_true_2 by done.
  rewrite (bool_decide_eq_false_2 (desc_id d ∈ newDescIDs acc))
    by (by apply desc_id_name).
  by eexists.
Qed.

Lemma scan_descs_known r descs : forall acc,
  Forall (fun d => desc_err d = None) descs -> NoDup (names_of descs) ->
  Forall (fun d => dim_lookup (fqName d) (dimHashesByName r) = Some (dim_hash d)) descs ->
  (forall n, n ∈ names_of descs -> n ∉ (newDescIDs acc).*1) ->
  exists dup,
    scan_descs r descs acc =
    inl (mkScan (newDescIDs acc ++ ids_of descs) (newDimHashesByName acc) dup).
Proof.
  induction descs as [|d descs IH]; intros acc Hvalid Hnd Hdims Hfresh.
  { exists (duplicateDescErr acc). simpl. rewrite app_nil_r. by destruct acc. }
  apply Forall_cons in Hvalid as [Hd Hvalid]. apply NoDup_cons in Hnd as [Hdn Hnd].
  apply Forall_cons in Hdims as [Hdim Hdims].
  destruct (scan_desc_known r d acc Hd Hdim) as [dup Hscan];
    [apply Hfresh; by left|].
  simpl. rewrite Hscan.
  destruct (IH (mkScan (newDescIDs acc ++ [desc_id d]) (newDimHashesByName acc) dup))
    as [dup' ->]; try done.
  - intros n Hn. simpl. rewrite fmap_app, not_elem_of_app. simpl.
    split; [apply Hfresh; by right|].
    apply not_elem_of_cons. split; [|apply not_elem_of_nil]. intros ->. by apply Hdn.
  - exists dup'. simpl. by rewrite <- app_assoc.
Qed.

(** A collector that is registered is refused when it is registered
    again. *)
Lemma Registry_Register_again entries history c c' descs :
  NoDup (names_of history) -> descs ⊆ history -> (descs, c') ∈ entries ->
  descs <> [] -> Forall (fun d => desc_err d = None) descs ->
  NoDup (names_of descs) ->
  Registry_Register (registry_of entries history) c descs =
  (registry_of entries history, Some errAlreadyRegistered).
Proof.
  intros Hnd Hsub Hin Hne Hvalid Hnames. unfold Registry_Register.
  destruct (scan_descs_known (registry_of entries history) descs (mkScan [] [] None))
    as [dup ->]; [done|done| |intros n _; apply not_elem_of_nil|].
  { apply Forall_forall. intros d Hd. by apply dim_lookup_history, Hsub. }
  simpl. destruct (ids_of descs) as [|i ids] eqn:Hids; [by destruct descs|].
  rewrite <- Hids. unfold is_registered. rewrite bool_decide_eq_true_2; [done|].
  apply Exists_exists. exists (ids_of descs, c'). split; [|done].
  simpl. apply list_elem_of_fmap. by exists (descs, c').
Qed.

End Again.

(** ** Registries whose history has distinct names *)

Section WellFormed.
Implicit Types (entries : list Entry) (history descs : list Desc) (c : Collector).

(** What a collector must bring to be added: descriptors that are
    valid, with distinct names that the registry has never seen. *)
Record addable (history descs : list Desc) : Prop := {
  addable_nonempty : descs <> [];
  addable_valid : Forall (fun d => desc_err d = None) descs;
  addable_distinct : NoDup (names_of descs);
  addable_fresh : forall n, n ∈ names_of descs -> n ∉ names_of history;
}.

(** The registry of [entries] with [history], when no name was ever
    described with two meanings. *)
Record wf_registry (entries : list Entry) (history : list Desc) : Prop := {
  wf_entries : entries_ok entries history;
  wf_history : NoDup (names_of history);
}.

Lemma wf_registry_nil : wf_registry [] [].
Proof. split; [apply entries_ok_nil|constructor]. Qed.

Lemma wf_registry_add entries history c descs :
  wf_registry entries history -> addable history descs ->
  wf_registry (entries ++ [(descs, c)]) (history ++ descs).
Proof.
  intros [Hok Hnd] [Hne Hvalid Hdist Hfresh]. split.
  - by apply Registry_Register_of_ok.
  - rewrite names_of_app. apply NoDup_app. repeat split; try done.
    intros n Hn Hn'. by apply (Hfresh n).
Qed.

Lemma wf_registry_remove e1 e2 descs c history :
  wf_registry (e1 ++ (descs, c) :: e2) history -> wf_registry (e1 ++ e2) history.
Proof. intros [Hok Hnd]. split; [by eapply entries_remove_ok|done]. Qed.

Lemma Registry_Register_addable entries history c descs :
  wf_registry entries history -> addable history descs ->
  Registry_Register (registry_of entries history) c descs =
  (registry_of (entries ++ [(descs, c)]) (history ++ descs), None).
Proof. intros [Hok _] [Hne Hvalid Hdist Hfresh]. by apply Registry_Register_of. Qed.

(** Names with a prefix that a given name does not have. *)
Lemma prefixed_not_name prefix descs n :
  Forall (fun d => String.prefix prefix (fqName d) = true) descs ->
  String.prefix prefix n = false -> n ∉ names_of descs.
Proof.
  rewrite Forall_forall. intros Hall Hn (d & -> & Hd)%list_elem_of_fmap.
  rewrite (Hall d Hd) in Hn. discriminate.
Qed.

End WellFormed.
