(* ===== verification/Process.v ===== *)
(** * Process: what surrounds the collector in the running program

    The state of the process as [main] sees it: the world of [Runtime],
    the default registry, the default serve mux of [net/http], the flag
    set and the command line, the environment, and what the operating
    system and the clients of the server will do (whether the listen
    address can be bound, which paths are requested).  The operations
    are the library calls of [main.go] and of [Register]:
    [prometheus.MustRegister] and [Unregister] on the default registry,
    [promhttp.Handler], which registers the counter and the gauge it
    instruments itself with, [http.Handle], [http.ListenAndServe],
    [flag.String], [os.Getenv], [log.Print], [log.Fatal].

    A scrape is a request whose path the mux gives to the handler of
    [promhttp]: the registry runs [Collect] of every registered
    collector.  It does so in goroutines of its own, where no panic is
    recovered: a panic of [Collect] ends the process, and the model
    propagates it out of [ListenAndServe].  The collectors are run one
    after the other, in the order they were registered. *)

From S2P Require Import Prelude GoMonad Float64 Prometheus Http Runtime Registry.

Create Rewrite HintDb process_rw.

#[local] Open Scope Z_scope.

(** ** State *)

(** The handlers the program registers: only the one of [promhttp]. *)
Inductive Handler : Type := PromHandler.

#[export] Instance Handler_eq_dec : EqDecision Handler.
Proof. solve_decision. Defined.

Record Process : Type := mkProcess {
  world : World;
  registry : Registry;
  mux : list (string * Handler);
  flagSet : list (string * string);
  args : list string;
  environ : list (string * string);
  bind_error : option error;
  incoming : list string;
  listening : list string;
  exit_code : option Z;
}.

Definition set_world (w : World) (p : Process) : Process :=
  mkProcess w (registry p) (mux p) (flagSet p) (args p) (environ p)
    (bind_error p) (incoming p) (listening p) (exit_code p).

Definition set_registry (r : Registry) (p : Process) : Process :=
  mkProcess (world p) r (mux p) (flagSet p) (args p) (environ p)
    (bind_error p) (incoming p) (listening p) (exit_code p).

Definition set_mux (m : list (string * Handler)) (p : Process) : Process :=
  mkProcess (world p) (registry p) m (flagSet p) (args p) (environ p)
    (bind_error p) (incoming p) (listening p) (exit_code p).

Definition set_flagSet (f : list (string * string)) (p : Process) : Process :=
  mkProcess (world p) (registry p) (mux p) f (args p) (environ p)
    (bind_error p) (incoming p) (listening p) (exit_code p).

Definition set_incoming (l : list string) (p : Process) : Process :=
  mkProcess (world p) (registry p) (mux p) (flagSet p) (args p) (environ p)
    (bind_error p) l (listening p) (exit_code p).

Definition set_listening (l : list string) (p : Process) : Process :=
  mkProcess (world p) (registry p) (mux p) (flagSet p) (args p) (environ p)
    (bind_error p) (incoming p) l (exit_code p).

Definition set_exit_code (c : option Z) (p : Process) : Process :=
  mkProcess (world p) (registry p) (mux p) (flagSet p) (args p) (environ p)
    (bind_error p) (incoming p) (listening p) c.

(** A computation on the world, run in the process. *)
Definition on_world {A} (m : Go World A) : Go Process A := focus world set_world m.

(** ** The default registry *)

(** [prometheus.Register(c)]: [Describe] runs, and the registry checks
    what it sent. *)
Definition prometheus_Register (c : Collector) : Go Process (option error) :=
  w <- gets world ;;
  on_world (coll_Describe c) ;;
  w' <- gets world ;;
  let sent := descs (drop (length (trace w)) (trace w')) in
  r <- gets registry ;;
  let (r', err) := Registry_Register r c sent in
  modify (set_registry r') ;;
  ret err.

(** [prometheus.MustRegister(c)] *)
Definition prometheus_MustRegister (c : Collector) : Go Process unit :=
  err <- prometheus_Register c ;;
  match err with
  | Some e => panic e
  | None => ret tt
  end.

(** [prometheus.Unregister(c)] *)
Definition prometheus_Unregister (c : Collector) : Go Process bool :=
  w <- gets world ;;
  on_world (coll_Describe c) ;;
  w' <- gets world ;;
  let sent := descs (drop (length (trace w)) (trace w')) in
  r <- gets registry ;;
  let (r', found) := Registry_Unregister r sent in
  modify (set_registry r') ;;
  ret found.

(** [Gather]: [Collect] of every registered collector. *)
Fixpoint collect_all (cs : list Collector) : Go Process unit :=
  match cs with
  | [] => ret tt
  | c :: cs' => on_world (coll_Collect c) ;; collect_all cs'
  end.

Definition Gather : Go Process unit :=
  r <- gets registry ;;
  collect_all (gathered r).

(** ** The serve mux and the server *)

(** [http.Handle(pattern, handler)]: panics on an empty pattern and on a
    pattern that is already registered. *)
Definition http_Handle (pattern : string) (h : Handler) : Go Process unit :=
  m <- gets mux ;;
  if bool_decide (pattern = "") then panic "http: invalid pattern"
  else if bool_decide (pattern ∈ m.*1)
  then panic ("http: multiple registrations for " +:+ pattern)
  else modify (set_mux (m ++ [(pattern, h)])).

(** Does the pattern end in a slash?  Such a pattern names a subtree. *)
Definition is_subtree (pattern : string) : bool :=
  match last (chars pattern) with
  | Some c => code c =? 47
  | None => false
  end.

Definition pattern_matches (pattern path : string) : bool :=
  bool_decide (pattern = path) || (is_subtree pattern && String.prefix pattern path).

(** The handler of a path: the one of the longest pattern that matches. *)
Definition mux_handler (m : list (string * Handler)) (path : string) : option Handler :=
  let candidates := filter (fun e => pattern_matches e.1 path = true) m in
  snd <$> fold_right
            (fun e best =>
               match best with
               | Some b => if (String.length b.1 <? String.length e.1)%nat
                           then Some e else Some b
               | None => Some e
               end) None candidates.

(** One request: a scrape when the path is the handler's, else a 404. *)
Definition serve_request (path : string) : Go Process unit :=
  m <- gets mux ;;
  match mux_handler m path with
  | Some PromHandler => Gather
  | None => ret tt
  end.

Fixpoint serve_all (paths : list string) : Go Process unit :=
  match paths with
  | [] => ret tt
  | path :: paths' => serve_request path ;; serve_all paths'
  end.

Definition errServerClosed : error := "http: Server closed".

(** [http.ListenAndServe(addr, nil)]: fails at once when the address
    cannot be bound; otherwise serves the requests that come in, with
    the default mux, until the server stops.  It never returns nil. *)
Definition http_ListenAndServe (addr : string) : Go Process error :=
  modify (fun p => set_listening (listening p ++ [addr]) p) ;;
  failure <- gets bind_error ;;
  match failure with
  | Some e => ret e
  | None =>
      paths <- gets incoming ;;
      modify (set_incoming []) ;;
      serve_all paths ;;
      ret errServerClosed
  end.

(** ** Flags, environment, log *)

(** [flag.String(name, value, usage)]: defines the flag with its default
    and returns the pointer to its value, here the name. *)
Definition flag_String (name value usage : string) : Go Process string :=
  f <- gets flagSet ;;
  if bool_decide (name ∈ f.*1) then panic ("flag redefined: " +:+ name)
  else modify (set_flagSet (f ++ [(name, value)])) ;; ret name.

(** [*p] for a pointer returned by [flag.String]. *)
Definition flag_value (p : string) : Go Process string :=
  f <- gets flagSet ;;
  deref ((fun found => found.2.2) <$> list_find (fun e => e.1 = p) f).

(** One argument [-name=value] or [--name=value]. *)
Definition parse_arg (arg : string) : option (string * string) :=
  let fix split (l : list ascii) (name : list ascii) : option (string * string) :=
    match l with
    | [] => None
    | c :: l' =>
        if code c =? 61 then Some (string_of_chars (rev name), string_of_chars l')
        else split l' (c :: name)
    end in
  match chars arg with
  | d1 :: d2 :: l =>
      if (code d1 =? 45) && (code d2 =? 45) then split l []
      else if code d1 =? 45 then split (d2 :: l) []
      else None
  | _ => None
  end.

(** [flag.Parse()], for arguments of the form [-name=value]: the value
    of each defined flag that is named is replaced. *)
Definition flag_Parse : Go Process unit :=
  modify (fun p =>
    set_flagSet
      (fold_left
         (fun f arg =>
            match parse_arg arg with
            | Some (name, value) =>
                map (fun e => if bool_decide (e.1 = name) then (name, value) else e) f
            | None => f
            end)
         (args p) (flagSet p)) p).

(** [os.Getenv(key)]: the empty string when the variable is not set. *)
Definition os_Getenv (key : string) : Go Process string :=
  e <- gets environ ;;
  ret (default "" ((fun found => found.2.2) <$> list_find (fun kv => kv.1 = key) e)).

(** [log.Print(s)] *)
Definition log_Print (s : string) : Go Process unit := on_world (log_Println [s]).

(** [os.Exit(code)] *)
Definition os_Exit (code : Z) : Go Process unit := modify (set_exit_code (Some code)).

(** [log.Fatal(err)]: the line, then [os.Exit(1)]. *)
Definition log_Fatal (err : error) : Go Process unit :=
  on_world (log_Println [err]) ;; os_Exit 1.

(** ** The collectors of the library *)

(** [describes c ds]: in every world [Describe] of [c] sends the
    descriptors [ds] and returns. *)
Definition describes (c : Collector) (ds : list Desc) : Prop :=
  forall w, coll_Describe c w = (Returned tt, extend w (EvDesc <$> ds)).

(** [collects c ds]: in every world [Collect] of [c] returns after
    sending metrics of the descriptors [ds], and does nothing else. *)
Definition collects (c : Collector) (ds : list Desc) : Prop :=
  forall w, exists ms,
    coll_Collect c w = (Returned tt, extend w (EvMetric <$> ms)) /\
    Forall (fun m => metric_desc m ∈ ds) ms.

(** The descriptors of the two metrics with which [promhttp.Handler]
    instruments itself. *)
Definition requests_total_desc : Desc :=
  NewDesc "promhttp_metric_handler_requests_total"
    "Total number of scrapes by HTTP status code." ["code"] [].

Definition requests_in_flight_desc : Desc :=
  NewDesc "promhttp_metric_handler_requests_in_flight"
    "Current number of scrapes being served." [] [].

(** The collectors of client_golang the exporter meets: the one of
    [version.NewCollector], the Go collector and the process collector
    that the default registry holds from the start, and the counter and
    the gauge that [promhttp.Handler] registers. *)
Class ClientGolang : Type := {
  version_NewCollector : string -> Collector;
  collectors_NewGoCollector : Collector;
  NewProcessCollector : Collector;
  promhttp_counter : Collector;
  promhttp_gauge : Collector;
  counter_describes : describes promhttp_counter [requests_total_desc];
  counter_collects : collects promhttp_counter [requests_total_desc];
  gauge_describes : describes promhttp_gauge [requests_in_flight_desc];
  gauge_collects : collects promhttp_gauge [requests_in_flight_desc];
  build_info : string -> Desc;
  go_descs : list Desc;
  process_descs : list Desc;
  version_describes program :
    describes (version_NewCollector program) [build_info program];
  version_collects program :
    collects (version_NewCollector program) [build_info program];
  build_info_name program : fqName (build_info program) = program +:+ "_build_info";
  build_info_valid program :
    IsValidMetricName (program +:+ "_build_info") = true ->
    desc_err (build_info program) = None;
  go_describes : describes collectors_NewGoCollector go_descs;
  go_collects : collects collectors_NewGoCollector go_descs;
  go_names : Forall (fun d => String.prefix "go_" (fqName d) = true) go_descs;
  go_valid : Forall (fun d => desc_err d = None) go_descs;
  go_distinct : NoDup (fqName <$> go_descs);
  go_nonempty : go_descs <> [];
  process_describes : describes NewProcessCollector process_descs;
  process_collects : collects NewProcessCollector process_descs;
  process_names :
    Forall (fun d => String.prefix "process_" (fqName d) = true) process_descs;
  process_valid : Forall (fun d => desc_err d = None) process_descs;
  process_distinct : NoDup (fqName <$> process_descs);
  process_nonempty : process_descs <> [];
}.

(** The registry a program starts with: the process collector and the Go
    collector are registered. *)
Definition default_registry `{ClientGolang} : Registry :=
  let r1 := (Registry_Register empty_registry NewProcessCollector process_descs).1 in
  (Registry_Register r1 collectors_NewGoCollector go_descs).1.

(** [reg.Register(c)] as [promhttp.InstrumentMetricHandler] calls it: a
    collector that is registered already is used as it is; any other
    error panics. *)
Definition instrument_Register (c : Collector) : Go Process unit :=
  err <- prometheus_Register c ;;
  match err with
  | Some e => if bool_decide (e = errAlreadyRegistered) then ret tt else panic e
  | None => ret tt
  end.

(** [promhttp.Handler()]: the handler of the default registry,
    instrumented with a counter and a gauge that it registers there. *)
Definition promhttp_Handler `{ClientGolang} : Go Process Handler :=
  instrument_Register promhttp_counter ;;
  instrument_Register promhttp_gauge ;;
  ret PromHandler.

(** What the collectors [libs], run one after the other from [w], send. *)
Fixpoint lib_metrics (libs : list Collector) (w : World) : list Metric :=
  match libs with
  | [] => []
  | c :: libs' =>
      let ms := sent (coll_Collect c) w in
      ms ++ lib_metrics libs' (extend w (EvMetric <$> ms))
  end.

(** ** Running the operations *)

Section Rules.
Implicit Types (p : Process) (c : Collector) (ds : list Desc).

Lemma world_set_world w p : world (set_world w p) = w.
Proof. reflexivity. Qed.

Lemma registry_set_world w p : registry (set_world w p) = registry p.
Proof. reflexivity. Qed.

Lemma world_set_registry r p : world (set_registry r p) = world p.
Proof. reflexivity. Qed.

Lemma registry_set_registry r p : registry (set_registry r p) = r.
Proof. reflexivity. Qed.

Lemma set_world_set_world w w' p : set_world w' (set_world w p) = set_world w' p.
Proof. reflexivity. Qed.

Lemma set_registry_set_registry r r' p :
  set_registry r' (set_registry r p) = set_registry r' p.
Proof. reflexivity. Qed.

(** The registry is set last. *)
Lemma set_world_set_registry w r p :
  set_world w (set_registry r p) = set_registry r (set_world w p).
Proof. reflexivity. Qed.

Lemma on_world_run {A} (m : Go World A) p r w' :
  m (world p) = (r, w') -> on_world m p = (r, set_world w' p).
Proof. unfold on_world, focus. by intros ->. Qed.

Lemma descs_fmap ds : descs (EvDesc <$> ds) = ds.
Proof. induction ds as [|d ds IH]; [done|]. by rewrite <- IH at 2. Qed.

Lemma descs_sent (w : World) ds :
  descs (drop (length (trace w)) (trace (extend w (EvDesc <$> ds)))) = ds.
Proof. simpl. by rewrite drop_app_length, descs_fmap. Qed.

(** What [Describe] sent is what the registry checks. *)
Lemma prometheus_Register_run c ds p :
  describes c ds ->
  prometheus_Register c p =
  (Returned (Registry_Register (registry p) c ds).2,
   set_registry (Registry_Register (registry p) c ds).1
     (set_world (extend (world p) (EvDesc <$> ds)) p)).
Proof.
  intros Hc. unfold prometheus_Register. rewrite bind_gets_run.
  erewrite bind_returned by (apply on_world_run, Hc).
  rewrite !bind_gets_run, world_set_world, registry_set_world, descs_sent.
  by destruct (Registry_Register _ _ _).
Qed.

Lemma prometheus_MustRegister_run c ds p :
  describes c ds -> (Registry_Register (registry p) c ds).2 = None ->
  prometheus_MustRegister c p =
  (Returned tt,
   set_registry (Registry_Register (registry p) c ds).1
     (set_world (extend (world p) (EvDesc <$> ds)) p)).
Proof.
  intros Hc Hok. unfold prometheus_MustRegister.
  erewrite bind_returned by (by apply prometheus_Register_run). by rewrite Hok.
Qed.

Lemma prometheus_MustRegister_panics c ds p e :
  describes c ds -> (Registry_Register (registry p) c ds).2 = Some e ->
  prometheus_MustRegister c p =
  (Panicked e,
   set_registry (Registry_Register (registry p) c ds).1
     (set_world (extend (world p) (EvDesc <$> ds)) p)).
Proof.
  intros Hc Herr. unfold prometheus_MustRegister.
  erewrite bind_returned by (by apply prometheus_Register_run). by rewrite Herr.
Qed.

Lemma instrument_Register_run c ds p :
  describes c ds -> (Registry_Register (registry p) c ds).2 = None ->
  instrument_Register c p =
  (Returned tt,
   set_registry (Registry_Register (registry p) c ds).1
     (set_world (extend (world p) (EvDesc <$> ds)) p)).
Proof.
  intros Hc Hok. unfold instrument_Register.
  erewrite bind_returned by (by apply prometheus_Register_run). by rewrite Hok.
Qed.

Lemma prometheus_Unregister_run c ds p :
  describes c ds ->
  prometheus_Unregister c p =
  (Returned (Registry_Unregister (registry p) ds).2,
   set_registry (Registry_Unregister (registry p) ds).1
     (set_world (extend (world p) (EvDesc <$> ds)) p)).
Proof.
  intros Hc. unfold prometheus_Unregister. rewrite bind_gets_run.
  erewrite bind_returned by (apply on_world_run, Hc).
  rewrite !bind_gets_run, world_set_world, registry_set_world, descs_sent.
  by destruct (Registry_Unregister _ _).
Qed.

(** The library calls of [main.go]. *)
Lemma flag_String_run name value usage p :
  name ∉ (flagSet p).*1 ->
  flag_String name value usage p
  = (Returned name, set_flagSet (flagSet p ++ [(name, value)]) p).
Proof.
  intros Hnew. unfold flag_String. rewrite bind_gets_run.
  by rewrite bool_decide_eq_false_2.
Qed.

Lemma flag_value_run name value p :
  (fun found => found.2.2) <$> list_find (fun e => e.1 = name) (flagSet p) = Some value ->
  flag_value name p = (Returned value, p).
Proof. intros Hfind. unfold flag_value. rewrite bind_gets_run. by rewrite Hfind. Qed.

Lemma http_Handle_run pattern h p :
  pattern <> "" -> pattern ∉ (mux p).*1 ->
  http_Handle pattern h p = (Returned tt, set_mux (mux p ++ [(pattern, h)]) p).
Proof.
  intros Hne Hnew. unfold http_Handle. rewrite bind_gets_run.
  by rewrite !bool_decide_eq_false_2.
Qed.

Lemma http_Handle_empty h p :
  http_Handle "" h p = (Panicked "http: invalid pattern", p).
Proof. reflexivity. Qed.

Lemma os_Getenv_run key p :
  os_Getenv key p
  = (Returned (default "" ((fun found => found.2.2)
                           <$> list_find (fun kv => kv.1 = key) (environ p))), p).
Proof. reflexivity. Qed.

Lemma log_Print_run line p :
  log_Print line p = (Returned tt, set_world (extend (world p) [EvLog (line +:+ nl)]) p).
Proof. reflexivity. Qed.

Lemma log_Fatal_run err p :
  log_Fatal err p
  = (Returned tt,
     set_exit_code (Some 1) (set_world (extend (world p) [EvLog (err +:+ nl)]) p)).
Proof. reflexivity. Qed.

End Rules.

#[export] Hint Rewrite world_set_world registry_set_world world_set_registry
  registry_set_registry set_world_set_registry set_world_set_world
  set_registry_set_registry extend_extend : process_rw.

(** ** The operations on the registry of a list of entries *)

Section OnEntries.
Implicit Types (p : Process) (c : Collector) (entries : list Entry)
  (history descs : list Desc).

Lemma MustRegister_of entries history c descs p :
  describes c descs -> registry p = registry_of entries history ->
  wf_registry entries history -> addable history descs ->
  prometheus_MustRegister c p =
  (Returned tt,
   set_registry (registry_of (entries ++ [(descs, c)]) (history ++ descs))
     (set_world (extend (world p) (EvDesc <$> descs)) p)).
Proof.
  intros Hc Hreg Hwf Hadd.
  rewrite (prometheus_MustRegister_run _ descs), Hreg, Registry_Register_addable; try done.
  by rewrite Hreg, Registry_Register_addable.
Qed.

Lemma instrument_Register_of entries history c descs p :
  describes c descs -> registry p = registry_of entries history ->
  wf_registry entries history -> addable history descs ->
  instrument_Register c p =
  (Returned tt,
   set_registry (registry_of (entries ++ [(descs, c)]) (history ++ descs))
     (set_world (extend (world p) (EvDesc <$> descs)) p)).
Proof.
  intros Hc Hreg Hwf Hadd.
  rewrite (instrument_Register_run _ descs), Hreg, Registry_Register_addable; try done.
  by rewrite Hreg, Registry_Register_addable.
Qed.

(** [MustRegister] of a collector that is among the entries panics. *)
Lemma MustRegister_again entries history c c' descs p :
  describes c descs -> registry p = registry_of entries history ->
  wf_registry entries history -> (descs, c') ∈ entries -> descs ⊆ history ->
  Forall (fun d => desc_err d = None) descs ->
  prometheus_MustRegister c p =
  (Panicked errAlreadyRegistered, set_world (extend (world p) (EvDesc <$> descs)) p).
Proof.
  intros Hc Hreg [Hok Hnd] Hin Hsub Hvalid.
  pose proof Hin as (e1 & e2 & ->)%list_elem_of_split.
  destruct (entries_middle _ _ _ _ _ Hok) as (Hdist & Hne & _).
  assert (Registry_Register (registry p) c descs
          = (registry p, Some errAlreadyRegistered)) as Hagain
    by (rewrite Hreg; by eapply Registry_Register_again).
  rewrite (prometheus_MustRegister_panics _ descs _ errAlreadyRegistered), Hagain;
    [by destruct p|done|by rewrite Hagain].
Qed.

Lemma Unregister_of e1 e2 descs c history p :
  describes c descs -> registry p = registry_of (e1 ++ (descs, c) :: e2) history ->
  wf_registry (e1 ++ (descs, c) :: e2) history ->
  prometheus_Unregister c p =
  (Returned true,
   set_registry (registry_of (e1 ++ e2) history)
     (set_world (extend (world p) (EvDesc <$> descs)) p)).
Proof.
  intros Hc Hreg [Hok _].
  by rewrite (prometheus_Unregister_run _ descs), Hreg, Registry_Unregister_of.
Qed.

End OnEntries.

(** ** A reference instance of [ClientGolang] *)

(** A collector that sends the same descriptors and metrics in every
    world. *)
Definition const_collector (ds : list Desc) (ms : list Metric) : Collector :=
  mkCollector (fun w => (Returned tt, extend w (EvDesc <$> ds)))
              (fun w => (Returned tt, extend w (EvMetric <$> ms))).

Definition ref_build_info (program : string) : Desc :=
  NewDesc (program +:+ "_build_info")
    ("A metric with a constant '1' value labeled by version, revision, branch, and goversion from which "
     +:+ program +:+ " was built.")
    [] [("branch", ""); ("goversion", "go1.17"); ("revision", ""); ("version", "")].

Definition ref_go_descs : list Desc :=
  [NewDesc "go_goroutines" "Number of goroutines that currently exist." [] [];
   NewDesc "go_threads" "Number of OS threads created." [] []].

Definition ref_process_descs : list Desc :=
  [NewDesc "process_cpu_seconds_total"
     "Total user and system CPU time spent in seconds." [] [];
   NewDesc "process_open_fds" "Number of open file descriptors." [] []].

Definition unit_metrics (ds : list Desc) : list Metric :=
  (fun d => mkMetric d GaugeValue f64_one []) <$> ds.

Lemma const_collector_describes ds ms : describes (const_collector ds ms) ds.
Proof. by intros w. Qed.

Lemma const_collector_collects ds : collects (const_collector ds (unit_metrics ds)) ds.
Proof.
  intros w. exists (unit_metrics ds). split; [done|].
  unfold unit_metrics. apply Forall_fmap, Forall_forall. by intros d Hd.
Qed.

#[export] Instance go_client_golang : ClientGolang := {|
  version_NewCollector program :=
    const_collector [ref_build_info program] (unit_metrics [ref_build_info program]);
  collectors_NewGoCollector := const_collector ref_go_descs (unit_metrics ref_go_descs);
  NewProcessCollector := const_collector ref_process_descs (unit_metrics ref_process_descs);
  promhttp_counter :=
    const_collector [requests_total_desc]
      [mkMetric requests_total_desc CounterValue f64_zero ["200"]];
  promhttp_gauge :=
    const_collector [requests_in_flight_desc] (unit_metrics [requests_in_flight_desc]);
  counter_describes := const_collector_describes _ _;
  counter_collects := ltac:(intros w; eexists; split; [done|by repeat constructor]);
  gauge_describes := const_collector_describes _ _;
  gauge_collects := const_collector_collects _;
  build_info := ref_build_info;
  go_descs := ref_go_descs;
  process_descs := ref_process_descs;
  version_describes program := const_collector_describes _ _;
  version_collects program := const_collector_collects _;
  build_info_name program := eq_refl;
  build_info_valid program := NewDesc_valid _ _ _ _;
  go_describes := const_collector_describes _ _;
  go_collects := const_collector_collects _;
  go_names := ltac:(by repeat constructor);
  go_valid := ltac:(by repeat constructor);
  go_distinct := ltac:(apply (bool_decide_unpack _); by vm_compute);
  go_nonempty := ltac:(done);
  process_describes := const_collector_describes _ _;
  process_collects := const_collector_collects _;
  process_names := ltac:(by repeat constructor);
  process_valid := ltac:(by repeat constructor);
  process_distinct := ltac:(apply (bool_decide_unpack _); by vm_compute);
  process_nonempty := ltac:(done);
|}.

(** ** What the server leaves alone *)

(** [keeps f m]: the part [f] of the process is after [m], returned or
    panicked, what it was before. *)
Definition keeps {X A} (f : Process -> X) (m : Go Process A) : Prop :=
  forall p, f (final m p) = f p.

Section Keeps.
Context {X : Type} (f : Process -> X).
Hypothesis f_world : forall w p, f (set_world w p) = f p.

Lemma keeps_ret {A} (a : A) : keeps f (ret a).
Proof. by intros p. Qed.

Lemma keeps_bind {A B} (m : Go Process A) (k : A -> Go Process B) :
  keeps f m -> (forall a, keeps f (k a)) -> keeps f (bind m k).
Proof.
  intros Hm Hk p. specialize (Hm p). unfold final, bind in *.
  destruct (m p) as [[a|msg] p']; [|done]. rewrite <- Hm. apply Hk.
Qed.

Lemma keeps_gets {A B} (g : Process -> A) (k : A -> Go Process B) :
  (forall a, keeps f (k a)) -> keeps f (bind (gets g) k).
Proof. intros Hk p. apply Hk. Qed.

Lemma keeps_on_world {A} (m : Go World A) : keeps f (on_world m).
Proof.
  intros p. unfold final, on_world, focus. destruct (m (world p)) as [r w'].
  apply f_world.
Qed.

Lemma keeps_collect_all cs : keeps f (collect_all cs).
Proof.
  induction cs as [|c cs IH]; [apply keeps_ret|].
  apply keeps_bind; [apply keeps_on_world|done].
Qed.

Lemma keeps_Gather : keeps f Gather.
Proof. apply keeps_gets. intros r. apply keeps_collect_all. Qed.

Lemma keeps_serve_request path : keeps f (serve_request path).
Proof.
  apply keeps_gets. intros m. destruct (mux_handler m path) as [[]|];
    [apply keeps_Gather|apply keeps_ret].
Qed.

Lemma keeps_serve_all paths : keeps f (serve_all paths).
Proof.
  induction paths as [|path paths IH]; [apply keeps_ret|].
  apply keeps_bind; [apply keeps_serve_request|done].
Qed.

End Keeps.

Section Server.
Implicit Types (p : Process).

Lemma bind_error_set_listening l p : bind_error (set_listening l p) = bind_error p.
Proof. by destruct p. Qed.

Lemma ListenAndServe_bind_error addr p e :
  bind_error p = Some e ->
  http_ListenAndServe addr p = (Returned e, set_listening (listening p ++ [addr]) p).
Proof.
  intros Hb. unfold http_ListenAndServe. rewrite bind_modify_run, bind_gets_run.
  by rewrite bind_error_set_listening, Hb.
Qed.

Lemma ListenAndServe_serving addr p :
  bind_error p = None ->
  http_ListenAndServe addr p =
  (serve_all (incoming p) ;; ret errServerClosed)
    (set_incoming [] (set_listening (listening p ++ [addr]) p)).
Proof.
  intros Hb. unfold http_ListenAndServe. rewrite bind_modify_run, bind_gets_run.
  rewrite bind_error_set_listening, Hb.
  by rewrite bind_gets_run, bind_modify_run.
Qed.

(** The server listens on the address it is given and leaves the mux
    and the flags as they are, whatever it serves and however it ends. *)
Lemma ListenAndServe_keeps addr p :
  let p' := final (http_ListenAndServe addr) p in
  listening p' = listening p ++ [addr] /\ mux p' = mux p /\ flagSet p' = flagSet p /\
  registry p' = registry p /\ exit_code p' = exit_code p.
Proof.
  destruct (bind_error p) as [e|] eqn:Hb; unfold final.
  { by rewrite (ListenAndServe_bind_error _ _ e). }
  rewrite ListenAndServe_serving by done.
  set (p1 := set_incoming [] (set_listening (listening p ++ [addr]) p)).
  assert (forall X (f : Process -> X), (forall w q, f (set_world w q) = f q) ->
          f (final (serve_all (incoming p) ;; ret errServerClosed) p1) = f p1) as Hk.
  { intros X f Hf. apply (keeps_bind f); [by apply keeps_serve_all|].
    intros _. apply keeps_ret. }
  unfold final in Hk. repeat split; by rewrite Hk.
Qed.

End Server.

(** ** Serving a scrape *)

Section Scrape.
Implicit Types (p : Process) (c : Collector) (w : World).

Lemma metrics_fmap (ms : list Metric) : metrics (EvMetric <$> ms) = ms.
Proof. induction ms as [|m ms IH]; [done|]. by rewrite <- IH at 2. Qed.

(** A collector that only sends metrics, run in a world. *)
Lemma collects_run c ds w :
  collects c ds ->
  coll_Collect c w = (Returned tt, extend w (EvMetric <$> sent (coll_Collect c) w)).
Proof.
  intros Hc. destruct (Hc w) as (ms & Hrun & _). unfold sent.
  by rewrite (new_events_run _ _ _ _ Hrun), metrics_fmap.
Qed.

Lemma collect_all_cons c cs p :
  collect_all (c :: cs) p = (on_world (coll_Collect c) ;; collect_all cs) p.
Proof. reflexivity. Qed.

Lemma collect_all_collects c ds cs p :
  collects c ds ->
  collect_all (c :: cs) p =
  collect_all cs (set_world (extend (world p) (EvMetric <$> sent (coll_Collect c) (world p))) p).
Proof.
  intros Hc. rewrite collect_all_cons.
  by erewrite bind_returned by (by eapply on_world_run, collects_run).
Qed.

Lemma collects_sent c ds w :
  collects c ds -> Forall (fun m => metric_desc m ∈ ds) (sent (coll_Collect c) w).
Proof.
  intros Hc. destruct (Hc w) as (ms & Hrun & Hms). unfold sent.
  by rewrite (new_events_run _ _ _ _ Hrun), metrics_fmap.
Qed.

(** Collectors that only send metrics, run before the others. *)
Lemma collect_all_libs libs dss cs p :
  Forall2 collects libs dss ->
  collect_all (libs ++ cs) p =
  collect_all cs (set_world (extend (world p) (EvMetric <$> lib_metrics libs (world p))) p).
Proof.
  intros Hlibs. revert p. induction Hlibs as [|c ds libs dss Hc _ IH]; intros p.
  { simpl. rewrite extend_nil. by destruct p. }
  simpl app. rewrite (collect_all_collects _ _ _ _ Hc), IH.
  autorewrite with process_rw. simpl lib_metrics. by rewrite fmap_app.
Qed.

(** Every metric they send has one of their descriptors. *)
Lemma lib_metrics_descs libs dss w :
  Forall2 collects libs dss ->
  Forall (fun m => metric_desc m ∈ concat dss) (lib_metrics libs w).
Proof.
  intros Hlibs. revert w. induction Hlibs as [|c ds libs dss Hc _ IH]; intros w;
    [done|].
  simpl. apply Forall_app. split.
  - eapply Forall_impl; [by apply collects_sent|]. intros m Hm. apply elem_of_app. by left.
  - eapply Forall_impl; [apply IH|]. intros m Hm. apply elem_of_app. by right.
Qed.

(** The last collector of a scrape decides how the scrape ends. *)
Lemma collect_all_last c p : collect_all [c] p = on_world (coll_Collect c) p.
Proof.
  rewrite collect_all_cons. unfold bind.
  by destruct (on_world (coll_Collect c) p) as [[[]|msg] p'].
Qed.

(** A request for the one pattern of the mux is a scrape; a request for
    any other path is answered without one. *)
Lemma serve_request_scrape pattern p :
  mux p = [(pattern, PromHandler)] -> serve_request pattern p = Gather p.
Proof.
  intros Hm. unfold serve_request. rewrite bind_gets_run, Hm.
  unfold mux_handler, pattern_matches.
  rewrite filter_cons_True; [done|]. simpl. by rewrite bool_decide_eq_true_2.
Qed.

Lemma serve_request_other pattern path p :
  mux p = [(pattern, PromHandler)] -> is_subtree pattern = false -> path <> pattern ->
  serve_request path p = (Returned tt, p).
Proof.
  intros Hm Hsub Hpath. unfold serve_request. rewrite bind_gets_run, Hm.
  unfold mux_handler, pattern_matches.
  rewrite filter_cons_False; [done|]. simpl.
  rewrite bool_decide_eq_false_2, Hsub; [done|congruence].
Qed.

End Scrape.
