(* ===== verification/Main.v ===== *)
(** * Main: [Register] and the program of [main.go]

    [Register] ([ttn_exporter.go] lines 181-186) builds the collector
    and changes the default registry; [serverMetrics] and [main]
    ([main.go]) put the handler of [promhttp] at the metrics path, read
    the token and the gateway from the environment, call [Register] and
    serve.  The two flags are package variables initialised by
    [flag.String] before [main] runs ([vars]); [program] is the
    initialisation followed by [main].  The state is the [Process].

    [Register] is run from any registry that holds the Go collector and
    has not seen the names of the exporter ([Register_run]); the
    registry the program has at that point is the default one after
    [promhttp.Handler] has registered its counter and its gauge.  The
    program is run up to the server ([program_ready]), then request by
    request ([served]): a scrape runs the four collectors of the
    library, which only send metrics, and then [Collect]. *)

From S2P Require Import Prelude GoMonad Float64 Strconv Json Prometheus.
From S2P Require Import Stats Http Runtime Collector Registry Process.
From S2P Require Import StrconvRef JsonRef.

#[local] Open Scope Z_scope.

Section Program.
Context `{Strconv} `{JsonSyntax} `{TimeFormat} `{NetUrl} `{ClientGolang}.

(** ** The exporter package *)

(** A [*ttnCollector] as a [prometheus.Collector]: its two methods. *)
Definition ttn_Collector (collector : ttnCollector) : Collector :=
  mkCollector (Describe collector) (Collect collector).

Definition Register (apiToken gateway : string) : Go Process unit :=
  let collector := newTtnCollector apiToken gateway in
  prometheus_MustRegister (version_NewCollector "ttn_exporter") ;;
  prometheus_MustRegister (ttn_Collector collector) ;;
  _ <- prometheus_Unregister collectors_NewGoCollector ;;
  ret tt.

(** ** The main package *)

(** The package variables: the pointers [flag.String] returns. *)
Record Vars : Type := mkVars {
  listenAddress : string;
  metricPath : string;
}.

Definition vars : Go Process Vars :=
  listenAddress <- flag_String "web.listen-address" ":9101"
                     "Address to listen on for web interface." ;;
  metricPath <- flag_String "web.metrics-path" "/metrics"
                  "Path under which to expose metrics." ;;
  ret (mkVars listenAddress metricPath).

Definition serverMetrics (listenAddress metricsPath : string) : Go Process error :=
  handler <- promhttp_Handler ;;
  http_Handle metricsPath handler ;;
  apiToken <- os_Getenv "TTN_TOKEN" ;;
  gwName <- os_Getenv "TTN_GATEWAY_NAME" ;;
  Register apiToken gwName ;;
  http_ListenAndServe listenAddress.

Definition main (v : Vars) : Go Process unit :=
  log_Print "Starting ttn_exporter" ;;
  listenAddress <- flag_value (listenAddress v) ;;
  metricPath <- flag_value (metricPath v) ;;
  err <- serverMetrics listenAddress metricPath ;;
  log_Fatal err.

(** The process from its start: the package variables, then [main]. *)
Definition program : Go Process unit :=
  v <- vars ;;
  main v.

(** The process before any of its code has run. *)
Definition start (transport : nat -> Request -> DoResult) (args : list string)
  (environ : list (string * string)) (bind_error : option error)
  (incoming : list string) : Process :=
  mkProcess (mkWorld transport []) default_registry [] [] args environ bind_error
    incoming [] None.

End Program.

(** ** [Register] *)

Section Register.
Context `{Strconv} `{JsonSyntax} `{TimeFormat} `{NetUrl} `{ClientGolang}.
Implicit Types (p : Process) (c : ttnCollector) (before after : list Entry)
  (history : list Desc).

(** What [Describe] sends: the collector as the registry knows it. *)
Definition advertised c : list Desc := [up c; uplinkCount c; downlinkCount c].

Lemma ttn_describes c : describes (ttn_Collector c) (advertised c).
Proof. intros w. apply Describe_run. Qed.

(** The collectors the program meets, each with what it describes. *)
Definition version_descs : list Desc := [build_info "ttn_exporter"].
Definition handler_descs : list Desc := [requests_total_desc; requests_in_flight_desc].

Definition process_entry : Entry := (process_descs, NewProcessCollector).
Definition go_entry : Entry := (go_descs, collectors_NewGoCollector).
Definition counter_entry : Entry := ([requests_total_desc], promhttp_counter).
Definition gauge_entry : Entry := ([requests_in_flight_desc], promhttp_gauge).
Definition version_entry : Entry := (version_descs, version_NewCollector "ttn_exporter").
Definition ttn_entry c : Entry := (advertised c, ttn_Collector c).

(** The names [Register] adds to a registry. *)
Definition exporter_names : list string :=
  ["ttn_exporter_build_info"; "ttn_up"; "ttn_uplink_count"; "ttn_downlink_count"].

(** The registry after [Register], from one that held the entries
    [before], the Go collector and the entries [after]. *)
Definition registered before after c : list Entry :=
  before ++ after ++ [version_entry; ttn_entry c].

Definition registered_history history c : list Desc :=
  (history ++ version_descs) ++ advertised c.

Lemma version_names : names_of version_descs = ["ttn_exporter_build_info"].
Proof. unfold version_descs, names_of. simpl. by rewrite build_info_name. Qed.

Lemma version_valid : Forall (fun d => desc_err d = None) version_descs.
Proof. repeat constructor. by apply build_info_valid. Qed.

Lemma advertised_names apiToken gateway :
  names_of (advertised (newTtnCollector apiToken gateway))
  = ["ttn_up"; "ttn_uplink_count"; "ttn_downlink_count"].
Proof. reflexivity. Qed.

Section From.
Context (before after : list Entry) (history : list Desc).
Context (apiToken gateway : string).
Hypothesis registry_wf : wf_registry (before ++ go_entry :: after) history.
Hypothesis names_fresh : forall n, n ∈ exporter_names -> n ∉ names_of history.
Abbreviation c := (newTtnCollector apiToken gateway).

Lemma version_addable : addable history version_descs.
Proof.
  split; [done|apply version_valid| |]; rewrite version_names.
  - apply NoDup_singleton.
  - intros n ->%list_elem_of_singleton. apply names_fresh. by left.
Qed.

Lemma ttn_addable : addable (history ++ version_descs) (advertised c).
Proof.
  split; [done|by repeat constructor| |]; rewrite advertised_names.
  - apply (bool_decide_unpack _). by vm_compute.
  - intros n Hn. rewrite names_of_app, version_names, not_elem_of_app. split.
    + apply names_fresh. by right.
    + revert n Hn. apply Forall_forall, (bool_decide_unpack _). by vm_compute.
Qed.

Lemma with_go_wf :
  wf_registry (before ++ go_entry :: after ++ [version_entry; ttn_entry c])
    (registered_history history c).
Proof.
  assert (before ++ go_entry :: after ++ [version_entry; ttn_entry c]
          = ((before ++ go_entry :: after) ++ [version_entry]) ++ [ttn_entry c]) as ->
    by (by rewrite <- !app_assoc).
  apply wf_registry_add; [|apply ttn_addable].
  apply wf_registry_add; [done|apply version_addable].
Qed.

Lemma registered_wf : wf_registry (registered before after c) (registered_history history c).
Proof. exact (wf_registry_remove _ _ _ _ _ with_go_wf). Qed.

(** One call of [Register]: the version collector and the collector of
    the exporter are added, the Go collector is removed, and the
    descriptors the three described have gone through the world. *)
Lemma Register_run p :
  registry p = registry_of (before ++ go_entry :: after) history ->
  Register apiToken gateway p =
  (Returned tt,
   set_registry (registry_of (registered before after c) (registered_history history c))
     (set_world
        (extend (world p) (EvDesc <$> (version_descs ++ advertised c ++ go_descs))) p)).
Proof.
  intros Hreg. unfold Register.
  erewrite bind_returned
    by (by eapply MustRegister_of; [apply version_describes|..|apply version_addable]).
  erewrite bind_returned
    by (eapply MustRegister_of;
        [apply ttn_describes|done|by apply wf_registry_add, version_addable
        |apply ttn_addable]).
  erewrite bind_returned.
  2:{ apply (Unregister_of before (after ++ [version_entry; ttn_entry c]) go_descs _
               (registered_history history c)); [apply go_describes| |].
      - autorewrite with process_rw. f_equal.
        by rewrite <- (app_assoc _ [_] [_]), <- app_assoc.
      - apply with_go_wf. }
  unfold ret. autorewrite with process_rw. by rewrite !fmap_app.
Qed.

(** A call of [Register] after the first panics in its first
    [MustRegister]: the version collector is registered already. *)
Lemma Register_again apiToken' gateway' p :
  registry p = registry_of (registered before after c) (registered_history history c) ->
  Register apiToken' gateway' p =
  (Panicked errAlreadyRegistered, set_world (extend (world p) (EvDesc <$> version_descs)) p).
Proof.
  intros Hreg. unfold Register. erewrite bind_panicked; [done|].
  eapply (MustRegister_again _ _ _ (version_NewCollector "ttn_exporter"));
    [apply version_describes|done|apply registered_wf| | |apply version_valid].
  - unfold registered. rewrite !elem_of_app. right. right. by left.
  - intros d Hd. unfold registered_history. rewrite !elem_of_app. left. by right.
Qed.

End From.

(** *** The registry when the program calls [Register] *)

Lemma process_headed : headed "p" process_descs.
Proof. eapply headed_prefix, process_names. Qed.

Lemma go_headed : headed "g" go_descs.
Proof. eapply headed_prefix, go_names. Qed.

(** The registry a program starts with holds the process collector and
    the Go collector. *)
Lemma default_wf :
  wf_registry [process_entry; go_entry] (process_descs ++ go_descs) /\
  default_registry = registry_of [process_entry; go_entry] (process_descs ++ go_descs).
Proof.
  assert (addable [] process_descs) as Hproc.
  { split; [apply process_nonempty|apply process_valid|apply process_distinct|].
    intros n _. apply not_elem_of_nil. }
  assert (addable ([] ++ process_descs) go_descs) as Hgo.
  { split; [apply go_nonempty|apply go_valid|apply go_distinct|].
    intros n Hn. by eapply headed_disjoint; [|apply go_headed|apply process_headed|]. }
  pose proof (wf_registry_add [] [] NewProcessCollector _ wf_registry_nil Hproc) as Hwf.
  split; [by apply (wf_registry_add _ _ collectors_NewGoCollector _ Hwf)|].
  unfold default_registry. change empty_registry with (registry_of [] []).
  rewrite Registry_Register_addable by (done || apply wf_registry_nil).
  simpl fst. by rewrite Registry_Register_addable.
Qed.

(** The names of the handler and of the exporter are not those of the
    process collector or of the Go collector. *)
Lemma library_fresh n :
  n ∈ names_of handler_descs ++ exporter_names ->
  n ∉ names_of (process_descs ++ go_descs).
Proof.
  intros Hn.
  assert (String.prefix "process_" n = false /\ String.prefix "go_" n = false)
    as [Hp Hg]
    by (revert n Hn; apply Forall_forall, (bool_decide_unpack _); by vm_compute).
  rewrite names_of_app, not_elem_of_app.
  split; eapply prefixed_not_name; [apply process_names|done|apply go_names|done].
Qed.

Definition handler_history : list Desc := (process_descs ++ go_descs) ++ handler_descs.

Lemma counter_addable : addable (process_descs ++ go_descs) [requests_total_desc].
Proof.
  split; [done|by repeat constructor|apply NoDup_singleton|].
  intros n ->%list_elem_of_singleton. apply library_fresh. by left.
Qed.

Lemma gauge_addable :
  addable ((process_descs ++ go_descs) ++ [requests_total_desc]) [requests_in_flight_desc].
Proof.
  split; [done|by repeat constructor|apply NoDup_singleton|].
  intros n ->%list_elem_of_singleton. rewrite names_of_app, not_elem_of_app. split.
  - apply library_fresh. right. by left.
  - by intros ?%list_elem_of_singleton.
Qed.

Lemma handler_wf :
  wf_registry ([process_entry] ++ go_entry :: [counter_entry; gauge_entry]) handler_history.
Proof.
  destruct default_wf as [Hwf _].
  pose proof (wf_registry_add _ _ promhttp_counter _ Hwf counter_addable) as Hc.
  pose proof (wf_registry_add _ _ promhttp_gauge _ Hc gauge_addable) as Hg.
  unfold handler_history, handler_descs.
  rewrite <- (app_assoc (process_descs ++ go_descs)) in Hg. exact Hg.
Qed.

Lemma handler_fresh n : n ∈ exporter_names -> n ∉ names_of handler_history.
Proof.
  intros Hn. unfold handler_history. rewrite names_of_app, not_elem_of_app. split.
  - apply library_fresh, elem_of_app. by right.
  - revert n Hn. apply Forall_forall, (bool_decide_unpack _). by vm_compute.
Qed.

(** [promhttp.Handler()] in a process that starts: the counter and the
    gauge of the handler are registered. *)
Lemma promhttp_Handler_run p :
  registry p = default_registry ->
  promhttp_Handler p =
  (Returned PromHandler,
   set_registry
     (registry_of ([process_entry] ++ go_entry :: [counter_entry; gauge_entry])
        handler_history)
     (set_world (extend (world p) (EvDesc <$> handler_descs)) p)).
Proof.
  intros Hreg. destruct default_wf as [Hwf Hdef]. unfold promhttp_Handler.
  erewrite bind_returned
    by (eapply instrument_Register_of;
        [apply counter_describes|by rewrite Hreg, Hdef|done|apply counter_addable]).
  erewrite bind_returned
    by (eapply instrument_Register_of;
        [apply gauge_describes|done|by apply wf_registry_add, counter_addable
        |apply gauge_addable]).
  unfold ret, handler_history, handler_descs. autorewrite with process_rw.
  by rewrite <- (app_assoc (process_descs ++ go_descs)).
Qed.

End Register.

(** ** The program up to the server *)

Section Startup.
Context `{Strconv} `{JsonSyntax} `{TimeFormat} `{NetUrl} `{ClientGolang}.
Implicit Types (p : Process).

(** [os.Getenv] as a function of the environment. *)
Definition getenv (environ : list (string * string)) (key : string) : string :=
  default "" ((fun found => found.2.2) <$> list_find (fun kv => kv.1 = key) environ).

(** The collector the program registers. *)
Definition the_collector (environ : list (string * string)) : ttnCollector :=
  newTtnCollector (getenv environ "TTN_TOKEN") (getenv environ "TTN_GATEWAY_NAME").

Definition the_flags : list (string * string) :=
  [("web.listen-address", ":9101"); ("web.metrics-path", "/metrics")].

(** What the program has logged and described when it calls
    [Register], and when it calls the server. *)
Definition before_Register_events : list Event :=
  EvLog ("Starting ttn_exporter" +:+ nl) :: (EvDesc <$> handler_descs).

Definition ready_events (environ : list (string * string)) : list Event :=
  before_Register_events
  ++ (EvDesc <$> (version_descs ++ advertised (the_collector environ) ++ go_descs)).

(** The process when [serverMetrics] calls [Register]. *)
Definition before_Register (p0 : Process) : Process :=
  mkProcess (extend (world p0) before_Register_events)
    (registry_of ([process_entry] ++ go_entry :: [counter_entry; gauge_entry])
       handler_history)
    [("/metrics", PromHandler)] the_flags (args p0) (environ p0)
    (bind_error p0) (incoming p0) (listening p0) (exit_code p0).

(** The process when [serverMetrics] calls [http.ListenAndServe]. *)
Definition ready (p0 : Process) : Process :=
  let c := the_collector (environ p0) in
  mkProcess (extend (world p0) (ready_events (environ p0)))
    (registry_of (registered [process_entry] [counter_entry; gauge_entry] c)
       (registered_history handler_history c))
    [("/metrics", PromHandler)] the_flags (args p0) (environ p0)
    (bind_error p0) (incoming p0) (listening p0) (exit_code p0).

(** A process that has not run any of its code. *)
Definition fresh (p0 : Process) : Prop :=
  registry p0 = default_registry /\ mux p0 = [] /\ flagSet p0 = [].

Lemma vars_run p :
  flagSet p = [] ->
  vars p = (Returned (mkVars "web.listen-address" "web.metrics-path"),
            set_flagSet the_flags p).
Proof.
  intros Hf. unfold vars.
  erewrite bind_returned by (apply flag_String_run; rewrite Hf; apply not_elem_of_nil).
  erewrite bind_returned
    by (apply flag_String_run; rewrite Hf; simpl;
        by intros ?%list_elem_of_singleton).
  by rewrite Hf.
Qed.

Lemma program_before_Register p0 :
  fresh p0 ->
  program p0 =
  (Register (getenv (environ p0) "TTN_TOKEN") (getenv (environ p0) "TTN_GATEWAY_NAME") ;;
   err <- http_ListenAndServe ":9101" ;;
   log_Fatal err) (before_Register p0).
Proof.
  intros (Hr & Hm & Hf). unfold program, main, serverMetrics.
  erewrite bind_returned by (by apply vars_run).
  erewrite bind_returned by apply log_Print_run.
  erewrite bind_returned by (by apply (flag_value_run _ ":9101")).
  erewrite bind_returned by (by apply (flag_value_run _ "/metrics")).
  rewrite (bind_assoc _ _ _ _).
  erewrite bind_returned by (by apply promhttp_Handler_run).
  rewrite (bind_assoc _ _ _ _).
  erewrite bind_returned
    by (apply http_Handle_run; [done|simpl; rewrite Hm; apply not_elem_of_nil]).
  rewrite (bind_assoc _ _ _ _). erewrite bind_returned by apply os_Getenv_run.
  rewrite (bind_assoc _ _ _ _). erewrite bind_returned by apply os_Getenv_run.
  rewrite (bind_assoc _ _ _ _). simpl mux. rewrite Hm.
  unfold before_Register, before_Register_events. autorewrite with process_rw.
  by destruct p0.
Qed.

Lemma program_ready p0 :
  fresh p0 ->
  program p0 = (err <- http_ListenAndServe ":9101" ;; log_Fatal err) (ready p0).
Proof.
  intros Hfresh. rewrite program_before_Register by done.
  erewrite bind_returned
    by (by apply (Register_run [process_entry] [counter_entry; gauge_entry]
                    handler_history _ _ handler_wf handler_fresh)).
  unfold ready, ready_events, before_Register, set_registry, set_world. simpl.
  by rewrite extend_extend.
Qed.

Lemma ready_events_silent environ : Forall silent (ready_events environ).
Proof.
  apply Forall_app. split; [|apply silent_descs].
  constructor; [done|apply silent_descs].
Qed.

End Startup.

(** ** The server: scrapes *)

Section Serving.
Context `{Strconv} `{JsonSyntax} `{TimeFormat} `{NetUrl} `{ClientGolang}.
Implicit Types (p : Process) (c : ttnCollector) (w : World).

(** The collectors of the library that a scrape runs before the one of
    the exporter, and what they send in a scrape that starts in [w]. *)
Definition libs : list Collector :=
  [NewProcessCollector; promhttp_counter; promhttp_gauge;
   version_NewCollector "ttn_exporter"].

Definition library_metrics w : list Metric := lib_metrics libs w.

Lemma libs_collect :
  Forall2 collects libs
    [process_descs; [requests_total_desc]; [requests_in_flight_desc]; version_descs].
Proof.
  repeat constructor;
    [apply process_collects|apply counter_collects|apply gauge_collects
    |apply version_collects].
Qed.

(** The world in which the scrape reaches [Collect] of the exporter. *)
Definition at_Collect w : World := extend w (EvMetric <$> library_metrics w).

(** What the transport answers to the next scrape. *)
Definition scrape_answer c w : DoResult :=
  transport w (round_trips (trace w)) (scrape_request c).

(** The events of one scrape. *)
Definition scrape_trace c w : list Event :=
  (EvMetric <$> library_metrics w)
  ++ scrape_events c (round_trips (trace w)) (scrape_answer c w).

(** [serving c p]: the mux and what the registry gathers are as
    [serverMetrics] leaves them when it calls the server. *)
Definition serving c p : Prop :=
  mux p = [("/metrics", PromHandler)] /\
  gathered (registry p) = libs ++ [ttn_Collector c].

(** The world after the requests [paths], and how serving them ends: a
    scrape for each request of the pattern, up to the first scrape that
    panics. *)
Fixpoint served c (paths : list string) (w : World) : result unit * World :=
  match paths with
  | [] => (Returned tt, w)
  | path :: paths' =>
      if bool_decide (path = "/metrics")
      then match scrape_answer c w with
           | DoErr _ => (Panicked nil_dereference, extend w (scrape_trace c w))
           | _ => served c paths' (extend w (scrape_trace c w))
           end
      else served c paths' w
  end.

Lemma at_Collect_wf w : wf_world w -> wf_world (at_Collect w).
Proof. intros Hwf. apply silent_wf, silent_metrics. done. Qed.

Lemma at_Collect_round_trips w :
  round_trips (trace (at_Collect w)) = round_trips (trace w).
Proof. apply silent_round_trips, silent_metrics. Qed.

Lemma scrape_trace_wf c w : wf_world w -> wf_world (extend w (scrape_trace c w)).
Proof.
  intros Hwf. unfold scrape_trace. rewrite <- extend_extend.
  rewrite <- at_Collect_round_trips. by apply scrape_events_wf, at_Collect_wf.
Qed.

Lemma Gather_run c p :
  gathered (registry p) = libs ++ [ttn_Collector c] ->
  Gather p = on_world (Collect c) (set_world (at_Collect (world p)) p).
Proof.
  intros Hreg. unfold Gather. rewrite bind_gets_run, Hreg.
  by rewrite (collect_all_libs _ _ _ _ libs_collect), collect_all_last.
Qed.

(** One scrape of a process that serves. *)
Lemma scrape_run c p :
  serving c p -> wf_world (world p) -> sound c ->
  url_parses (stats_url (gateway c)) = true ->
  serve_request "/metrics" p =
  (scrape_result (scrape_answer c (world p)),
   set_world (extend (world p) (scrape_trace c (world p))) p).
Proof.
  intros [Hm Hreg] Hwf Hc Hurl.
  rewrite serve_request_scrape, (Gather_run c) by done.
  erewrite on_world_run;
    [|autorewrite with process_rw; apply Collect_run; [by apply at_Collect_wf|done..]].
  cbv zeta. rewrite at_Collect_round_trips. autorewrite with process_rw.
  unfold at_Collect at 2. by rewrite extend_extend.
Qed.

Lemma serving_set_world c w p : serving c p -> serving c (set_world w p).
Proof. done. Qed.

(** The requests of the server, one after the other. *)
Lemma serve_all_run c paths p :
  serving c p -> wf_world (world p) -> sound c ->
  url_parses (stats_url (gateway c)) = true ->
  serve_all paths p =
  ((served c paths (world p)).1, set_world (served c paths (world p)).2 p).
Proof.
  intros Hs Hwf Hc Hurl. revert p Hs Hwf.
  induction paths as [|path paths IH]; intros p Hs Hwf; [by destruct p|].
  simpl. case_bool_decide as Hpath.
  - subst path. pose proof (scrape_run c p Hs Hwf Hc Hurl) as Hrun.
    destruct (scrape_answer c (world p)) eqn:Hans; simpl in Hrun;
      [|by rewrite (bind_panicked _ _ _ _ _ Hrun)|];
      rewrite (bind_returned _ _ _ _ _ Hrun), IH;
      [done|by apply serving_set_world|by apply scrape_trace_wf
      |done|by apply serving_set_world|by apply scrape_trace_wf].
  - destruct Hs as [Hm Hreg].
    erewrite bind_returned by (by apply (serve_request_other "/metrics")).
    by apply IH.
Qed.

End Serving.

(** ** The program as a whole *)

Section Run.
Context `{Strconv} `{JsonSyntax} `{TimeFormat} `{NetUrl} `{ClientGolang}.
Implicit Types (p : Process) (c : ttnCollector) (w : World).

(** The number of scrapes among the requests. *)
Definition scrapes (paths : list string) : nat :=
  length (filter (fun path => path = "/metrics") paths).

(** The process when the server has taken its requests. *)
Definition listening_process (p0 : Process) : Process :=
  set_incoming [] (set_listening (listening p0 ++ [":9101"]) (ready p0)).

Lemma the_collector_sound environ : sound (the_collector environ).
Proof. unfold sound. by repeat constructor. Qed.

Lemma ready_wf p0 : wf_world (world p0) -> wf_world (world (ready p0)).
Proof. intros Hwf. apply silent_wf; [done|apply ready_events_silent]. Qed.

Lemma ready_round_trips p0 :
  round_trips (trace (world (ready p0))) = round_trips (trace (world p0)).
Proof. apply silent_round_trips, ready_events_silent. Qed.

Lemma ready_serving p0 : serving (the_collector (environ p0)) (ready p0).
Proof. split; [done|]. apply gathered_registry_of. Qed.

(** The program from start to end: the requests are served, and when
    the server stops the error is logged and the process exits with 1;
    a scrape that panics ends the program there. *)
Lemma program_run p0 :
  fresh p0 -> wf_world (world p0) -> bind_error p0 = None ->
  url_parses (stats_url (getenv (environ p0) "TTN_GATEWAY_NAME")) = true ->
  program p0 =
  match served (the_collector (environ p0)) (incoming p0) (world (ready p0)) with
  | (Returned _, w) =>
      (Returned tt,
       set_exit_code (Some 1)
         (set_world (extend w [EvLog (errServerClosed +:+ nl)]) (listening_process p0)))
  | (Panicked msg, w) => (Panicked msg, set_world w (listening_process p0))
  end.
Proof.
  intros Hfresh Hwf Hbind Hurl. rewrite program_ready by done.
  pose proof (serve_all_run (the_collector (environ p0)) (incoming p0)
    (listening_process p0) (ready_serving p0) (ready_wf p0 Hwf)
    (the_collector_sound _) Hurl) as Hrun.
  change (world (listening_process p0)) with (world (ready p0)) in Hrun.
  destruct (served _ _ _) as [[[]|msg] w]; simpl in Hrun.
  - rewrite (bind_returned _ _ _ errServerClosed (set_world w (listening_process p0)));
      [by rewrite log_Fatal_run|].
    rewrite ListenAndServe_serving by done.
    by erewrite bind_returned by exact Hrun.
  - rewrite (bind_panicked _ _ _ msg (set_world w (listening_process p0))); [done|].
    rewrite ListenAndServe_serving by done.
    by erewrite bind_panicked by exact Hrun.
Qed.

(** The server cannot listen: the error is logged and the process
    exits, with no request served. *)
Lemma program_bind_error_run p0 e :
  fresh p0 -> bind_error p0 = Some e ->
  program p0 =
  (Returned tt,
   set_exit_code (Some 1)
     (set_world (extend (world (ready p0)) [EvLog (e +:+ nl)])
        (set_listening (listening p0 ++ [":9101"]) (ready p0)))).
Proof.
  intros Hfresh Hbind. rewrite program_ready by done.
  rewrite (bind_returned _ _ _ e (set_listening (listening p0 ++ [":9101"]) (ready p0)));
    [by rewrite log_Fatal_run|].
  by apply (ListenAndServe_bind_error _ (ready p0)).
Qed.

Section Served.
Context (c : ttnCollector).

Lemma scrape_trace_round_trips w :
  round_trips (trace (extend w (scrape_trace c w))) = S (round_trips (trace w)).
Proof.
  unfold scrape_trace. rewrite <- extend_extend. simpl.
  rewrite scrape_events_round_trips. f_equal. apply at_Collect_round_trips.
Qed.

Lemma scrape_trace_requests w :
  requests (scrape_trace c w) = [(scrape_client, scrape_request c)].
Proof.
  unfold scrape_trace, scrape_events. rewrite requests_app.
  rewrite (silent_requests _ (silent_metrics _)). simpl.
  change (requests (?e :: ?l)) with ((scrape_client, scrape_request c) :: requests l).
  by rewrite after_round_trip_requests.
Qed.

Lemma served_transport paths w : transport (served c paths w).2 = transport w.
Proof.
  revert w. induction paths as [|path paths IH]; intros w; [done|]. simpl.
  case_bool_decide; [|apply IH].
  destruct (scrape_answer c w); [|done|]; by rewrite IH.
Qed.

(** A scrape that the transport answers with an error ends serving. *)
Lemma served_scrape_error paths w e :
  scrape_answer c w = DoErr e ->
  served c ("/metrics" :: paths) w =
  (Panicked nil_dereference,
   extend w ((EvMetric <$> library_metrics w)
             ++ [EvRoundTrip scrape_client (scrape_request c);
                 EvLog (response_error_line e)])).
Proof.
  intros Hans. simpl served. unfold scrape_trace, scrape_events. by rewrite Hans.
Qed.

(** The answers of the transport to the next [n] scrapes, and whether
    none of them is an error without a response. *)
Definition answers w (n : nat) : list DoResult :=
  (fun k => transport w (round_trips (trace w) + k) (scrape_request c)) <$> seq 0 n.

Definition is_DoErr (answer : DoResult) : bool :=
  match answer with DoErr _ => true | _ => false end.

Definition survives w (n : nat) : bool :=
  forallb (fun answer => negb (is_DoErr answer)) (answers w n).

Lemma answers_S w n :
  answers w (S n) = scrape_answer c w :: answers (extend w (scrape_trace c w)) n.
Proof.
  unfold answers. rewrite scrape_trace_round_trips. simpl seq. rewrite fmap_cons.
  unfold scrape_answer. rewrite Nat.add_0_r. f_equal.
  rewrite <- fmap_S_seq, <- list_fmap_compose. apply list_fmap_ext.
  intros _ k _. simpl. f_equal. lia.
Qed.

(** The answers depend on the transport and on the round trips done. *)
Lemma answers_same w w' n :
  transport w' = transport w -> round_trips (trace w') = round_trips (trace w) ->
  answers w' n = answers w n.
Proof. unfold answers. by intros -> ->. Qed.

Lemma scrapes_cons path paths :
  scrapes (path :: paths) =
  if bool_decide (path = "/metrics") then S (scrapes paths) else scrapes paths.
Proof. unfold scrapes. rewrite filter_cons. by case_bool_decide; case_decide. Qed.

(** Serving ends well exactly when no scrape is answered by an error
    without a response: the first such answer panics. *)
Lemma served_outcome paths w :
  (served c paths w).1 =
  if survives w (scrapes paths) then Returned tt else Panicked nil_dereference.
Proof.
  revert w. induction paths as [|path paths IH]; intros w; [done|].
  rewrite scrapes_cons. simpl served. case_bool_decide; [|apply IH].
  unfold survives. rewrite answers_S. simpl forallb.
  destruct (scrape_answer c w); simpl; [apply IH|done|apply IH].
Qed.

(** Every scrape that is served sends the one request of the collector. *)
Lemma served_requests paths w :
  survives w (scrapes paths) = true ->
  requests (trace (served c paths w).2) =
  requests (trace w) ++ replicate (scrapes paths) (scrape_client, scrape_request c).
Proof.
  revert w. induction paths as [|path paths IH]; intros w.
  { intros _. simpl. by rewrite app_nil_r. }
  rewrite scrapes_cons. simpl served. case_bool_decide; [|apply IH].
  unfold survives. rewrite answers_S. simpl forallb.
  intros [Hans Hrest]%andb_true_iff.
  assert (requests (trace (served c paths (extend w (scrape_trace c w))).2) =
          requests (trace w) ++ replicate (S (scrapes paths)) (scrape_client, scrape_request c))
    as Hreq.
  { rewrite IH by done. simpl. by rewrite requests_app, scrape_trace_requests, <- app_assoc. }
  by destruct (scrape_answer c w).
Qed.

End Served.

(** *** The metrics of the exporter among those of a scrape *)

(** The answers that are served: up to the first error without a
    response, which ends the process. *)
Fixpoint upto_error (answers : list DoResult) : list DoResult :=
  match answers with
  | [] => []
  | answer :: answers' =>
      if is_DoErr answer then [answer] else answer :: upto_error answers'
  end.

(** The metrics of the collector of the exporter in a trace. *)
Definition ttn_metrics c (tr : list Event) : list Metric :=
  filter (fun m => metric_desc m ∈ all_descs c) (metrics tr).

Lemma ttn_metrics_app c tr1 tr2 :
  ttn_metrics c (tr1 ++ tr2) = ttn_metrics c tr1 ++ ttn_metrics c tr2.
Proof. unfold ttn_metrics. by rewrite metrics_app, filter_app. Qed.

Lemma scrape_metrics_own c answer :
  Forall (fun m => metric_desc m ∈ all_descs c) (scrape_metrics c answer).
Proof.
  destruct answer as [r|e|r e]; simpl; [destruct (body_err _)|..];
    repeat constructor; apply list_elem_of_In; simpl; tauto.
Qed.

Section Metrics.
Context (apiToken gateway : string).
Abbreviation c := (newTtnCollector apiToken gateway).

(** The names of the exporter are not names of the library. *)
Lemma ttn_names_foreign :
  Forall (fun n => String.prefix "process_" n = false /\
                   n ∉ names_of handler_descs ++ ["ttn_exporter_build_info"])
    (names_of (all_descs c)).
Proof. apply (bool_decide_unpack _). by vm_compute. Qed.

(** No metric of the library has a descriptor of the exporter. *)
Lemma library_metrics_foreign w m :
  m ∈ library_metrics w -> metric_desc m ∉ all_descs c.
Proof.
  intros Hm Hin.
  pose proof (lib_metrics_descs _ _ w libs_collect) as Hlib.
  rewrite Forall_forall in Hlib. apply Hlib in Hm.
  apply (list_elem_of_fmap_2 fqName) in Hin, Hm.
  pose proof ttn_names_foreign as Hnames. rewrite Forall_forall in Hnames.
  destruct (Hnames _ Hin) as [Hp Hother].
  simpl concat in Hm. rewrite fmap_app in Hm. apply elem_of_app in Hm as [Hm|Hm].
  - by apply (prefixed_not_name _ _ _ process_names Hp).
  - apply Hother. simpl in Hm. by rewrite build_info_name in Hm.
Qed.

(** Of the metrics of a scrape, those of the exporter are the ones its
    answer decides. *)
Lemma scrape_trace_ttn_metrics w :
  ttn_metrics c (scrape_trace c w) = scrape_metrics c (scrape_answer c w).
Proof.
  unfold scrape_trace, scrape_events. rewrite ttn_metrics_app. unfold ttn_metrics.
  rewrite metrics_fmap, filter_none by apply library_metrics_foreign.
  change (metrics (?e :: ?l)) with (metrics l). rewrite after_round_trip_metrics.
  apply filter_all. apply Forall_forall, scrape_metrics_own.
Qed.

Lemma served_ttn_metrics paths w :
  ttn_metrics c (trace (served c paths w).2) =
  ttn_metrics c (trace w)
  ++ flat_map (scrape_metrics c) (upto_error (answers c w (scrapes paths))).
Proof.
  revert w. induction paths as [|path paths IH]; intros w.
  { simpl. by rewrite app_nil_r. }
  rewrite scrapes_cons. simpl served. case_bool_decide; [|apply IH].
  rewrite answers_S. simpl upto_error.
  assert (ttn_metrics c (trace (extend w (scrape_trace c w))) =
          ttn_metrics c (trace w) ++ scrape_metrics c (scrape_answer c w)) as Hone
    by (simpl; by rewrite ttn_metrics_app, scrape_trace_ttn_metrics).
  destruct (scrape_answer c w) eqn:Hans; simpl is_DoErr; cbv iota; cbn [snd];
    [|by rewrite Hone|]; rewrite IH, Hone, <- app_assoc; done.
Qed.

End Metrics.

End Run.

(** ** What the program does *)

Section Properties.
Context `{Strconv} `{JsonSyntax} `{TimeFormat} `{NetUrl} `{ClientGolang}.
Implicit Types (p : Process) (c : ttnCollector) (w : World).

(** C10: from a registry that holds the Go collector and has never seen
    the names of the exporter, [Register] returns and leaves to gather
    what was there without the Go collector, then the version collector
    and the collector of the exporter.  The registry learns four names:
    the build information and the three metrics that [Describe]
    advertises; the seven other metrics of a scrape stay unknown to it. *)
Theorem Register_registers before after history apiToken gateway p :
  wf_registry (before ++ go_entry :: after) history ->
  (forall n, n ∈ exporter_names -> n ∉ names_of history) ->
  registry p = registry_of (before ++ go_entry :: after) history ->
  let r := registry (final (Register apiToken gateway) p) in
  outcome (Register apiToken gateway) p = Returned tt /\
  gathered r = (before ++ after).*2
               ++ [version_NewCollector "ttn_exporter";
                   ttn_Collector (newTtnCollector apiToken gateway)] /\
  (descIDs r).*1 = names_of (entry_descs (before ++ after)) ++ exporter_names.
Proof.
  intros Hwf Hfresh Hreg. cbv zeta. unfold outcome, final.
  rewrite (Register_run before after history) by done.
  cbn [fst snd registry set_registry]. split; [done|].
  split; [rewrite gathered_registry_of; unfold registered; by rewrite app_assoc, fmap_app|].
  cbn [registry_of descIDs]. rewrite ids_names. unfold registered.
  rewrite app_assoc, entry_descs_app, names_of_app. f_equal.
  unfold entry_descs, names_of. simpl. by rewrite build_info_name.
Qed.

(** C20: [Register] cannot be called twice in a process: the second
    call panics in [MustRegister], because the version collector is
    registered already, whatever token and gateway it is given. *)
Theorem Register_twice_panics before after history apiToken gateway apiToken' gateway' p :
  wf_registry (before ++ go_entry :: after) history ->
  (forall n, n ∈ exporter_names -> n ∉ names_of history) ->
  registry p = registry_of (before ++ go_entry :: after) history ->
  outcome (Register apiToken gateway ;; Register apiToken' gateway') p
  = Panicked errAlreadyRegistered.
Proof.
  intros Hwf Hfresh Hreg. unfold outcome.
  erewrite bind_returned by (by apply (Register_run before after history)).
  by erewrite (Register_again before after history).
Qed.

Lemma start_fresh transport args environ bind_error incoming :
  fresh (start transport args environ bind_error incoming).
Proof. done. Qed.

Lemma ready_requests p0 :
  requests (trace (world (ready p0))) = requests (trace (world p0)).
Proof.
  unfold ready. cbn [world trace extend]. rewrite requests_app.
  rewrite (silent_requests (ready_events _)) by apply ready_events_silent.
  apply app_nil_r.
Qed.

Lemma ready_survives p0 c n : survives c (world (ready p0)) n = survives c (world p0) n.
Proof.
  unfold survives.
  rewrite (answers_same c (world p0) (world (ready p0))); [done|done|].
  apply ready_round_trips.
Qed.

(** C18: the command line is never read: [flag.Parse] is not called, so
    whatever the arguments, the server listens on [:9101] and the
    handler is at [/metrics], the defaults of the two flags. *)
Theorem program_ignores_command_line transport args environ bind_error incoming :
  let p := final program (start transport args environ bind_error incoming) in
  listening p = [":9101"] /\ mux p = [("/metrics", PromHandler)] /\
  flagSet p = the_flags.
Proof.
  cbv zeta. unfold final. rewrite program_ready by apply start_fresh.
  set (p0 := ready _).
  destruct (ListenAndServe_keeps ":9101" p0) as (Hl & Hm & Hf & _).
  unfold final, bind in *. by destruct (http_ListenAndServe _ p0) as [[e|msg] p'].
Qed.

(** C4: the program ends well exactly when no scrape it serves is
    answered by a transport error: the first such answer panics with a
    nil dereference, in a goroutine of the registry, and nothing
    recovers it. *)
Theorem program_outcome p0 :
  fresh p0 -> wf_world (world p0) -> bind_error p0 = None ->
  url_parses (stats_url (getenv (environ p0) "TTN_GATEWAY_NAME")) = true ->
  outcome program p0 =
  if survives (the_collector (environ p0)) (world p0) (scrapes (incoming p0))
  then Returned tt else Panicked nil_dereference.
Proof.
  intros Hfresh Hwf Hbind Hurl. unfold outcome. rewrite program_run by done.
  pose proof (served_outcome (the_collector (environ p0)) (incoming p0)
                (world (ready p0))) as Hout.
  rewrite ready_survives in Hout.
  destruct (served _ _ _) as [[[]|msg] w]; simpl in *;
    by destruct (survives _ _ _).
Qed.

(** C16: when the first request is a scrape and the transport fails,
    the process dies there: the panic leaves the program, the last
    thing done is the line of the error in the log, no exit code is
    set, and the requests that follow are not served. *)
Theorem program_crashes_on_transport_error p0 e rest :
  fresh p0 -> wf_world (world p0) -> bind_error p0 = None ->
  url_parses (stats_url (getenv (environ p0) "TTN_GATEWAY_NAME")) = true ->
  incoming p0 = "/metrics" :: rest ->
  scrape_answer (the_collector (environ p0)) (world p0) = DoErr e ->
  let p := final program p0 in
  outcome program p0 = Panicked nil_dereference /\
  exit_code p = exit_code p0 /\
  last (trace (world p)) = Some (EvLog (response_error_line e)) /\
  round_trips (trace (world p)) = S (round_trips (trace (world p0))).
Proof.
  intros Hfresh Hwf Hbind Hurl Hin Hans. cbv zeta. unfold outcome, final.
  assert (scrape_answer (the_collector (environ p0)) (world (ready p0)) = DoErr e)
    as Hans' by (unfold scrape_answer; by rewrite ready_round_trips).
  rewrite program_run, Hin, (served_scrape_error _ _ _ e Hans') by done.
  cbn [fst snd world set_world listening_process set_incoming set_listening
       exit_code ready].
  split; [done|]. split; [done|]. split.
  - cbn [trace extend]. by rewrite !last_app.
  - rewrite <- (ready_round_trips p0), <- (scrape_trace_round_trips (the_collector (environ p0))).
    unfold scrape_trace, scrape_events. by rewrite Hans'.
Qed.

(** C19: when the server cannot listen, the error is logged and the
    process exits with status 1; no request is sent to the API. *)
Theorem program_bind_error p0 e :
  fresh p0 -> bind_error p0 = Some e ->
  let p := final program p0 in
  outcome program p0 = Returned tt /\ exit_code p = Some 1 /\
  last (trace (world p)) = Some (EvLog (e +:+ nl)) /\
  requests (trace (world p)) = requests (trace (world p0)).
Proof.
  intros Hfresh Hbind. cbv zeta. unfold outcome, final.
  rewrite (program_bind_error_run _ e) by done.
  cbn [fst snd world set_world set_exit_code set_listening exit_code].
  split; [done|]. split; [done|]. split.
  - cbn [trace extend]. by rewrite last_snoc.
  - cbn [trace extend]. rewrite requests_app, ready_requests. apply app_nil_r.
Qed.

(** C17: while the program survives, it sends one request for each
    scrape it serves and no other: the [GET] of the gateway named in
    [TTN_GATEWAY_NAME] with the token of [TTN_TOKEN] as bearer, both
    taken as they are, empty when unset. *)
Theorem program_requests p0 :
  fresh p0 -> wf_world (world p0) -> bind_error p0 = None ->
  url_parses (stats_url (getenv (environ p0) "TTN_GATEWAY_NAME")) = true ->
  survives (the_collector (environ p0)) (world p0) (scrapes (incoming p0)) = true ->
  requests (trace (world (final program p0))) =
  requests (trace (world p0))
  ++ replicate (scrapes (incoming p0))
       (scrape_client,
        mkRequest "GET" (stats_url (getenv (environ p0) "TTN_GATEWAY_NAME"))
          [("Authorization", "Bearer " +:+ getenv (environ p0) "TTN_TOKEN")]).
Proof.
  intros Hfresh Hwf Hbind Hurl Hs. unfold final. rewrite program_run by done.
  pose proof (served_outcome (the_collector (environ p0)) (incoming p0)
                (world (ready p0))) as Hout.
  pose proof (served_requests (the_collector (environ p0)) (incoming p0)
                (world (ready p0))) as Hreq.
  rewrite ready_survives, Hs in Hout, Hreq. specialize (Hreq eq_refl).
  rewrite ready_requests in Hreq.
  destruct (served _ _ _) as [[[]|msg] w]; [|done]. simpl in *.
  by rewrite requests_app, Hreq, app_nil_r.
Qed.

Lemma ready_metrics p0 : metrics (trace (world (ready p0))) = metrics (trace (world p0)).
Proof.
  assert (forall ds : list Desc, metrics (EvDesc <$> ds) = []) as Hdescs
    by (intros ds; by induction ds).
  unfold ready, ready_events, before_Register_events. cbn [world trace extend].
  rewrite !metrics_app. change (metrics (EvLog ?l :: ?evs)) with (metrics evs).
  rewrite !Hdescs. apply app_nil_r.
Qed.

(** C5: the metrics of the exporter that leave the program are, scrape
    after scrape, those that the answers of the transport decide: ten
    for a body read to its end, [up = 0] alone for a body that cannot be
    read, none for the transport error that ends the process; nothing
    else adds or removes one. *)
Theorem program_metrics p0 :
  fresh p0 -> wf_world (world p0) -> bind_error p0 = None ->
  url_parses (stats_url (getenv (environ p0) "TTN_GATEWAY_NAME")) = true ->
  let c := the_collector (environ p0) in
  ttn_metrics c (trace (world (final program p0))) =
  ttn_metrics c (trace (world p0))
  ++ flat_map (scrape_metrics c)
       (upto_error (answers c (world p0) (scrapes (incoming p0)))).
Proof.
  intros Hfresh Hwf Hbind Hurl. cbv zeta. unfold final. rewrite program_run by done.
  pose proof (served_ttn_metrics (getenv (environ p0) "TTN_TOKEN")
                (getenv (environ p0) "TTN_GATEWAY_NAME") (incoming p0)
                (world (ready p0))) as Hserved.
  fold (the_collector (environ p0)) in Hserved.
  rewrite (answers_same _ (world p0) (world (ready p0)))
    in Hserved by (done || apply ready_round_trips).
  unfold ttn_metrics at 2 in Hserved. rewrite ready_metrics in Hserved.
  destruct (served _ _ _) as [[[]|msg] w]; simpl in Hserved |- *; [|done].
  by rewrite ttn_metrics_app, Hserved, app_nil_r.
Qed.

End Properties.

(** ** The program on concrete runs *)

(** An API that is down, and one that answers every request with the
    document of the example. *)
Definition api_down : nat -> Request -> DoResult :=
  fun _ _ => DoErr "connection refused".

Definition api_up : nat -> Request -> DoResult := fun _ _ => DoOk example_response.

Definition example_environ : list (string * string) :=
  [("TTN_TOKEN", "token"); ("TTN_GATEWAY_NAME", "my-gateway")].

(** A process that is scraped twice while the API is down, one whose
    port is taken, and one that is scraped twice, with nothing set in
    its environment, while the API is up. *)
Definition crashing_process : Process :=
  start api_down ["-web.listen-address=:8080"] example_environ None
    ["/metrics"; "/metrics"].

Definition unbound_process : Process :=
  start api_up [] example_environ (Some "listen tcp :9101: bind: address already in use")
    ["/metrics"].

Definition unconfigured_process : Process :=
  start api_up [] [] None ["/metrics"; "/favicon.ico"; "/metrics"].

Lemma Register_registers_witness :
  let r := registry (final (Register "token" "my-gateway") crashing_process) in
  outcome (Register "token" "my-gateway") crashing_process = Returned tt /\
  gathered r = ([process_entry] ++ []).*2
               ++ [version_NewCollector "ttn_exporter";
                   ttn_Collector (newTtnCollector "token" "my-gateway")] /\
  (descIDs r).*1 = names_of (entry_descs ([process_entry] ++ [])) ++ exporter_names.
Proof.
  apply (Register_registers [process_entry] [] (process_descs ++ go_descs)
           "token" "my-gateway" crashing_process);
    [apply default_wf|intros n Hn; apply library_fresh, elem_of_app; by right
    |reflexivity].
Defined.

Lemma Register_twice_panics_witness :
  outcome (Register "token" "my-gateway" ;; Register "other" "other-gateway")
    crashing_process
  = Panicked errAlreadyRegistered.
Proof.
  apply (Register_twice_panics [process_entry] [] (process_descs ++ go_descs)
           "token" "my-gateway" "other" "other-gateway" crashing_process);
    [apply default_wf|intros n Hn; apply library_fresh, elem_of_app; by right
    |reflexivity].
Defined.

Lemma program_outcome_witness :
  outcome program crashing_process =
  if survives (the_collector (environ crashing_process)) (world crashing_process)
       (scrapes (incoming crashing_process))
  then Returned tt else Panicked nil_dereference.
Proof.
  apply (program_outcome crashing_process);
    [apply start_fresh|apply wf_world_empty|reflexivity|by vm_compute].
Defined.

Lemma program_crashes_on_transport_error_witness :
  let p := final program crashing_process in
  outcome program crashing_process = Panicked nil_dereference /\
  exit_code p = exit_code crashing_process /\
  last (trace (world p)) = Some (EvLog (response_error_line "connection refused")) /\
  round_trips (trace (world p)) = S (round_trips (trace (world crashing_process))).
Proof.
  apply (program_crashes_on_transport_error crashing_process "connection refused"
           ["/metrics"]);
    [apply start_fresh|apply wf_world_empty|reflexivity|by vm_compute
    |reflexivity|reflexivity].
Defined.

Lemma program_bind_error_witness :
  let p := final program unbound_process in
  outcome program unbound_process = Returned tt /\ exit_code p = Some 1 /\
  last (trace (world p))
  = Some (EvLog ("listen tcp :9101: bind: address already in use" +:+ nl)) /\
  requests (trace (world p)) = requests (trace (world unbound_process)).
Proof.
  apply (program_bind_error unbound_process
           "listen tcp :9101: bind: address already in use");
    [apply start_fresh|reflexivity].
Defined.

Lemma program_requests_witness :
  requests (trace (world (final program unconfigured_process))) =
  requests (trace (world unconfigured_process))
  ++ replicate (scrapes (incoming unconfigured_process))
       (scrape_client,
        mkRequest "GET"
          (stats_url (getenv (environ unconfigured_process) "TTN_GATEWAY_NAME"))
          [("Authorization",
            "Bearer " +:+ getenv (environ unconfigured_process) "TTN_TOKEN")]).
Proof.
  apply (program_requests unconfigured_process);
    [apply start_fresh|apply wf_world_empty|reflexivity|by vm_compute|by vm_compute].
Defined.

Lemma program_metrics_witness :
  let c := the_collector (environ unconfigured_process) in
  ttn_metrics c (trace (world (final program unconfigured_process))) =
  ttn_metrics c (trace (world unconfigured_process))
  ++ flat_map (scrape_metrics c)
       (upto_error (answers c (world unconfigured_process)
                      (scrapes (incoming unconfigured_process)))).
Proof.
  apply (program_metrics unconfigured_process);
    [apply start_fresh|apply wf_world_empty|reflexivity|by vm_compute].
Defined.
