(* ===== verification/Spec.v ===== *)
(** * Spec: the contract of the collector and where [Collect] meets it

    The specification describes the collector by a function [fetch] that
    classifies the outcome of the request (a snapshot, or one of the
    errors [ConnectionError], [HTTPStatusError], [DecodeError],
    [FieldParseError]) and by what [collect] emits for each: the ten
    pairs for a snapshot, the single pair [up = 0] for an error.  This
    file states that contract on the answers of the transport and proves
    on which answers [Collect] emits what the contract asks for: it does
    on a clean success and on a failed read, and on no other answer. *)

From S2P Require Import Prelude GoMonad Float64 Strconv Json Prometheus.
From S2P Require Import Stats Http Runtime Collector StrconvRef JsonRef.

#[local] Open Scope Z_scope.

(** ** The contract *)

Inductive FetchError : Type :=
| ConnectionError
| TimeoutError
| HTTPStatusError (code : Z)
| DecodeError
| FieldParseError (field : string).

#[export] Instance FetchError_eq_dec : EqDecision FetchError.
Proof. solve_decision. Defined.

(** What the contract keeps of a document: the two counts as floats and
    the seven counters. *)
Record Snapshot : Type := mkSnapshot {
  snap_uplink : float64;
  snap_downlink : float64;
  snap_metrics : MetricsT;
}.

Definition is_success (code : Z) : bool := (200 <=? code) && (code <? 300).

Section Contract.
Context `{Strconv} `{JsonSyntax} `{TimeFormat}.

(** The counts of a decoded document, or the field that is no number. *)
Definition parse_counts (g : GatewayConnectionStats) : Snapshot + FetchError :=
  match ParseFloat (UplinkCount g) 64, ParseFloat (DownlinkCount g) 64 with
  | (u, None), (d, None) => inl (mkSnapshot u d (Metrics (LastStatus g)))
  | (_, Some _), _ => inr (FieldParseError "uplink_count")
  | _, (_, Some _) => inr (FieldParseError "downlink_count")
  end.

(** [fetch], on the answer of the transport: a transport failure, a
    status that is no success, a body that cannot be read or decoded and
    a count that is no number are errors; fetch is all or nothing. *)
Definition fetch (answer : DoResult) : Snapshot + FetchError :=
  match answer with
  | DoErr _ | DoRedirectErr _ _ => inr ConnectionError
  | DoOk r =>
      if negb (is_success (StatusCode r)) then inr (HTTPStatusError (StatusCode r))
      else
        match body_err (resp_body r) with
        | Some _ => inr ConnectionError
        | None =>
            match Unmarshal dec_GatewayConnectionStats (body_data (resp_body r))
                    zero_GatewayConnectionStats with
            | (_, Some _) => inr DecodeError
            | (g, None) => parse_counts g
            end
        end
  end.

(** [collect]: the ten pairs of a snapshot, or [up = 0] alone. *)
Definition collect (c : ttnCollector) (answer : DoResult) : list Metric :=
  match fetch answer with
  | inl s =>
      let m := snap_metrics s in
      [gauge (up c) f64_one;
       gauge (uplinkCount c) (snap_uplink s);
       gauge (downlinkCount c) (snap_downlink s);
       gauge (metricsAckr c) (float64_of_int (Ackr m));
       gauge (metricsLpps c) (float64_of_int (Lpps m));
       gauge (metricsRxfw c) (float64_of_int (Rxfw m));
       gauge (metricsRxin c) (float64_of_int (Rxin m));
       gauge (metricsRxok c) (float64_of_int (Rxok m));
       gauge (metricsTxin c) (float64_of_int (Txin m));
       gauge (metricsTxok c) (float64_of_int (Txok m))]
  | inr _ => [gauge (up c) f64_zero]
  end.

(** [describe]: every descriptor [collect] can emit. *)
Definition describe (c : ttnCollector) : list Desc := all_descs c.

(** The answers on which the code does what the contract asks: a
    response that the redirect policy stopped, a body whose read fails,
    and a body read to its end for which [fetch] gives a snapshot. *)
Definition clean (answer : DoResult) : bool :=
  match answer with
  | DoErr _ => false
  | DoRedirectErr _ _ => true
  | DoOk r =>
      match body_err (resp_body r) with
      | Some _ => true
      | None => if fetch answer is inl _ then true else false
      end
  end.

End Contract.

(** ** [Collect] against the contract *)

Section Refinement.
Context `{Strconv} `{JsonSyntax} `{TimeFormat} `{NetUrl}.
Implicit Types (c : ttnCollector) (w : World) (answer : DoResult).

Lemma collect_nonempty c answer : collect c answer <> [].
Proof. unfold collect. by destruct (fetch answer). Qed.

Lemma collect_error c answer e :
  fetch answer = inr e -> collect c answer = [gauge (up c) f64_zero].
Proof. unfold collect. by intros ->. Qed.

(** For a snapshot, the contract emits what [send_stats] sends for the
    decoded document. *)
Lemma collect_snapshot c r s :
  body_err (resp_body r) = None -> fetch (DoOk r) = inl s ->
  collect c (DoOk r) = stats_metrics c (decoded (body_data (resp_body r))).
Proof.
  intros Herr Hs. unfold collect. rewrite Hs. unfold fetch in Hs.
  rewrite Herr in Hs. unfold stats_metrics, decoded.
  destruct (negb _); [done|].
  destruct (Unmarshal _ _ _) as [g [e|]]; [done|]. simpl.
  unfold parse_counts in Hs. rewrite !ParseFloat_8.
  destruct (ParseFloat (UplinkCount g) 64) as [u [eu|]]; [done|].
  destruct (ParseFloat (DownlinkCount g) 64) as [d [ed|]]; by simplify_eq.
Qed.

(** The metrics of a scrape, by the answer. *)
Lemma Collect_sent c w :
  wf_world w -> sound c -> url_parses (stats_url (gateway c)) = true ->
  sent (Collect c) w =
  scrape_metrics c (transport w (round_trips (trace w)) (scrape_request c)).
Proof.
  intros Hwf Hc Hurl.
  pose proof (Collect_run c w Hwf Hc Hurl) as Hrun. cbv zeta in Hrun.
  unfold sent. rewrite (new_events_run _ _ _ _ Hrun). unfold scrape_events.
  change (metrics (?e :: ?l)) with (metrics l). apply after_round_trip_metrics.
Qed.

(** On a clean answer the code emits what the contract emits. *)
Lemma scrape_metrics_clean c answer :
  clean answer = true -> scrape_metrics c answer = collect c answer.
Proof.
  destruct answer as [r|e|r e]; [|done|done]. unfold clean. simpl scrape_metrics.
  destruct (body_err (resp_body r)) as [e|] eqn:Herr.
  - intros _. unfold collect, fetch. rewrite Herr. by destruct (negb _).
  - destruct (fetch (DoOk r)) as [s|e] eqn:Hs; [|done]. intros _.
    symmetry. by eapply collect_snapshot.
Qed.

(** On any other answer it emits nothing, or ten metrics where the
    contract emits one. *)
Lemma scrape_metrics_unclean c answer :
  clean answer = false -> scrape_metrics c answer <> collect c answer.
Proof.
  destruct answer as [r|e|r e]; [|intros _; symmetry; apply collect_nonempty|done].
  unfold clean. simpl scrape_metrics.
  destruct (body_err (resp_body r)) as [e|]; [done|].
  destruct (fetch (DoOk r)) as [s|e] eqn:Hs; [done|]. intros _.
  by rewrite (collect_error _ _ _ Hs).
Qed.

(** C2: refinement on clean answers: when the request is stopped by the
    redirect policy, when reading the body fails, and when the status is
    a success and the body decodes without error into counts that are
    numbers, [Collect] returns and sends exactly the pairs the contract's
    [collect] emits. *)
Theorem Collect_meets_contract c w :
  wf_world w -> sound c -> url_parses (stats_url (gateway c)) = true ->
  let answer := transport w (round_trips (trace w)) (scrape_request c) in
  clean answer = true ->
  outcome (Collect c) w = Returned tt /\ sent (Collect c) w = collect c answer.
Proof.
  intros Hwf Hc Hurl answer Hclean. split.
  - rewrite (outcome_run _ _ _ _ (Collect_run c w Hwf Hc Hurl)). fold answer.
    by destruct answer.
  - rewrite Collect_sent by done. by apply scrape_metrics_clean.
Qed.

(** C9: on every other answer the code misses the contract: after a
    transport error, a status that is no success, a body that does not
    decode without error or a count that is no number, what [Collect]
    sends is not what [collect] emits. *)
Theorem Collect_misses_contract c w :
  wf_world w -> sound c -> url_parses (stats_url (gateway c)) = true ->
  let answer := transport w (round_trips (trace w)) (scrape_request c) in
  clean answer = false ->
  sent (Collect c) w <> collect c answer.
Proof.
  intros Hwf Hc Hurl answer Hclean. rewrite Collect_sent by done.
  by apply scrape_metrics_unclean.
Qed.

End Refinement.

Lemma Collect_meets_contract_witness :
  outcome (Collect example_collector) (answering (DoOk example_response))
    = Returned tt /\
  sent (Collect example_collector) (answering (DoOk example_response))
    = collect example_collector (DoOk example_response).
Proof.
  apply (Collect_meets_contract example_collector (answering (DoOk example_response)));
    [apply answering_wf | apply example_collector_sound | reflexivity | by vm_compute].
Defined.

Definition not_found_response : Response :=
  mkResponse 404 (mkBody (dq "{'code':5,'message':'gateway not connected'}") None).

Lemma Collect_misses_contract_witness :
  sent (Collect example_collector) (answering (DoOk not_found_response))
  <> collect example_collector (DoOk not_found_response).
Proof.
  apply (Collect_misses_contract example_collector
           (answering (DoOk not_found_response)));
    [apply answering_wf | apply example_collector_sound | reflexivity | by vm_compute].
Defined.
